(** * Mod provider abstraction: registry, service and the two adapters

    A shallow embedding of
      - [providers/mod/types.ts]             (the unified data model),
      - [providers/mod/ModProviderRegistry.ts],
      - [services/ModProviderService.ts],
      - [ModtaleProvider] and [CurseForgeProvider],
      - [parseSearchParams] of [routes/mods.ts] and [buildSearchQuery]
        of the browser's [modProviderApi.ts],
    followed by the properties of the design document that concern
    them and by further properties read off the code.

    TypeScript types are erased at run time and both adapters read the
    upstream reply through an unchecked cast ([request<T>] returns
    [data as T]).  Upstream payloads are therefore modelled as untyped
    JSON values with JavaScript's own conversions, while every object
    literal built by this code is a record whose fields hold whatever the
    code stores in them.

    Embedded in full: the registry; the read operations of the service;
    of each adapter the transforms, [request], [initialize],
    [searchProjects], [getProject], [getVersionDependencies],
    [getCategories], [getTags] and [downloadVersion] (and, for
    CurseForge, the game and category discovery); of the routes
    [parseSearchParams], and of the browser's client
    [buildSearchQuery].  The service's [initialize] and
    [setProviderApiKey] and the CurseForge adapter's [setApiKey], which
    starts a discovery it does not wait for, are left out.

    The fragment of JavaScript: numbers are the integers and [NaN],
    strings are ASCII, and a value from upstream is converted as a
    plain one ([JS.plain]: no object with a [toString] of its own and
    no number beyond the safe integers).  Where a statement depends on one of these
    it says so in a hypothesis: [Spec.safeInteger] for numbers whose
    arithmetic or decimal text it gives, [JS.plain] for values whose
    conversion it gives or relies on. *)

From Stdlib Require Import ZArith List String Ascii Bool Lia.
From Stdlib Require Import Decimal DecimalString DecimalPos.
Import ListNotations.
Local Open Scope Z_scope.
Local Open Scope list_scope.
Local Open Scope string_scope.

Set Implicit Arguments.
Set Warnings "-register-all".

(* ================================================================== *)
(** * JavaScript values and the operators the code applies to them *)
(* ================================================================== *)

Module JS.

(** Numbers: the integers and [NaN].  Fractions, infinities and the
    loss of precision above 2^53 are outside this fragment: arithmetic
    here is exact and a number prints as its decimal digits, which is
    what a double does for the safe integers (those of magnitude below
    2^53).  A statement that gives the value of a sum, a product or a
    printed number takes the numbers involved to be safe integers. *)
Inductive number : Type :=
| Num (z : Z)
| NaN.

(** A JSON value as [response.json()] delivers it, plus [undefined]
    for absent properties.  [Obj] lists the object's own properties;
    the first binding of a key is the one a property read sees.
    Strings are sequences of ASCII characters. *)
Inductive value : Type :=
| Undefined
| Null
| Bool (b : bool)
| Number (n : number)
| Str (s : string)
| Arr (items : list value)
| Obj (fields : list (string * value)).

Definition int (z : Z) : value := Number (Num z).

(** Exceptions.  [Error] is [new Error(message)]. *)
Inductive exn : Type :=
| TypeError
| SyntaxError
| Error (message : string).

Inductive result (A : Type) : Type :=
| Ok (a : A)
| Throw (e : exn).
Arguments Ok {A} a.
Arguments Throw {A} e.

Definition rbind {A B} (r : result A) (k : A -> result B) : result B :=
  match r with
  | Ok a => k a
  | Throw e => Throw e
  end.

(** [xs.map(f)] where [f] may throw: elements are visited left to right
    and the first exception aborts the traversal. *)
Fixpoint mapR {A B} (f : A -> result B) (xs : list A) : result (list B) :=
  match xs with
  | [] => Ok []
  | x :: xs' =>
      rbind (f x) (fun y => rbind (mapR f xs') (fun ys => Ok (y :: ys)))
  end.

(** ** Truthiness, [||] and [??] *)

Definition truthy (v : value) : bool :=
  match v with
  | Undefined | Null => false
  | Bool b => b
  | Number (Num z) => negb (z =? 0)%Z
  | Number NaN => false
  | Str s => negb (String.eqb s "")
  | Arr _ | Obj _ => true
  end.

(** [a || b] *)
Definition or (a b : value) : value := if truthy a then a else b.

(** [a ?? b] *)
Definition nullish (a b : value) : value :=
  match a with
  | Undefined | Null => b
  | _ => a
  end.

Definition isArray (v : value) : bool :=
  match v with Arr _ => true | _ => false end.

Definition isString (v : value) : bool :=
  match v with Str _ => true | _ => false end.

(** [typeof v === 'object'] *)
Definition typeofObject (v : value) : bool :=
  match v with Null | Arr _ | Obj _ => true | _ => false end.

(** ** Property reads *)

Fixpoint lookup (k : string) (fields : list (string * value)) : option value :=
  match fields with
  | [] => None
  | (k', v) :: rest => if String.eqb k k' then Some v else lookup k rest
  end.

(** [v.k] for the data property names this code reads; none of them is
    a member of a built-in prototype, so a read on a primitive or an
    array yields [undefined] ([length] apart). *)
Definition get (v : value) (k : string) : result value :=
  match v with
  | Undefined | Null => Throw TypeError
  | Obj fields => Ok (match lookup k fields with Some x => x | None => Undefined end)
  | Arr items =>
      Ok (if String.eqb k "length" then int (Z.of_nat (List.length items)) else Undefined)
  | Str s =>
      Ok (if String.eqb k "length" then int (Z.of_nat (String.length s)) else Undefined)
  | Bool _ | Number _ => Ok Undefined
  end.

(** [v?.k] *)
Definition getOpt (v : value) (k : string) : value :=
  match v with
  | Undefined | Null => Undefined
  | _ => match get v k with Ok x => x | Throw _ => Undefined end
  end.

(** ['k' in v], guarded in the source by [typeof v === 'object'] and
    [v] being truthy, so [v] is an array or an object here. *)
Definition hasProperty (k : string) (v : value) : bool :=
  match v with
  | Obj fields => match lookup k fields with Some _ => true | None => false end
  | Arr _ => String.eqb k "length"
  | _ => false
  end.

Definition charString (c : ascii) : string := String c EmptyString.

(** [v[0]] *)
Definition first (v : value) : result value :=
  match v with
  | Undefined | Null => Throw TypeError
  | Arr items => Ok (match items with x :: _ => x | [] => Undefined end)
  | Str s => Ok (match s with String c _ => Str (charString c) | EmptyString => Undefined end)
  | Obj fields => Ok (match lookup "0" fields with Some x => x | None => Undefined end)
  | Bool _ | Number _ => Ok Undefined
  end.

(** [v?.[0]] *)
Definition firstOpt (v : value) : value :=
  match v with
  | Undefined | Null => Undefined
  | _ => match first v with Ok x => x | Throw _ => Undefined end
  end.

(** ** [String(v)] and [Number(v)]

    [String(v)], a template literal, [new Error(v)], [Number(v)] and
    the operands of [+], [<] and [>=] convert an object through its
    [toString].  An object parsed from JSON that has an own property
    named [toString] has no callable one, and its conversion throws a
    [TypeError]; so does the conversion of an array that holds such an
    object.  [ToString] and [ToNumber] below are the conversions of the
    other values, and give such an object the text of an ordinary one.
    A statement that says what a conversion yields, or that it does not
    fail, takes the converted value to be [plain]. *)

(** No object inside [v] has an own property [toString], and every
    number inside [v] is [NaN] or a safe integer. *)
Fixpoint plain (v : value) : bool :=
  match v with
  | Number (Num z) => (Z.abs z <? 2 ^ 53)%Z
  | Arr items => List.forallb plain items
  | Obj fields =>
      negb (match lookup "toString" fields with Some _ => true | None => false end)
      && List.forallb (fun kv => let '(_, x) := kv in plain x) fields
  | _ => true
  end.

Definition numberToString (n : number) : string :=
  match n with
  | Num z => NilZero.string_of_int (Z.to_int z)
  | NaN => "NaN"
  end.

Fixpoint ToString (v : value) : string :=
  match v with
  | Undefined => "undefined"
  | Null => "null"
  | Bool true => "true"
  | Bool false => "false"
  | Number n => numberToString n
  | Str s => s
  | Arr items =>
      String.concat ","
        (List.map (fun x => match x with
                            | Undefined | Null => ""
                            | _ => ToString x
                            end) items)
  | Obj _ => "[object Object]"
  end.

Definition isWhitespace (c : ascii) : bool :=
  match nat_of_ascii c with
  | 9%nat | 10%nat | 11%nat | 12%nat | 13%nat | 32%nat => true
  | _ => false
  end.

Fixpoint trimStart (s : string) : string :=
  match s with
  | String c rest => if isWhitespace c then trimStart rest else s
  | EmptyString => EmptyString
  end.

Fixpoint allWhitespace (s : string) : bool :=
  match s with
  | String c rest => isWhitespace c && allWhitespace rest
  | EmptyString => true
  end.

Definition digit (c : ascii) : option Z :=
  let n := nat_of_ascii c in
  if ((48 <=? n) && (n <=? 57))%nat then Some (Z.of_nat (n - 48)) else None.

(** Decimal digits followed by optional white space. *)
Fixpoint digits (acc : Z) (seen : bool) (s : string) : number :=
  match s with
  | EmptyString => if seen then Num acc else NaN
  | String c rest =>
      match digit c with
      | Some d => digits (10 * acc + d) true rest
      | None => if seen && allWhitespace s then Num acc else NaN
      end
  end.

Definition negate (n : number) : number :=
  match n with Num z => Num (- z) | NaN => NaN end.

(** [Number(s)] on the integer fragment: white space is trimmed, the
    empty string is 0, a signed run of decimal digits is its value and
    anything else is [NaN].  The other numeric literals that [Number]
    reads (a fraction, an exponent, a hexadecimal, octal or binary
    literal, [Infinity]) are outside the fragment and come out as
    [NaN] here; the statements name this conversion and do not
    evaluate it on such a string. *)
Definition StringToNumber (s : string) : number :=
  match trimStart s with
  | EmptyString => Num 0
  | String "+"%char rest => digits 0 false rest
  | String "-"%char rest => negate (digits 0 false rest)
  | t => digits 0 false t
  end.

Definition ToNumber (v : value) : number :=
  match v with
  | Undefined => NaN
  | Null => Num 0
  | Bool true => Num 1
  | Bool false => Num 0
  | Number n => n
  | Str s => StringToNumber s
  | Arr _ => StringToNumber (ToString v)
  | Obj _ => NaN
  end.

(** ** Arithmetic and comparison *)

Definition numAdd (a b : number) : number :=
  match a, b with
  | Num x, Num y => Num (x + y)
  | _, _ => NaN
  end.

(** [ToPrimitive]: arrays and plain objects become their string form. *)
Definition ToPrimitive (v : value) : value :=
  match v with
  | Arr _ | Obj _ => Str (ToString v)
  | _ => v
  end.

(** [a + b] *)
Definition add (a b : value) : value :=
  let pa := ToPrimitive a in
  let pb := ToPrimitive b in
  if isString pa || isString pb
  then Str (ToString pa ++ ToString pb)
  else Number (numAdd (ToNumber pa) (ToNumber pb)).

(** [a < b] *)
Definition lt (a b : value) : bool :=
  match ToPrimitive a, ToPrimitive b with
  | Str x, Str y => String.ltb x y
  | pa, pb =>
      match ToNumber pa, ToNumber pb with
      | Num x, Num y => (x <? y)%Z
      | _, _ => false
      end
  end.

Definition numEqb (a b : number) : bool :=
  match a, b with
  | Num x, Num y => (x =? y)%Z
  | _, _ => false
  end.

(** [a >= b] *)
Definition ge (a b : value) : bool :=
  match ToPrimitive a, ToPrimitive b with
  | Str x, Str y => negb (String.ltb x y)
  | pa, pb =>
      match ToNumber pa, ToNumber pb with
      | Num x, Num y => (y <=? x)%Z
      | _, _ => false
      end
  end.

(** [a === b].  Two arrays or objects are equal only when they are the
    same reference; the values compared here come from different
    places of a parsed reply or from a literal, so they never are. *)
Definition strictEq (a b : value) : bool :=
  match a, b with
  | Undefined, Undefined => true
  | Null, Null => true
  | Bool x, Bool y => Bool.eqb x y
  | Number x, Number y => numEqb x y
  | Str x, Str y => String.eqb x y
  | _, _ => false
  end.

(** SameValueZero, the key equality of [Map] and [Set]: as [===]
    except that [NaN] equals itself. *)
Definition sameValueZero (a b : value) : bool :=
  match a, b with
  | Number NaN, Number NaN => true
  | _, _ => strictEq a b
  end.

(** ** String methods *)

Definition lowerChar (c : ascii) : ascii :=
  let n := nat_of_ascii c in
  if ((65 <=? n) && (n <=? 90))%nat then ascii_of_nat (n + 32) else c.

Fixpoint toLowerCase (s : string) : string :=
  match s with
  | EmptyString => EmptyString
  | String c rest => String (lowerChar c) (toLowerCase rest)
  end.

(** [s.includes(t)] *)
Fixpoint includes (t s : string) : bool :=
  String.prefix t s ||
  match s with
  | EmptyString => false
  | String _ rest => includes t rest
  end.

(** [s.substring(0, n)] *)
Definition substring0 (n : nat) (s : string) : string := String.substring 0 n s.

(** [v.k] once [v] is known not to be [null] or [undefined]. *)
Definition prop (v : value) (k : string) : value :=
  match get v k with Ok x => x | Throw _ => Undefined end.

(** Fails as the first property read on [v] would. *)
Definition nonNullish (v : value) : result unit :=
  match v with
  | Undefined | Null => Throw TypeError
  | _ => Ok tt
  end.

(** ** Array and iteration methods called on untyped values *)

(** [v.map(f)]: only an array has the method. *)
Definition map {B} (v : value) (f : value -> result B) : result (list B) :=
  match v with
  | Arr items => mapR f items
  | _ => Throw TypeError
  end.

Fixpoint findR (f : value -> result bool) (xs : list value) : result (option value) :=
  match xs with
  | [] => Ok None
  | x :: xs' =>
      rbind (f x) (fun b => if b then Ok (Some x) else findR f xs')
  end.

(** [v.find(f)]; the result is the element or [undefined]. *)
Definition find (v : value) (f : value -> result bool) : result value :=
  match v with
  | Arr items =>
      rbind (findR f items)
            (fun o => Ok (match o with Some x => x | None => Undefined end))
  | _ => Throw TypeError
  end.

Fixpoint chars (s : string) : list value :=
  match s with
  | EmptyString => []
  | String c rest => Str (charString c) :: chars rest
  end.

(** The elements [for (const x of v)] visits: arrays and strings are
    iterable, nothing else among JSON values is. *)
Definition iterate (v : value) : result (list value) :=
  match v with
  | Arr items => Ok items
  | Str s => Ok (chars s)
  | _ => Throw TypeError
  end.

(** [v.toLowerCase()] *)
Definition callToLowerCase (v : value) : result string :=
  match v with
  | Str s => Ok (toLowerCase s)
  | _ => Throw TypeError
  end.

(** [v.includes(t)] for a string [t]: a substring test on a string, a
    membership test on an array. *)
Definition callIncludes (v : value) (t : string) : result bool :=
  match v with
  | Str s => Ok (includes t s)
  | Arr items => Ok (List.existsb (fun x => sameValueZero x (Str t)) items)
  | _ => Throw TypeError
  end.

(** [v.substring(0, n)] *)
Definition callSubstring0 (v : value) (n : nat) : result string :=
  match v with
  | Str s => Ok (substring0 n s)
  | _ => Throw TypeError
  end.

(** [s.charAt(0)] *)
Definition charAt0 (s : string) : string :=
  match s with
  | EmptyString => EmptyString
  | String c _ => charString c
  end.

(** [s.slice(1)] *)
Definition slice1 (s : string) : string :=
  match s with
  | EmptyString => EmptyString
  | String _ rest => rest
  end.

Fixpoint filterR (f : value -> result bool) (xs : list value) : result (list value) :=
  match xs with
  | [] => Ok []
  | x :: xs' =>
      rbind (f x) (fun keep =>
        rbind (filterR f xs') (fun ys => Ok (if keep then x :: ys else ys)))
  end.

(** [v.filter(f)]: only an array has the method. *)
Definition filter (v : value) (f : value -> result bool) : result (list value) :=
  match v with
  | Arr items => filterR f items
  | _ => Throw TypeError
  end.

(** ** [parseInt] and [split] *)

(** The value of the longest prefix of decimal digits, if there is one. *)
Fixpoint leadingDigits (acc : option Z) (s : string) : option Z :=
  match s with
  | EmptyString => acc
  | String c rest =>
      match digit c with
      | Some d =>
          leadingDigits (Some (10 * (match acc with Some a => a | None => 0 end) + d)) rest
      | None => acc
      end
  end.

(** [parseInt(s, 10)]: leading white space is skipped, a sign is read,
    then the longest run of decimal digits; what follows is ignored,
    and without a digit the result is [NaN]. *)
Definition parseInt10 (s : string) : number :=
  let signed (sign : Z) (body : string) :=
    match leadingDigits None body with
    | Some z => Num (sign * z)
    | None => NaN
    end in
  match trimStart s with
  | String "-"%char rest => signed (-1) rest
  | String "+"%char rest => signed 1 rest
  | t => signed 1 t
  end.

(** [s.split(sep)] for a one-character separator. *)
Fixpoint split (sep : ascii) (s : string) : list string :=
  match s with
  | EmptyString => [EmptyString]
  | String c rest =>
      if Ascii.eqb c sep then EmptyString :: split sep rest
      else match split sep rest with
           | piece :: pieces => String c piece :: pieces
           | [] => [String c EmptyString]
           end
  end.

(** ** [URLSearchParams] *)

Definition hexDigit (n : nat) : ascii :=
  if (n <? 10)%nat then ascii_of_nat (48 + n) else ascii_of_nat (55 + n).

Definition unreserved (c : ascii) : bool :=
  let n := nat_of_ascii c in
  ((48 <=? n) && (n <=? 57) || (65 <=? n) && (n <=? 90) || (97 <=? n) && (n <=? 122)
   || (n =? 42) || (n =? 45) || (n =? 46) || (n =? 95))%nat.

(** application/x-www-form-urlencoded serialisation of one string. *)
Fixpoint formEncode (s : string) : string :=
  match s with
  | EmptyString => EmptyString
  | String c rest =>
      let n := nat_of_ascii c in
      if unreserved c then String c (formEncode rest)
      else if (n =? 32)%nat then String "+"%char (formEncode rest)
      else String "%"%char
             (String (hexDigit (n / 16)) (String (hexDigit (n mod 16)) (formEncode rest)))
  end.

(** [queryParams.toString()] for the pairs appended so far. *)
Definition searchParamsToString (pairs : list (string * string)) : string :=
  String.concat "&"
    (List.map (fun kv => formEncode (fst kv) ++ "=" ++ formEncode (snd kv)) pairs).

End JS.

(* ================================================================== *)
(** * Effects: adapter state, the event trace and exceptions *)
(* ================================================================== *)

Module Eff.
Import JS.

Inductive level : Type := info | warn | error.

(** What an operation leaves behind, oldest first: an HTTP request
    handed to [fetch], a line written to the logger, and the
    delegation of an asynchronous interface method to an adapter. *)
Inductive event : Type :=
| Fetch (url : string) (headers : list (string * string))
| Log (l : level) (message : string)
| Call (providerId : string) (method : string).

(** A computation over a store [S] (the mutable instance fields), a
    trace and exceptions.  A thrown exception keeps the store and trace
    reached so far.  The [await]s of the source are sequenced in program
    order. *)
Definition M (S A : Type) : Type := S -> list event -> result A * S * list event.

Definition ret {S A} (a : A) : M S A := fun s t => (Ok a, s, t).

Definition bind {S A B} (c : M S A) (k : A -> M S B) : M S B :=
  fun s t =>
    match c s t with
    | (Ok a, s', t') => k a s' t'
    | (Throw e, s', t') => (Throw e, s', t')
    end.

Definition throw {S A} (e : exn) : M S A := fun s t => (Throw e, s, t).

(** [try { c } catch (e) { handler e }] *)
Definition tryCatch {S A} (c : M S A) (handler : exn -> M S A) : M S A :=
  fun s t =>
    match c s t with
    | (Ok a, s', t') => (Ok a, s', t')
    | (Throw e, s', t') => handler e s' t'
    end.

Definition lift {S A} (r : result A) : M S A := fun s t => (r, s, t).

Definition read {S} : M S S := fun s t => (Ok s, s, t).

Definition write {S} (s' : S) : M S unit := fun _ t => (Ok tt, s', t).

Definition emit {S} (e : event) : M S unit := fun s t => (Ok tt, s, (t ++ [e])%list).

Definition log {S} (l : level) (message : string) : M S unit := emit (Log l message).

Definition outcome {S A} (x : result A * S * list event) : result A := fst (fst x).
Definition store {S A} (x : result A * S * list event) : S := snd (fst x).
Definition trace {S A} (x : result A * S * list event) : list event := snd x.

(** What [fetch] and the methods of its [Response] deliver. *)
Record Response : Type := {
  ok : bool;
  status : Z;
  statusText : string;
  text : string;             (* [response.text()] *)
  json : option value;       (* [JSON.parse] of [text]; [None] when it throws *)
}.

(** A request that is rejected throws.  The code never looks at what
    was thrown; the exception is carried here as an [Error] with the
    rejection's message, whatever its class at run time. *)
Inductive reply : Type :=
| Rejected (message : string)   (* [fetch] itself rejects *)
| Responded (r : Response).

(** The outside world: the reply to a request, given the number of
    requests issued before it. *)
Definition Upstream : Type := nat -> string -> reply.

Definition isFetch (e : event) : bool :=
  match e with Fetch _ _ => true | _ => false end.

Definition fetch {S} (net : Upstream) (url : string) (headers : list (string * string))
  : M S Response :=
  fun s t =>
    match net (List.length (List.filter isFetch t)) url with
    | Rejected m => (Throw (Error m), s, (t ++ [Fetch url headers])%list)
    | Responded r => (Ok r, s, (t ++ [Fetch url headers])%list)
    end.

(** [response.body] of the reply to a request, indexed like
    [Upstream]; [None] when the reply carries no body. *)
Definition Bodies (Stream : Type) : Type := nat -> string -> option Stream.

(** [fetch] where the caller goes on to read [response.body]. *)
Definition fetchStream {S Stream} (net : Upstream) (bodies : Bodies Stream)
    (url : string) (headers : list (string * string))
  : M S (Response * option Stream) :=
  fun s t =>
    let n := List.length (List.filter isFetch t) in
    match net n url with
    | Rejected m => (Throw (Error m), s, (t ++ [Fetch url headers])%list)
    | Responded r => (Ok (r, bodies n url), s, (t ++ [Fetch url headers])%list)
    end.

(** [for (const x of xs) { body x }]: an exception leaves the loop. *)
Fixpoint forEach {S A} (xs : list A) (body : A -> M S unit) : M S unit :=
  match xs with
  | [] => ret tt
  | x :: rest => bind (body x) (fun _ => forEach rest body)
  end.

(** A loop that pushes one element per iteration onto a result array. *)
Fixpoint collect {S A B} (xs : list A) (body : A -> M S B) : M S (list B) :=
  match xs with
  | [] => ret []
  | x :: rest =>
      bind (body x) (fun y => bind (collect rest body) (fun ys => ret (y :: ys)))
  end.

End Eff.

Declare Scope eff_scope.
Delimit Scope eff_scope with eff.
Notation "x <- c ;; k" := (Eff.bind c (fun x => k))
  (at level 61, c at next level, right associativity) : eff_scope.
Notation "c ;;; k" := (Eff.bind c (fun _ => k))
  (at level 61, right associativity) : eff_scope.
Notation "x <~ r ;; k" := (JS.rbind r (fun x => k))
  (at level 61, r at next level, right associativity) : eff_scope.
Local Open Scope eff_scope.

(* ================================================================== *)
(** * The unified data model ([types.ts]) *)
(* ================================================================== *)

(** A field typed [string] or [number] in [types.ts] holds a [JS.value]
    here wherever an adapter stores an upstream datum in it unconverted. *)

Module UnifiedAuthor.
Record t : Type := {
  id : JS.value;
  username : JS.value;
  displayName : JS.value;
  avatarUrl : JS.value;
}.
End UnifiedAuthor.

Module UnifiedVersion.
Record t : Type := {
  id : JS.value;
  version : JS.value;
  changelog : JS.value;
  downloads : JS.value;
  gameVersion : JS.value;
  releaseDate : JS.value;
  fileSize : JS.value;
  fileName : JS.value;
}.
End UnifiedVersion.

Module UnifiedCategory.
Record t : Type := {
  id : JS.value;
  name : JS.value;
  slug : JS.value;
  iconUrl : JS.value;
}.
End UnifiedCategory.

Module Tag.
Record t : Type := {
  id : JS.value;
  name : JS.value;
  slug : JS.value;
}.
End Tag.

Module UnifiedDependency.
Record t : Type := {
  projectId : JS.value;
  projectName : JS.value;
  versionId : JS.value;
  required : bool;
  type : string;   (* 'required' | 'optional' | 'incompatible' | 'embedded' *)
}.
End UnifiedDependency.

Inductive UnifiedClassification : Type := PLUGIN | DATA | ART | SAVE | MODPACK.

(** The string literal each member of the union type stands for. *)
Definition classificationName (c : UnifiedClassification) : string :=
  match c with
  | PLUGIN => "PLUGIN"
  | DATA => "DATA"
  | ART => "ART"
  | SAVE => "SAVE"
  | MODPACK => "MODPACK"
  end.

Definition classificationEqb (a b : UnifiedClassification) : bool :=
  String.eqb (classificationName a) (classificationName b).

Module UnifiedProject.
Record t : Type := {
  id : JS.value;
  slug : JS.value;
  providerId : string;
  title : JS.value;
  description : JS.value;
  shortDescription : JS.value;
  classification : JS.value;
  author : UnifiedAuthor.t;
  categories : list UnifiedCategory.t;
  tags : option (list Tag.t);
  downloads : JS.value;
  rating : JS.value;
  ratingCount : JS.value;
  iconUrl : JS.value;
  bannerUrl : JS.value;
  galleryImages : option (list JS.value);
  versions : list UnifiedVersion.t;
  latestVersion : option UnifiedVersion.t;
  gameVersions : list JS.value;
  createdAt : JS.value;
  updatedAt : JS.value;
  featured : JS.value;
  _raw : JS.value;
}.
End UnifiedProject.

(** Built by [parseSearchParams] in [routes/mods.ts]; an absent
    property is [None]. *)
Module UnifiedSearchParams.
Record t : Type := {
  query : option string;
  classification : option string;
  categories : option (list string);
  tags : option (list string);
  gameVersion : option string;
  page : option Z;
  pageSize : option Z;
  sortBy : option string;
  sortOrder : option string;
}.

Definition empty : t :=
  {| query := None; classification := None; categories := None; tags := None;
     gameVersion := None; page := None; pageSize := None; sortBy := None;
     sortOrder := None |}.
End UnifiedSearchParams.

Module UnifiedSearchResponse.
Record t : Type := {
  projects : list UnifiedProject.t;
  total : JS.value;
  page : JS.value;
  pageSize : JS.value;
  hasMore : bool;
  providerId : string;
}.
End UnifiedSearchResponse.

Module MultiProviderSearchResponse.
Record t : Type := {
  results : list UnifiedSearchResponse.t;
  totalAcrossProviders : JS.value;
}.
End MultiProviderSearchResponse.

Module UnifiedModMetadata.
Record t : Type := {
  providerId : string;
  projectId : string;
  projectTitle : JS.value;
  projectIconUrl : JS.value;
  versionId : string;
  versionName : JS.value;
  classification : JS.value;
  fileSize : JS.value;
}.
End UnifiedModMetadata.

Module ProviderInfo.
Record t : Type := {
  id : string;
  displayName : string;
  iconUrl : option string;
  requiresApiKey : bool;
  isConfigured : bool;
}.
End ProviderInfo.

Module ProviderConfig.
Record t : Type := {
  apiKey : option string;
  rateLimit : option Z;
  timeout : option Z;
}.
End ProviderConfig.

(** An optional string or number of a typed record, as the value a
    JavaScript operator sees. *)
Definition ofString (o : option string) : JS.value :=
  match o with Some s => JS.Str s | None => JS.Undefined end.

Definition ofNumber (o : option Z) : JS.value :=
  match o with Some z => JS.int z | None => JS.Undefined end.

(* ================================================================== *)
(** * The adapter interface ([IModProvider.ts]) *)
(* ================================================================== *)

Module IModProvider.
Import Eff.
Record t (S Stream : Type) : Type := {
  id : string;
  displayName : string;
  iconUrl : option string;
  requiresApiKey : bool;
  initialize : ProviderConfig.t -> M S unit;
  isConfigured : S -> bool;
  setApiKey : string -> M S unit;
  searchProjects : UnifiedSearchParams.t -> M S UnifiedSearchResponse.t;
  getProject : string -> M S UnifiedProject.t;
  getProjectBySlug : option (string -> M S UnifiedProject.t);
  getCategories : M S (list UnifiedCategory.t);
  getTags : option (M S (list Tag.t));
  getVersionDependencies : string -> string -> M S (list UnifiedDependency.t);
  downloadVersion : string -> string -> M S Stream;
  getDownloadUrl : option (string -> string -> option string);
}.
End IModProvider.

(* ================================================================== *)
(** * [ModProviderRegistry] *)
(* ================================================================== *)

(** [Map<string, V>]: iteration follows insertion order, and setting a
    key already present keeps its place. *)
Module StringMap.
Section Ops.
Variable V : Type.

Definition t : Type := list (string * V).

Fixpoint get (m : t) (k : string) : option V :=
  match m with
  | [] => None
  | (k', v) :: rest => if String.eqb k k' then Some v else get rest k
  end.

Definition has (m : t) (k : string) : bool :=
  match get m k with Some _ => true | None => false end.

Fixpoint set (m : t) (k : string) (v : V) : t :=
  match m with
  | [] => [(k, v)]
  | (k', v') :: rest =>
      if String.eqb k k' then (k', v) :: rest else (k', v') :: set rest k v
  end.

Fixpoint delete (m : t) (k : string) : t :=
  match m with
  | [] => []
  | (k', v') :: rest =>
      if String.eqb k k' then rest else (k', v') :: delete rest k
  end.

Definition values (m : t) : list V := List.map snd m.

End Ops.
End StringMap.

Module ModProviderRegistry.
Import JS Eff.

Section Registry.
Variables S Stream : Type.

#[local] Abbreviation Provider := (IModProvider.t S Stream).

(** [private providers: Map<string, IModProvider>] *)
Definition t : Type := StringMap.t Provider.

Definition registerProvider (providers : t) (provider : Provider) : M S t :=
  (if StringMap.has providers (IModProvider.id provider)
   then log warn ("[ModProviderRegistry] Provider " ++ IModProvider.id provider
                  ++ " already registered, replacing")
   else ret tt) ;;;
  log info ("[ModProviderRegistry] Registered provider: "
            ++ IModProvider.displayName provider
            ++ " (" ++ IModProvider.id provider ++ ")") ;;;
  ret (StringMap.set providers (IModProvider.id provider) provider).

Definition unregisterProvider (providers : t) (providerId : string) : M S t :=
  (if StringMap.has providers providerId
   then log info ("[ModProviderRegistry] Unregistered provider: " ++ providerId)
   else ret tt) ;;;
  ret (StringMap.delete providers providerId).

Definition getProvider (providers : t) (providerId : string) : option Provider :=
  StringMap.get providers providerId.

Definition getAllProviders (providers : t) : list Provider :=
  StringMap.values providers.

Definition getConfiguredProviders (providers : t) (s : S) : list Provider :=
  List.filter (fun p => IModProvider.isConfigured p s) (getAllProviders providers).

Definition getProviderInfo (providers : t) (s : S) : list ProviderInfo.t :=
  List.map (fun p =>
    {| ProviderInfo.id := IModProvider.id p;
       ProviderInfo.displayName := IModProvider.displayName p;
       ProviderInfo.iconUrl := IModProvider.iconUrl p;
       ProviderInfo.requiresApiKey := IModProvider.requiresApiKey p;
       ProviderInfo.isConfigured := IModProvider.isConfigured p s |})
    (getAllProviders providers).

Definition hasProvider (providers : t) (providerId : string) : bool :=
  StringMap.has providers providerId.

Definition count (providers : t) : nat := List.length providers.

(** The result substituted for a provider whose search failed. *)
Definition emptyResult (params : UnifiedSearchParams.t) (provider : Provider)
  : UnifiedSearchResponse.t :=
  {| UnifiedSearchResponse.projects := [];
     UnifiedSearchResponse.total := int 0;
     UnifiedSearchResponse.page := or (ofNumber (UnifiedSearchParams.page params)) (int 1);
     UnifiedSearchResponse.pageSize :=
       or (ofNumber (UnifiedSearchParams.pageSize params)) (int 50);
     UnifiedSearchResponse.hasMore := false;
     UnifiedSearchResponse.providerId := IModProvider.id provider |}.

(** The [async (provider) => { try ... catch ... }] arrow that
    [searchAll] maps over the configured providers, up to its [await]:
    [map] calls the arrow for one provider after the other, and each
    call starts that adapter's search.  What the search settles to is
    kept for the arrow's continuation, which runs only after every
    search has been started.  An adapter's search is one step here: the
    order in which the steps of different searches alternate once they
    are under way is not modelled. *)
Definition searchStarted (params : UnifiedSearchParams.t) (provider : Provider)
  : M S (Provider * result UnifiedSearchResponse.t) :=
  emit (Call (IModProvider.id provider) "searchProjects") ;;;
  tryCatch
    (result <- IModProvider.searchProjects provider params ;;
     ret (provider, Ok result))
    (fun error => ret (provider, Throw error)).

(** The arrow after its [await]: the adapter's result, or the [catch]
    block. *)
Definition searchSettled (params : UnifiedSearchParams.t)
    (started : Provider * result UnifiedSearchResponse.t)
  : M S UnifiedSearchResponse.t :=
  match snd started with
  | Ok result => ret result
  | Throw _ =>
      log error ("[ModProviderRegistry] Search failed for "
                 ++ IModProvider.id (fst started) ++ ":") ;;;
      ret (emptyResult params (fst started))
  end.

(** [Promise.all]: every computation runs; the first rejection, if any,
    is the outcome once all have settled. *)
Fixpoint promiseAll {A} (cs : list (M S A)) : M S (list A) :=
  fun s t =>
    match cs with
    | [] => (Ok [], s, t)
    | c :: rest =>
        let '(r, s1, t1) := c s t in
        let '(rs, s2, t2) := promiseAll rest s1 t1 in
        (match r, rs with
         | Ok a, Ok l => Ok (a :: l)
         | Throw e, _ => Throw e
         | Ok _, Throw e => Throw e
         end, s2, t2)
    end.

(** [results.reduce((sum, r) => sum + r.total, 0)] *)
Definition sumTotals (results : list UnifiedSearchResponse.t) : value :=
  List.fold_left (fun sum r => add sum (UnifiedSearchResponse.total r)) results (int 0).

Definition searchAll (providers : t) (params : UnifiedSearchParams.t)
  : M S MultiProviderSearchResponse.t :=
  s <- read ;;
  let configuredProviders := getConfiguredProviders providers s in
  if (List.length configuredProviders =? 0)%nat
  then ret {| MultiProviderSearchResponse.results := [];
              MultiProviderSearchResponse.totalAcrossProviders := int 0 |}
  else
    searchPromises <- collect configuredProviders (searchStarted params) ;;
    results <- promiseAll (List.map (searchSettled params) searchPromises) ;;
    let totalAcrossProviders := sumTotals results in
    ret {| MultiProviderSearchResponse.results := results;
           MultiProviderSearchResponse.totalAcrossProviders := totalAcrossProviders |}.

End Registry.
End ModProviderRegistry.

(* ================================================================== *)
(** * [ModProviderService] *)
(* ================================================================== *)

Module ModProviderService.
Import JS Eff.

Section Service.
Variables S Stream : Type.

#[local] Abbreviation Provider := (IModProvider.t S Stream).
#[local] Abbreviation Registry := (ModProviderRegistry.t S Stream).

Definition notFound (providerId : string) : exn :=
  Error ("Provider not found: " ++ providerId).

Definition notConfigured (providerId : string) : exn :=
  Error ("Provider " ++ providerId ++ " is not configured. Please set up the API key.").

(** The two guards every per-provider operation opens with. *)
Definition withProvider {A} (registry : Registry) (providerId : string)
    (k : Provider -> M S A) : M S A :=
  match ModProviderRegistry.getProvider registry providerId with
  | None => throw (notFound providerId)
  | Some provider =>
      s <- read ;;
      if negb (IModProvider.isConfigured provider s)
      then throw (notConfigured providerId)
      else k provider
  end.

(** A call of an asynchronous adapter method, recorded in the trace. *)
Definition delegate {A} (provider : Provider) (method : string) (c : M S A) : M S A :=
  emit (Call (IModProvider.id provider) method) ;;; c.

Definition getProviders (registry : Registry) (s : S) : list ProviderInfo.t :=
  ModProviderRegistry.getProviderInfo registry s.

Definition search (registry : Registry) (providerId : string)
    (params : UnifiedSearchParams.t) : M S UnifiedSearchResponse.t :=
  withProvider registry providerId (fun provider =>
    delegate provider "searchProjects" (IModProvider.searchProjects provider params)).

Definition searchAll (registry : Registry) (params : UnifiedSearchParams.t)
  : M S MultiProviderSearchResponse.t :=
  ModProviderRegistry.searchAll registry params.

Definition getProject (registry : Registry) (providerId projectId : string)
  : M S UnifiedProject.t :=
  withProvider registry providerId (fun provider =>
    delegate provider "getProject" (IModProvider.getProject provider projectId)).

Definition getProjectBySlug (registry : Registry) (providerId slug : string)
  : M S UnifiedProject.t :=
  withProvider registry providerId (fun provider =>
    match IModProvider.getProjectBySlug provider with
    | None => throw (Error ("Provider " ++ providerId
                            ++ " does not support slug-based lookup"))
    | Some bySlug => delegate provider "getProjectBySlug" (bySlug slug)
    end).

Definition getCategories (registry : Registry) (providerId : string)
  : M S (list UnifiedCategory.t) :=
  withProvider registry providerId (fun provider =>
    delegate provider "getCategories" (IModProvider.getCategories provider)).

Definition getTags (registry : Registry) (providerId : string) : M S (list Tag.t) :=
  withProvider registry providerId (fun provider =>
    match IModProvider.getTags provider with
    | None => ret []
    | Some tags => delegate provider "getTags" tags
    end).

Definition getVersionDependencies (registry : Registry)
    (providerId projectId versionId : string) : M S (list UnifiedDependency.t) :=
  withProvider registry providerId (fun provider =>
    delegate provider "getVersionDependencies"
      (IModProvider.getVersionDependencies provider projectId versionId)).

Definition downloadVersion (registry : Registry)
    (providerId projectId versionId : string) : M S Stream :=
  withProvider registry providerId (fun provider =>
    delegate provider "downloadVersion"
      (IModProvider.downloadVersion provider projectId versionId)).

(** [project.versions.find(v => v.id === versionId)] *)
Definition findVersion (versions : list UnifiedVersion.t) (versionId : string)
  : option UnifiedVersion.t :=
  List.find (fun v => strictEq (UnifiedVersion.id v) (Str versionId)) versions.

Definition downloadForInstallation (registry : Registry)
    (providerId projectId versionId : string)
  : M S (Stream * UnifiedModMetadata.t) :=
  withProvider registry providerId (fun provider =>
    project <- delegate provider "getProject"
                 (IModProvider.getProject provider projectId) ;;
    (* a found version is an object, hence truthy *)
    let version :=
      match findVersion (UnifiedProject.versions project) versionId with
      | Some v => Some v
      | None => UnifiedProject.latestVersion project
      end in
    match version with
    | None => throw (Error ("Version " ++ versionId ++ " not found for project "
                            ++ projectId))
    | Some version =>
        stream <- delegate provider "downloadVersion"
                    (IModProvider.downloadVersion provider projectId versionId) ;;
        let metadata :=
          {| UnifiedModMetadata.providerId := providerId;
             UnifiedModMetadata.projectId := projectId;
             UnifiedModMetadata.projectTitle := UnifiedProject.title project;
             UnifiedModMetadata.projectIconUrl := UnifiedProject.iconUrl project;
             UnifiedModMetadata.versionId := versionId;
             UnifiedModMetadata.versionName := UnifiedVersion.version version;
             UnifiedModMetadata.classification := UnifiedProject.classification project;
             UnifiedModMetadata.fileSize := UnifiedVersion.fileSize version |} in
        ret (stream, metadata)
    end).

End Service.
End ModProviderService.

(* ================================================================== *)
(** * [ModtaleProvider] *)
(* ================================================================== *)

Module ModtaleProvider.
Import JS Eff.

Definition MODTALE_API_BASE : string := "https://api.modtale.net/api/v1".

Definition id : string := "modtale".
Definition displayName : string := "Modtale".
Definition iconUrl : string := "https://modtale.net/favicon.ico".
Definition requiresApiKey : bool := true.

(** [private apiKey: string | null = null] *)
Record state : Type := { apiKey : option string }.

Definition initial : state := {| apiKey := None |}.

Definition isConfigured (s : state) : bool := truthy (ofString (apiKey s)).

Definition initialize (config : ProviderConfig.t) : M state unit :=
  (if truthy (ofString (ProviderConfig.apiKey config))
   then write {| apiKey := ProviderConfig.apiKey config |}
   else ret tt) ;;;
  s <- read ;;
  log info ("[ModtaleProvider] Initialized"
            ++ (if isConfigured s then " with API key" else "")).

Definition setApiKey (key : string) : M state unit :=
  write {| apiKey := Some key |} ;;;
  log info "[ModtaleProvider] API key updated".

(** ** Transforms *)

(** [transformVersion]: the first read, [version.id], throws on [null]
    or [undefined]; no later read can. *)
Definition transformVersion (version : value) : result UnifiedVersion.t :=
  _ <~ nonNullish version ;;
  let p := prop version in
  Ok {| UnifiedVersion.id := Str (ToString (or (p "id") (Str "")));
        UnifiedVersion.version :=
          Str (ToString (or (or (p "version") (p "versionNumber")) (Str "")));
        UnifiedVersion.changelog :=
          if truthy (p "changelog") then Str (ToString (p "changelog")) else Undefined;
        UnifiedVersion.downloads :=
          Number (ToNumber (or (or (p "downloadCount") (p "downloads")) (int 0)));
        UnifiedVersion.gameVersion :=
          Str (ToString (or (or (p "gameVersion") (firstOpt (p "gameVersions"))) (Str "")));
        UnifiedVersion.releaseDate :=
          Str (ToString (or (or (or (or (p "createdAt") (p "createdDate"))
                                 (p "releaseDate")) (p "publishedAt")) (Str "")));
        UnifiedVersion.fileSize :=
          Number (ToNumber (or (or (p "fileSize") (p "size")) (int 0)));
        UnifiedVersion.fileName :=
          Str (ToString (or (or (p "fileName") (p "file")) (Str ""))) |}.

Definition transformAuthor (author : value) : result UnifiedAuthor.t :=
  if isString author
  then Ok {| UnifiedAuthor.id := author;
             UnifiedAuthor.username := author;
             UnifiedAuthor.displayName := author;
             UnifiedAuthor.avatarUrl := Undefined |}
  else
    _ <~ nonNullish author ;;
    let p := prop author in
    Ok {| UnifiedAuthor.id := Str (ToString (or (or (p "id") (p "username")) (Str "")));
          UnifiedAuthor.username :=
            Str (ToString (or (or (p "username") (p "name")) (Str "")));
          UnifiedAuthor.displayName :=
            Str (ToString (or (or (or (p "displayName") (p "name")) (p "username")) (Str "")));
          UnifiedAuthor.avatarUrl :=
            if truthy (p "avatarUrl") then Str (ToString (p "avatarUrl")) else Undefined |}.

(** The arrow mapped over [project.tags]. *)
Definition transformTag (tag : value) : result Tag.t :=
  if isString tag
  then Ok {| Tag.id := tag; Tag.name := tag; Tag.slug := tag |}
  else
    _ <~ nonNullish tag ;;
    let p := prop tag in
    Ok {| Tag.id := Str (ToString (or (p "id") (p "name")));
          Tag.name := Str (ToString (or (or (p "name") (p "id")) tag));
          Tag.slug := Str (ToString (or (or (or (p "slug") (p "name")) (p "id")) tag)) |}.

Definition transformProject (project : value) : result UnifiedProject.t :=
  _ <~ nonNullish project ;;
  let p := prop project in
  versions <~ (if isArray (p "versions") then map (p "versions") transformVersion
               else Ok []) ;;
  tags <~ (if isArray (p "tags") then map (p "tags") transformTag else Ok []) ;;
  author <~ transformAuthor (p "author") ;;
  Ok {| UnifiedProject.id := Str (ToString (or (p "id") (Str "")));
        UnifiedProject.slug := Str (ToString (or (or (p "slug") (p "id")) (Str "")));
        UnifiedProject.providerId := id;
        UnifiedProject.title := Str (ToString (or (or (p "title") (p "name")) (Str "")));
        UnifiedProject.description := Str (ToString (or (p "description") (Str "")));
        UnifiedProject.shortDescription :=
          if truthy (p "shortDescription")
          then Str (ToString (p "shortDescription"))
          else Str (substring0 200 (ToString (or (p "description") (Str ""))));
        (* [(project.classification as UnifiedClassification) || 'PLUGIN']:
           the cast checks nothing *)
        UnifiedProject.classification := or (p "classification") (Str "PLUGIN");
        UnifiedProject.author := author;
        UnifiedProject.categories := [];
        UnifiedProject.tags := Some tags;
        UnifiedProject.downloads :=
          Number (ToNumber (or (or (p "downloadCount") (p "downloads")) (int 0)));
        UnifiedProject.rating :=
          Number (ToNumber (or (or (p "rating") (p "averageRating")) (int 0)));
        UnifiedProject.ratingCount :=
          Number (ToNumber (or (or (p "favoriteCount") (p "ratingCount")) (int 0)));
        UnifiedProject.iconUrl :=
          if truthy (p "imageUrl") then Str (ToString (p "imageUrl"))
          else if truthy (p "iconUrl") then Str (ToString (p "iconUrl"))
          else Undefined;
        UnifiedProject.bannerUrl :=
          if truthy (p "bannerUrl") then Str (ToString (p "bannerUrl")) else Undefined;
        UnifiedProject.galleryImages :=
          match p "galleryImages" with
          | Arr items => Some (List.map (fun x => Str (ToString x)) items)
          | _ => None
          end;
        UnifiedProject.versions := versions;
        UnifiedProject.latestVersion := List.hd_error versions;
        UnifiedProject.gameVersions :=
          match p "gameVersions" with
          | Arr items => List.map (fun x => Str (ToString x)) items
          | _ => []
          end;
        UnifiedProject.createdAt :=
          Str (ToString (or (or (p "createdAt") (p "createdDate")) (Str "")));
        UnifiedProject.updatedAt :=
          Str (ToString (or (or (or (p "updatedAt") (p "updatedDate"))
                               (p "modifiedDate")) (Str "")));
        UnifiedProject.featured := Bool (truthy (p "featured"));
        UnifiedProject._raw := project |}.

(** [mapping[sortBy] || sortBy], for a [sortBy] that is not the name
    of a member of [Object.prototype] (for [constructor], [toString]
    and the like the lookup finds the inherited member, and the text
    sent is its printed form). *)
Definition mapSortField (sortBy : string) : string :=
  if String.eqb sortBy "downloads" then "downloadCount"
  else if String.eqb sortBy "rating" then "rating"
  else if String.eqb sortBy "updated" then "updatedDate"
  else if String.eqb sortBy "created" then "createdDate"
  else if String.eqb sortBy "name" then "title"
  else sortBy.

(** ** Requests *)

Section Requests.
Variable net : Upstream.

(** [request<T>(endpoint)]; every caller leaves [options] at its
    default [{}], so the only header sent is the key. *)
Definition request (endpoint : string) : M state value :=
  s <- read ;;
  match apiKey s with
  | Some key =>
      if negb (isConfigured s)
      then throw (Error "Modtale API key not configured")
      else
        let url := MODTALE_API_BASE ++ endpoint in
        log info ("[ModtaleProvider] Fetching: " ++ url) ;;;
        response <- fetch net url [("X-MODTALE-KEY", key)] ;;
        if negb (ok response)
        then
          let errorText := text response in
          log error ("[ModtaleProvider] Error response: " ++ substring0 500 errorText) ;;;
          let parsed :=
            match json response with
            | Some v => v
            | None => Obj [("message",
                            Str ("HTTP " ++ ToString (int (status response)) ++ ": "
                                 ++ statusText response))]
            end in
          message <- lift (get parsed "message") ;;
          throw (Error (ToString (or message (Str errorText))))
        else
          match json response with
          | Some data => ret data
          | None => throw SyntaxError
          end
  | None => throw (Error "Modtale API key not configured")
  end.

(** The pairs appended to [queryParams], in order. *)
Definition searchQuery (params : UnifiedSearchParams.t) : list (string * string) :=
  let page := match UnifiedSearchParams.page params with Some n => n | None => 1 end - 1 in
  let size := match UnifiedSearchParams.pageSize params with Some n => n | None => 50 end in
  ((match UnifiedSearchParams.query params with
    | Some q => if truthy (Str q) then [("search", q)] else []
    | None => []
    end)
   ++ (match UnifiedSearchParams.classification params with
       | Some c => if truthy (Str c) then [("classification", c)] else []
       | None => []
       end)
   ++ (match UnifiedSearchParams.tags params with
       | Some (t :: ts) => [("tags", String.concat "," (t :: ts))]
       | _ => []
       end)
   ++ (match UnifiedSearchParams.gameVersion params with
       | Some g => if truthy (Str g) then [("gameVersion", g)] else []
       | None => []
       end)
   ++ [("page", ToString (int page)); ("size", ToString (int size))]
   ++ (match UnifiedSearchParams.sortBy params with
       | Some sortBy =>
           if truthy (Str sortBy)
           then
             let sortField := mapSortField sortBy in
             let sortDirection :=
               ToString (or (ofString (UnifiedSearchParams.sortOrder params)) (Str "desc")) in
             [("sort", (sortField ++ "," ++ sortDirection)%string)]
           else []
       | None => []
       end))%list.

Definition searchEndpoint (params : UnifiedSearchParams.t) : string :=
  let query := searchParamsToString (searchQuery params) in
  "/projects" ++ (if truthy (Str query) then "?" ++ query else "").

Definition emptyResponse (params : UnifiedSearchParams.t) : UnifiedSearchResponse.t :=
  {| UnifiedSearchResponse.projects := [];
     UnifiedSearchResponse.total := int 0;
     UnifiedSearchResponse.page := or (ofNumber (UnifiedSearchParams.page params)) (int 1);
     UnifiedSearchResponse.pageSize :=
       or (ofNumber (UnifiedSearchParams.pageSize params)) (int 50);
     UnifiedSearchResponse.hasMore := false;
     UnifiedSearchResponse.providerId := id |}.

(** The three reply shapes [searchProjects] recognises, as tested. *)
Definition isPaginated (response : value) : bool :=
  truthy response && typeofObject response && hasProperty "content" response.

Definition isKeyed (response : value) : bool :=
  truthy response && typeofObject response && hasProperty "projects" response.

(** What [searchProjects] makes of the reply body. *)
Definition searchResult (params : UnifiedSearchParams.t) (response : value)
  : M state UnifiedSearchResponse.t :=
  let pageSizeParam := ofNumber (UnifiedSearchParams.pageSize params) in
  let pageParam := ofNumber (UnifiedSearchParams.page params) in
  if isPaginated response
  then
    let content := prop response "content" in
    projects <- lift (map content transformProject) ;;
    ret {| UnifiedSearchResponse.projects := projects;
           UnifiedSearchResponse.total :=
             Number (ToNumber (or (prop response "totalElements") (prop content "length")));
           UnifiedSearchResponse.page :=
             add (Number (ToNumber (or (prop response "number") (int 0)))) (int 1);
           UnifiedSearchResponse.pageSize :=
             Number (ToNumber (or (or (prop response "size") pageSizeParam) (int 50)));
           UnifiedSearchResponse.hasMore := negb (truthy (prop response "last"));
           UnifiedSearchResponse.providerId := id |}
  else if isArray response
  then
    projects <- lift (map response transformProject) ;;
    ret {| UnifiedSearchResponse.projects := projects;
           UnifiedSearchResponse.total := prop response "length";
           UnifiedSearchResponse.page := or pageParam (int 1);
           UnifiedSearchResponse.pageSize := or pageSizeParam (int 50);
           UnifiedSearchResponse.hasMore :=
             ge (prop response "length") (or pageSizeParam (int 50));
           UnifiedSearchResponse.providerId := id |}
  else if isKeyed response
  then
    let projects := prop response "projects" in
    transformed <- lift (map projects transformProject) ;;
    ret {| UnifiedSearchResponse.projects := transformed;
           UnifiedSearchResponse.total :=
             Number (ToNumber (or (prop response "total") (prop projects "length")));
           UnifiedSearchResponse.page :=
             Number (ToNumber (or (or (prop response "page") pageParam) (int 1)));
           UnifiedSearchResponse.pageSize :=
             Number (ToNumber (or (or (prop response "limit") pageSizeParam) (int 50)));
           UnifiedSearchResponse.hasMore := truthy (prop response "hasMore");
           UnifiedSearchResponse.providerId := id |}
  else
    log warn "[ModtaleProvider] Unexpected response format" ;;;
    ret (emptyResponse params).

Definition searchProjects (params : UnifiedSearchParams.t)
  : M state UnifiedSearchResponse.t :=
  response <- request (searchEndpoint params) ;;
  searchResult params response.

Definition getProject (projectId : string) : M state UnifiedProject.t :=
  project <- request ("/projects/" ++ projectId) ;;
  lift (transformProject project).

Definition getProjectBySlug (slug : string) : M state UnifiedProject.t :=
  project <- request ("/projects/slug/" ++ slug) ;;
  lift (transformProject project).

(** The arrow mapped over the dependency list. *)
Definition transformDependency (dep : value) : result UnifiedDependency.t :=
  if isString dep
  then Ok {| UnifiedDependency.projectId := dep;
             UnifiedDependency.projectName := dep;
             UnifiedDependency.versionId := Undefined;
             UnifiedDependency.required := true;
             UnifiedDependency.type := "required" |}
  else
    _ <~ nonNullish dep ;;
    let p := prop dep in
    Ok {| UnifiedDependency.projectId :=
            Str (ToString (or (or (p "modId") (p "projectId")) (p "id")));
          UnifiedDependency.projectName :=
            Str (ToString (or (or (or (p "name") (p "projectName")) (p "modId"))
                              (p "projectId")));
          UnifiedDependency.versionId :=
            if truthy (p "versionId") then Str (ToString (p "versionId")) else Undefined;
          UnifiedDependency.required := negb (strictEq (p "required") (Bool false));
          UnifiedDependency.type :=
            if negb (strictEq (p "required") (Bool false)) then "required" else "optional" |}.

Definition getVersionDependencies (projectId versionId : string)
  : M state (list UnifiedDependency.t) :=
  tryCatch
    (project <- request ("/projects/" ++ projectId) ;;
     versions <- lift (get project "versions") ;;
     version <- lift (match versions with
                      | Undefined | Null => Ok Undefined
                      | _ => find versions
                               (fun v => x <~ get v "id" ;; Ok (strictEq x (Str versionId)))
                      end) ;;
     if negb (truthy version)
     then
       log warn ("[ModtaleProvider] Version " ++ versionId
                 ++ " not found for project " ++ projectId) ;;;
       ret []
     else
       let modIds := or (or (prop version "modIds") (prop version "dependencies")) (Arr []) in
       match modIds with
       | Arr [] => ret []
       | Arr items => lift (mapR transformDependency items)
       | _ => ret []
       end)
    (fun _ =>
       log error ("[ModtaleProvider] Error getting dependencies for "
                  ++ projectId ++ "/" ++ versionId ++ ":") ;;;
       ret []).

(** The arrow [getCategories] maps over the classifications:
    [c.charAt(0)] is the first call made on [c], and only a string has
    that method. *)
Definition classificationCategory (c : value) : result UnifiedCategory.t :=
  match c with
  | Str s =>
      Ok {| UnifiedCategory.id := c;
            UnifiedCategory.name := Str (charAt0 s ++ toLowerCase (slice1 s));
            UnifiedCategory.slug := Str (toLowerCase s);
            UnifiedCategory.iconUrl := Undefined |}
  | _ => Throw TypeError
  end.

Definition getCategories : M state (list UnifiedCategory.t) :=
  classifications <- request "/meta/classifications" ;;
  lift (map classifications classificationCategory).

(** The arrow [getTags] maps over the tags. *)
Definition listedTag (tag : value) : result Tag.t :=
  _ <~ nonNullish tag ;;
  let p := prop tag in
  Ok {| Tag.id := Str (ToString (or (p "id") (p "name")));
        Tag.name := Str (ToString (or (p "name") (p "id")));
        Tag.slug := Str (ToString (or (or (p "slug") (p "name")) (p "id"))) |}.

Definition getTags : M state (list Tag.t) :=
  tags <- request "/tags" ;;
  lift (map tags listedTag).

Definition getDownloadUrl (projectId versionId : string) : string :=
  MODTALE_API_BASE ++ "/projects/" ++ projectId ++ "/versions/" ++ versionId ++ "/download".

End Requests.

Section Downloads.
Variable net : Upstream.
Variable Stream : Type.
Variable bodies : Bodies Stream.

Definition downloadVersion (projectId versionId : string) : M state Stream :=
  s <- read ;;
  match apiKey s with
  | Some key =>
      if negb (isConfigured s)
      then throw (Error "Modtale API key not configured")
      else
        let url := MODTALE_API_BASE ++ "/projects/" ++ projectId
                   ++ "/versions/" ++ versionId ++ "/download" in
        log info ("[ModtaleProvider] Downloading: " ++ url) ;;;
        reply <- fetchStream net bodies url [("X-MODTALE-KEY", key)] ;;
        let response := fst reply in
        if negb (ok response)
        then
          log error ("[ModtaleProvider] Download error: " ++ text response) ;;;
          throw (Error ("Download failed: HTTP " ++ ToString (int (status response))))
        else
          match snd reply with
          | Some body => ret body
          | None => throw (Error "No response body received")
          end
  | None => throw (Error "Modtale API key not configured")
  end.

End Downloads.
End ModtaleProvider.

(* ================================================================== *)
(** * [CurseForgeProvider] *)
(* ================================================================== *)

Module CurseForgeProvider.
Import JS Eff.

Definition CURSEFORGE_API_BASE : string := "https://api.curseforge.com".

Definition id : string := "curseforge".
Definition displayName : string := "CurseForge".
Definition iconUrl : string := "https://www.curseforge.com/favicon.ico".
Definition requiresApiKey : bool := true.

Definition HYTALE_GAME_ID : Z := 70216.

(** [Map<number, UnifiedClassification>]; the keys are upstream
    [cat.id] values, compared by SameValueZero. *)
Definition ClassificationMap : Type := list (value * UnifiedClassification).

Fixpoint mapGet (m : ClassificationMap) (k : value) : option UnifiedClassification :=
  match m with
  | [] => None
  | (k', c) :: rest => if sameValueZero k' k then Some c else mapGet rest k
  end.

Fixpoint mapSet (m : ClassificationMap) (k : value) (c : UnifiedClassification)
  : ClassificationMap :=
  match m with
  | [] => [(k, c)]
  | (k', c') :: rest =>
      if sameValueZero k' k then (k', c) :: rest else (k', c') :: mapSet rest k c
  end.

(** The private instance fields. *)
Record state : Type := {
  apiKey : option string;
  hytaleGameId : value;               (* number | null *)
  categories : value;                 (* CurseForgeCategory[] *)
  classificationMap : ClassificationMap;
}.

Definition initial : state :=
  {| apiKey := None; hytaleGameId := Null; categories := Arr []; classificationMap := [] |}.

Definition isConfigured (s : state) : bool := truthy (ofString (apiKey s)).

Definition setHytaleGameId (v : value) : M state unit :=
  s <- read ;;
  write {| apiKey := apiKey s; hytaleGameId := v; categories := categories s;
           classificationMap := classificationMap s |}.

Definition setCategories (v : value) : M state unit :=
  s <- read ;;
  write {| apiKey := apiKey s; hytaleGameId := hytaleGameId s; categories := v;
           classificationMap := classificationMap s |}.

Definition setClassification (k : value) (c : UnifiedClassification) : M state unit :=
  s <- read ;;
  write {| apiKey := apiKey s; hytaleGameId := hytaleGameId s; categories := categories s;
           classificationMap := mapSet (classificationMap s) k c |}.

(** ** Transforms *)

Definition getClassification (s : state) (classId : value) : UnifiedClassification :=
  if negb (truthy classId) then PLUGIN
  else match mapGet (classificationMap s) classId with
       | Some c => c
       | None => PLUGIN
       end.

Definition transformFile (file : value) : result UnifiedVersion.t :=
  _ <~ nonNullish file ;;
  let p := prop file in
  gameVersion0 <~ first (p "gameVersions") ;;
  Ok {| UnifiedVersion.id := Str (ToString (p "id"));
        UnifiedVersion.version := or (p "displayName") (p "fileName");
        UnifiedVersion.changelog := Undefined;
        UnifiedVersion.downloads := p "downloadCount";
        UnifiedVersion.gameVersion := or gameVersion0 (Str "");
        UnifiedVersion.releaseDate := p "fileDate";
        UnifiedVersion.fileSize := p "fileLength";
        UnifiedVersion.fileName := p "fileName" |}.

(** [[...new Set(xs)]]: the first occurrence of each value, in order. *)
Fixpoint distinct (seen xs : list value) : list value :=
  match xs with
  | [] => []
  | x :: rest =>
      if List.existsb (sameValueZero x) seen then distinct seen rest
      else x :: distinct (x :: seen) rest
  end.

Definition transformCategory (c : value) : result UnifiedCategory.t :=
  _ <~ nonNullish c ;;
  Ok {| UnifiedCategory.id := Str (ToString (prop c "id"));
        UnifiedCategory.name := prop c "name";
        UnifiedCategory.slug := prop c "slug";
        UnifiedCategory.iconUrl := prop c "iconUrl" |}.

Definition transformMod (s : state) (mod_ : value) : result UnifiedProject.t :=
  _ <~ nonNullish mod_ ;;
  let p := prop mod_ in
  author0 <~ first (p "authors") ;;
  let author :=
    if truthy author0
    then {| UnifiedAuthor.id := Str (ToString (prop author0 "id"));
            UnifiedAuthor.username := prop author0 "name";
            UnifiedAuthor.displayName := prop author0 "name";
            UnifiedAuthor.avatarUrl := Undefined |}
    else {| UnifiedAuthor.id := Str "unknown";
            UnifiedAuthor.username := Str "Unknown";
            UnifiedAuthor.displayName := Str "Unknown";
            UnifiedAuthor.avatarUrl := Undefined |} in
  versions <~ map (p "latestFiles") transformFile ;;
  let latestVersion := List.hd_error versions in
  categories <~ map (p "categories") transformCategory ;;
  indexed <~ map (p "latestFilesIndexes") (fun f => get f "gameVersion") ;;
  let gameVersions := distinct [] (List.filter truthy indexed) in
  shortDescription <~ callSubstring0 (p "summary") 200 ;;
  screenshot0 <~ first (p "screenshots") ;;
  galleryImages <~ map (p "screenshots") (fun x => get x "url") ;;
  Ok {| UnifiedProject.id := Str (ToString (p "id"));
        UnifiedProject.slug := p "slug";
        UnifiedProject.providerId := id;
        UnifiedProject.title := p "name";
        UnifiedProject.description := p "summary";
        UnifiedProject.shortDescription := Str shortDescription;
        UnifiedProject.classification :=
          Str (classificationName (getClassification s (p "classId")));
        UnifiedProject.author := author;
        UnifiedProject.categories := categories;
        UnifiedProject.tags := None;
        UnifiedProject.downloads := p "downloadCount";
        UnifiedProject.rating := p "rating";
        UnifiedProject.ratingCount := p "thumbsUpCount";
        UnifiedProject.iconUrl := getOpt (p "logo") "url";
        UnifiedProject.bannerUrl := getOpt screenshot0 "url";
        UnifiedProject.galleryImages := Some galleryImages;
        UnifiedProject.versions := versions;
        UnifiedProject.latestVersion := latestVersion;
        UnifiedProject.gameVersions := gameVersions;
        UnifiedProject.createdAt := p "dateCreated";
        UnifiedProject.updatedAt := p "dateModified";
        UnifiedProject.featured := p "isFeatured";
        UnifiedProject._raw := mod_ |}.

(** [mapping[sortBy] || 2], for a [sortBy] that is not the name of a
    member of [Object.prototype] (see the Modtale adapter's
    [mapSortField]). *)
Definition mapSortField (sortBy : string) : Z :=
  if String.eqb sortBy "downloads" then 2
  else if String.eqb sortBy "rating" then 3
  else if String.eqb sortBy "updated" then 4
  else if String.eqb sortBy "created" then 11
  else if String.eqb sortBy "name" then 1
  else 2.

(** The classification [loadCategories] files a class under, from its
    lower-cased name. *)
Definition classify (name : string) : option UnifiedClassification :=
  if includes "mod" name && negb (includes "modpack" name) then Some PLUGIN
  else if includes "modpack" name || includes "pack" name then Some MODPACK
  else if includes "resource" name || includes "texture" name || includes "art" name
  then Some ART
  else if includes "world" name || includes "save" name || includes "map" name
  then Some SAVE
  else if includes "data" name then Some DATA
  else None.

(** The predicate [discoverHytaleGame] passes to [find]. *)
Definition isHytale (g : value) : result bool :=
  slug <~ get g "slug" ;;
  if strictEq slug (Str "hytale") then Ok true
  else
    lowered <~ callToLowerCase (prop g "name") ;;
    if String.eqb lowered "hytale" then Ok true
    else
      inSlug <~ callIncludes slug "hytale" ;;
      if inSlug then Ok true
      else if includes "hytale" lowered then Ok true
      else Ok (strictEq (prop g "id") (int HYTALE_GAME_ID)).

(** ** Requests *)

Section Requests.
Variable net : Upstream.

(** [request<T>(endpoint)]; every caller leaves [options] at [{}]. *)
Definition request (endpoint : string) : M state value :=
  s <- read ;;
  match apiKey s with
  | Some key =>
      if negb (isConfigured s)
      then throw (Error "CurseForge API key not configured")
      else
        let url := CURSEFORGE_API_BASE ++ endpoint in
        log info ("[CurseForgeProvider] Fetching: " ++ url) ;;;
        response <- fetch net url [("x-api-key", key); ("Content-Type", "application/json")] ;;
        if negb (ok response)
        then
          log error ("[CurseForgeProvider] Error response: "
                     ++ substring0 500 (text response)) ;;;
          throw (Error ("CurseForge API error: HTTP " ++ ToString (int (status response))))
        else
          match json response with
          | Some data => ret data
          | None => throw SyntaxError
          end
  | None => throw (Error "CurseForge API key not configured")
  end.

Definition loadCategories : M state unit :=
  s <- read ;;
  if negb (truthy (hytaleGameId s)) then ret tt
  else
    tryCatch
      (response <- request ("/v1/categories?gameId=" ++ ToString (hytaleGameId s)) ;;
       data <- lift (get response "data") ;;
       setCategories data ;;;
       cats <- lift (iterate data) ;;
       forEach cats (fun cat =>
         isClass <- lift (get cat "isClass") ;;
         if truthy isClass
         then
           name <- lift (callToLowerCase (prop cat "name")) ;;
           match classify name with
           | Some c => setClassification (prop cat "id") c
           | None => ret tt
           end
         else ret tt) ;;;
       length <- lift (get data "length") ;;
       log info ("[CurseForgeProvider] Loaded " ++ ToString length ++ " categories"))
      (fun _ => log error "[CurseForgeProvider] Failed to load categories:").

Definition discoverHytaleGame : M state unit :=
  s <- read ;;
  if negb (isConfigured s) then ret tt
  else
    tryCatch
      (log info "[CurseForgeProvider] Fetching games list from CurseForge API..." ;;;
       response <- request "/v1/games" ;;
       data <- lift (get response "data") ;;
       length <- lift (get data "length") ;;
       log info ("[CurseForgeProvider] Found " ++ ToString length
                 ++ " games in CurseForge") ;;;
       hytale <- lift (find data isHytale) ;;
       if truthy hytale
       then
         setHytaleGameId (prop hytale "id") ;;;
         log info ("[CurseForgeProvider] Discovered Hytale game ID: "
                   ++ ToString (prop hytale "id")
                   ++ " (name: " ++ ToString (prop hytale "name")
                   ++ ", slug: " ++ ToString (prop hytale "slug") ++ ")") ;;;
         loadCategories
       else
         log warn "[CurseForgeProvider] Hytale not found in games list, using known game ID" ;;;
         setHytaleGameId (int HYTALE_GAME_ID) ;;;
         log info ("[CurseForgeProvider] Using known Hytale game ID: "
                   ++ ToString (int HYTALE_GAME_ID)) ;;;
         loadCategories)
      (fun _ =>
         log error "[CurseForgeProvider] Failed to discover Hytale game:" ;;;
         setHytaleGameId (int HYTALE_GAME_ID) ;;;
         log info ("[CurseForgeProvider] Using fallback Hytale game ID: "
                   ++ ToString (int HYTALE_GAME_ID))).

Definition initialize (config : ProviderConfig.t) : M state unit :=
  (if truthy (ofString (ProviderConfig.apiKey config))
   then
     s <- read ;;
     write {| apiKey := ProviderConfig.apiKey config; hytaleGameId := hytaleGameId s;
              categories := categories s; classificationMap := classificationMap s |} ;;;
     discoverHytaleGame
   else ret tt) ;;;
  s <- read ;;
  log info ("[CurseForgeProvider] Initialized"
            ++ (if isConfigured s then " with API key" else "")).

(** [page] and [pageSize] as [searchProjects] computes them. *)
Definition searchPage (params : UnifiedSearchParams.t) : Z :=
  match UnifiedSearchParams.page params with Some n => n | None => 1 end.

Definition searchPageSize (params : UnifiedSearchParams.t) : Z :=
  Z.min (match UnifiedSearchParams.pageSize params with Some n => n | None => 50 end) 50.

(** The pairs appended to [queryParams], in order. *)
Definition searchQuery (s : state) (params : UnifiedSearchParams.t)
  : list (string * string) :=
  let page := searchPage params in
  let pageSize := searchPageSize params in
  ([("gameId", ToString (hytaleGameId s))]
   ++ (match UnifiedSearchParams.query params with
       | Some q => if truthy (Str q) then [("searchFilter", q)] else []
       | None => []
       end)
   ++ (match UnifiedSearchParams.classification params with
       | Some wanted =>
           if truthy (Str wanted)
           then match List.find (fun kc => String.eqb (classificationName (snd kc)) wanted)
                                (classificationMap s) with
                | Some (classId, _) => [("classId", ToString classId)]
                | None => []
                end
           else []
       | None => []
       end)
   ++ (match UnifiedSearchParams.categories params with
       | Some (c :: cs) => [("categoryIds", ("[" ++ String.concat "," (c :: cs) ++ "]")%string)]
       | _ => []
       end)
   ++ (match UnifiedSearchParams.gameVersion params with
       | Some g => if truthy (Str g) then [("gameVersion", g)] else []
       | None => []
       end)
   ++ [("index", ToString (int ((page - 1) * pageSize)));
       ("pageSize", ToString (int pageSize))]
   ++ (match UnifiedSearchParams.sortBy params with
       | Some sortBy =>
           if truthy (Str sortBy)
           then [("sortField", ToString (int (mapSortField sortBy)));
                 ("sortOrder",
                  match UnifiedSearchParams.sortOrder params with
                  | Some o => if String.eqb o "asc" then "asc" else "desc"
                  | None => "desc"
                  end)]
           else []
       | None => []
       end))%list.

Definition searchEndpoint (s : state) (params : UnifiedSearchParams.t) : string :=
  "/v1/mods/search?" ++ searchParamsToString (searchQuery s params).

(** What [searchProjects] makes of the reply body. *)
Definition searchResult (s : state) (params : UnifiedSearchParams.t) (response : value)
  : result UnifiedSearchResponse.t :=
  data <~ get response "data" ;;
  projects <~ map data (transformMod s) ;;
  pagination <~ get response "pagination" ;;
  totalCount <~ get pagination "totalCount" ;;
  Ok {| UnifiedSearchResponse.projects := projects;
        UnifiedSearchResponse.total := totalCount;
        UnifiedSearchResponse.page := int (searchPage params);
        UnifiedSearchResponse.pageSize := int (searchPageSize params);
        UnifiedSearchResponse.hasMore :=
          lt (add (prop pagination "index") (prop pagination "resultCount"))
             (prop pagination "totalCount");
        UnifiedSearchResponse.providerId := id |}.

Definition searchProjects (params : UnifiedSearchParams.t)
  : M state UnifiedSearchResponse.t :=
  s0 <- read ;;
  (if negb (truthy (hytaleGameId s0)) then discoverHytaleGame else ret tt) ;;;
  s <- read ;;
  if negb (truthy (hytaleGameId s))
  then
    log warn "[CurseForgeProvider] Cannot search - Hytale game ID not found" ;;;
    ret {| UnifiedSearchResponse.projects := [];
           UnifiedSearchResponse.total := int 0;
           UnifiedSearchResponse.page :=
             or (ofNumber (UnifiedSearchParams.page params)) (int 1);
           UnifiedSearchResponse.pageSize :=
             or (ofNumber (UnifiedSearchParams.pageSize params)) (int 20);
           UnifiedSearchResponse.hasMore := false;
           UnifiedSearchResponse.providerId := id |}
  else
    response <- request (searchEndpoint s params) ;;
    s' <- read ;;
    lift (searchResult s' params response).

Definition getProject (projectId : string) : M state UnifiedProject.t :=
  response <- request ("/v1/mods/" ++ projectId) ;;
  s <- read ;;
  data <- lift (get response "data") ;;
  lift (transformMod s data).

(** [dep.relationType === 3 ? 'required' : ...]; both remaining
    alternatives of the source are 'optional'. *)
Definition dependencyType (relationType : value) : string :=
  if strictEq relationType (int 3) then "required"
  else if strictEq relationType (int 2) then "optional"
  else "optional".

(** One iteration of the loop over [deps]. *)
Definition resolveDependency (dep : value) : M state UnifiedDependency.t :=
  tryCatch
    (modId <- lift (get dep "modId") ;;
     modResponse <- request ("/v1/mods/" ++ ToString modId) ;;
     data <- lift (get modResponse "data") ;;
     name <- lift (get data "name") ;;
     ret {| UnifiedDependency.projectId := Str (ToString modId);
            UnifiedDependency.projectName := name;
            UnifiedDependency.versionId := Undefined;
            UnifiedDependency.required := strictEq (prop dep "relationType") (int 3);
            UnifiedDependency.type := dependencyType (prop dep "relationType") |})
    (fun _ =>
       modId <- lift (get dep "modId") ;;
       ret {| UnifiedDependency.projectId := Str (ToString modId);
              UnifiedDependency.projectName := Str ("Mod #" ++ ToString modId);
              UnifiedDependency.versionId := Undefined;
              UnifiedDependency.required := strictEq (prop dep "relationType") (int 3);
              UnifiedDependency.type :=
                if strictEq (prop dep "relationType") (int 3)
                then "required" else "optional" |}).

Definition getVersionDependencies (projectId versionId : string)
  : M state (list UnifiedDependency.t) :=
  tryCatch
    (response <- request ("/v1/mods/" ++ projectId ++ "/files/" ++ versionId) ;;
     data <- lift (get response "data") ;;
     dependencies <- lift (get data "dependencies") ;;
     deps <- lift (iterate (or dependencies (Arr []))) ;;
     collect deps resolveDependency)
    (fun _ =>
       log error ("[CurseForgeProvider] Error getting dependencies for "
                  ++ projectId ++ "/" ++ versionId ++ ":") ;;;
       ret []).

Definition getCategories : M state (list UnifiedCategory.t) :=
  s <- read ;;
  length <- lift (get (categories s) "length") ;;
  (if strictEq length (int 0) && truthy (hytaleGameId s)
   then loadCategories
   else ret tt) ;;;
  s' <- read ;;
  classes <- lift (filter (categories s')
                     (fun c => isClass <~ get c "isClass" ;; Ok (truthy isClass))) ;;
  lift (mapR transformCategory classes).

Definition getDownloadUrl (_projectId _versionId : string) : value := Null.

Section Downloads.
Variable Stream : Type.
Variable bodies : Bodies Stream.

Definition downloadVersion (projectId versionId : string) : M state Stream :=
  s <- read ;;
  match apiKey s with
  | Some key =>
      if negb (isConfigured s)
      then throw (Error "CurseForge API key not configured")
      else
        fileResponse <- request ("/v1/mods/" ++ projectId ++ "/files/" ++ versionId) ;;
        data <- lift (get fileResponse "data") ;;
        inline <- lift (get data "downloadUrl") ;;
        downloadUrl <-
          (if negb (truthy inline)
           then
             urlResponse <- request ("/v1/mods/" ++ projectId ++ "/files/" ++ versionId
                                     ++ "/download-url") ;;
             lift (get urlResponse "data")
           else ret inline) ;;
        if negb (truthy downloadUrl)
        then throw (Error "Download URL not available for this file")
        else
          log info ("[CurseForgeProvider] Downloading from: " ++ ToString downloadUrl) ;;;
          (* [request] does not write [this.apiKey]: it still is [key] *)
          reply <- fetchStream net bodies (ToString downloadUrl) [("x-api-key", key)] ;;
          let response := fst reply in
          if negb (ok response)
          then throw (Error ("Download failed: HTTP " ++ ToString (int (status response))))
          else
            match snd reply with
            | Some body => ret body
            | None => throw (Error "No response body received")
            end
  | None => throw (Error "CurseForge API key not configured")
  end.

End Downloads.

End Requests.
End CurseForgeProvider.

(* ================================================================== *)
(** * routes/mods.ts *)
(* ================================================================== *)

Module ModsRoutes.
Import JS.

(** [if (present) params.k = v]: the property the statement adds to
    the object under construction, if any.  Every property is assigned
    at most once. *)
Definition assigned (present : bool) (k : string) (v : value) : list (string * value) :=
  if present then [(k, v)] else [].

(** [parseSearchParams].  [query] lists the properties of [req.query]:
    each value is a string, an array or a nested object. *)
Definition parseSearchParams (query : list (string * value)) : value :=
  let query := Obj query in
  Obj (assigned (truthy (or (prop query "q") (prop query "query")))
         "query" (Str (ToString (or (prop query "q") (prop query "query"))))
       ++ assigned (truthy (prop query "classification"))
            "classification" (prop query "classification")
       ++ assigned (truthy (prop query "categories"))
            "categories"
            (if isArray (prop query "categories") then prop query "categories"
             else Arr (List.map Str (split ","%char (ToString (prop query "categories")))))
       ++ assigned (truthy (prop query "tags"))
            "tags"
            (if isArray (prop query "tags") then prop query "tags"
             else Arr (List.map Str (split ","%char (ToString (prop query "tags")))))
       ++ assigned (truthy (prop query "gameVersion"))
            "gameVersion" (Str (ToString (prop query "gameVersion")))
       ++ assigned (negb (strictEq (prop query "page") Undefined))
            "page" (or (Number (parseInt10 (ToString (prop query "page")))) (int 1))
       ++ assigned (truthy (or (prop query "pageSize") (prop query "limit")))
            "pageSize"
            (or (Number (parseInt10 (ToString (or (prop query "pageSize")
                                                  (prop query "limit")))))
                (int 50))
       ++ assigned (truthy (prop query "sortBy")) "sortBy" (prop query "sortBy")
       ++ assigned (truthy (prop query "sortOrder")) "sortOrder" (prop query "sortOrder"))%list.

(** [req.query] for a query string of distinct plain keys: every pair
    arrives as a string property, in the order it was appended. *)
Definition queryOf (pairs : list (string * string)) : list (string * value) :=
  List.map (fun kv => (fst kv, Str (snd kv))) pairs.

End ModsRoutes.

(* ================================================================== *)
(** * frontend/src/services/modProviderApi.ts *)
(* ================================================================== *)

Module ModProviderApi.
Import JS.

(** [if (present(field)) queryParams.append(k, text(field))]: the pair
    the statement appends, if any; an absent property is not truthy. *)
Definition appended {A} (field : option A) (present : A -> bool) (k : string)
    (text : A -> string) : list (string * string) :=
  match field with
  | Some x => if present x then [(k, text x)] else []
  | None => []
  end.

(** [buildSearchQuery]: the pairs appended to [queryParams], in order. *)
Definition buildSearchQuery (params : UnifiedSearchParams.t) : list (string * string) :=
  let text (s : string) := truthy (Str s) in
  let items (l : list string) := truthy (int (Z.of_nat (List.length l))) in
  let number (n : Z) := truthy (int n) in
  (appended (UnifiedSearchParams.query params) text "q" (fun q => q)
   ++ appended (UnifiedSearchParams.classification params) text "classification" (fun c => c)
   ++ appended (UnifiedSearchParams.categories params) items "categories" (String.concat ",")
   ++ appended (UnifiedSearchParams.tags params) items "tags" (String.concat ",")
   ++ appended (UnifiedSearchParams.gameVersion params) text "gameVersion" (fun g => g)
   ++ appended (UnifiedSearchParams.page params) number "page" (fun n => ToString (int n))
   ++ appended (UnifiedSearchParams.pageSize params) number "pageSize"
        (fun n => ToString (int n))
   ++ appended (UnifiedSearchParams.sortBy params) text "sortBy" (fun f => f)
   ++ appended (UnifiedSearchParams.sortOrder params) text "sortOrder" (fun o => o))%list.

End ModProviderApi.

(* ================================================================== *)
(** * Sample adapters and payloads *)
(* ================================================================== *)

Module Samples.
Import JS Eff.

(** Adapters over a trivial store; streams are strings. *)
Definition sampleVersion (versionId label : string) (size : Z) : UnifiedVersion.t :=
  {| UnifiedVersion.id := Str versionId;
     UnifiedVersion.version := Str label;
     UnifiedVersion.changelog := Undefined;
     UnifiedVersion.downloads := int 0;
     UnifiedVersion.gameVersion := Str "";
     UnifiedVersion.releaseDate := Str "";
     UnifiedVersion.fileSize := int size;
     UnifiedVersion.fileName := Str "" |}.

Definition sampleProject (versions : list UnifiedVersion.t) : UnifiedProject.t :=
  {| UnifiedProject.id := Str "p1";
     UnifiedProject.slug := Str "p1";
     UnifiedProject.providerId := "X";
     UnifiedProject.title := Str "Project one";
     UnifiedProject.description := Str "";
     UnifiedProject.shortDescription := Str "";
     UnifiedProject.classification := Str "PLUGIN";
     UnifiedProject.author :=
       {| UnifiedAuthor.id := Str "a"; UnifiedAuthor.username := Str "a";
          UnifiedAuthor.displayName := Str "a"; UnifiedAuthor.avatarUrl := Undefined |};
     UnifiedProject.categories := [];
     UnifiedProject.tags := None;
     UnifiedProject.downloads := int 0;
     UnifiedProject.rating := int 0;
     UnifiedProject.ratingCount := int 0;
     UnifiedProject.iconUrl := Undefined;
     UnifiedProject.bannerUrl := Undefined;
     UnifiedProject.galleryImages := None;
     UnifiedProject.versions := versions;
     UnifiedProject.latestVersion := List.hd_error versions;
     UnifiedProject.gameVersions := [];
     UnifiedProject.createdAt := Str "";
     UnifiedProject.updatedAt := Str "";
     UnifiedProject.featured := Bool false;
     UnifiedProject._raw := Undefined |}.

(** An adapter with a fixed configuration state, a fixed search outcome
    and one project that has the given versions. *)
Definition sampleProvider (name : string) (configured : bool)
    (searchOutcome : result UnifiedSearchResponse.t)
    (versions : list UnifiedVersion.t) : IModProvider.t unit string :=
  {| IModProvider.id := name;
     IModProvider.displayName := name;
     IModProvider.iconUrl := None;
     IModProvider.requiresApiKey := true;
     IModProvider.initialize := fun _ => ret tt;
     IModProvider.isConfigured := fun _ => configured;
     IModProvider.setApiKey := fun _ => ret tt;
     IModProvider.searchProjects := fun _ => lift searchOutcome;
     IModProvider.getProject := fun _ => ret (sampleProject versions);
     IModProvider.getProjectBySlug := None;
     IModProvider.getCategories := ret [];
     IModProvider.getTags := None;
     IModProvider.getVersionDependencies := fun _ _ => ret [];
     IModProvider.downloadVersion := fun _ versionId => ret ("bytes of " ++ versionId);
     IModProvider.getDownloadUrl := None |}.

Definition sevenHits : UnifiedSearchResponse.t :=
  {| UnifiedSearchResponse.projects := [];
     UnifiedSearchResponse.total := int 7;
     UnifiedSearchResponse.page := int 1;
     UnifiedSearchResponse.pageSize := int 50;
     UnifiedSearchResponse.hasMore := false;
     UnifiedSearchResponse.providerId := "X" |}.

Definition versionOne : UnifiedVersion.t := sampleVersion "v1" "1.0.0" 2048.

Definition projectOne : UnifiedProject.t := sampleProject [versionOne].

Definition providerX : IModProvider.t unit string :=
  sampleProvider "X" true (Ok sevenHits) [versionOne].

(** Registered but never given a key. *)
Definition providerY : IModProvider.t unit string :=
  sampleProvider "Y" false (Ok sevenHits) [].

(** Configured, but its upstream answers HTTP 500. *)
Definition providerZ : IModProvider.t unit string :=
  sampleProvider "Z" true (Throw (Error "HTTP 500")) [].

(** Configured, but its upstream has lost the project. *)
Definition providerGone : IModProvider.t unit string :=
  {| IModProvider.id := "G";
     IModProvider.displayName := "G";
     IModProvider.iconUrl := None;
     IModProvider.requiresApiKey := true;
     IModProvider.initialize := fun _ => ret tt;
     IModProvider.isConfigured := fun _ => true;
     IModProvider.setApiKey := fun _ => ret tt;
     IModProvider.searchProjects := fun _ => ret sevenHits;
     IModProvider.getProject := fun _ => throw (Error "HTTP 404");
     IModProvider.getProjectBySlug := None;
     IModProvider.getCategories := ret [];
     IModProvider.getTags := None;
     IModProvider.getVersionDependencies := fun _ _ => ret [];
     IModProvider.downloadVersion := fun _ versionId => ret ("bytes of " ++ versionId);
     IModProvider.getDownloadUrl := None |}.

Definition registryXY : ModProviderRegistry.t unit string :=
  StringMap.set (StringMap.set [] "X" providerX) "Y" providerY.

Definition registryXZ : ModProviderRegistry.t unit string :=
  StringMap.set (StringMap.set [] "X" providerX) "Z" providerZ.

Definition registryY : ModProviderRegistry.t unit string :=
  StringMap.set [] "Y" providerY.

Definition page3size10 : UnifiedSearchParams.t :=
  {| UnifiedSearchParams.query := None;
     UnifiedSearchParams.classification := None;
     UnifiedSearchParams.categories := None;
     UnifiedSearchParams.tags := None;
     UnifiedSearchParams.gameVersion := None;
     UnifiedSearchParams.page := Some 3;
     UnifiedSearchParams.pageSize := Some 10;
     UnifiedSearchParams.sortBy := None;
     UnifiedSearchParams.sortOrder := None |}.

(** An upstream that answers every request with HTTP 200 and [body]. *)
Definition always (body : value) : Upstream :=
  fun _ _ => Responded {| ok := true; status := 200; statusText := "OK";
                          text := ""; json := Some body |}.

Definition modtaleReady : ModtaleProvider.state :=
  {| ModtaleProvider.apiKey := Some "key" |}.

Definition curseForgeReady : CurseForgeProvider.state :=
  {| CurseForgeProvider.apiKey := Some "key";
     CurseForgeProvider.hytaleGameId := int CurseForgeProvider.HYTALE_GAME_ID;
     CurseForgeProvider.categories := Arr [];
     CurseForgeProvider.classificationMap := [] |}.

(** A Modtale project with one version. *)
Definition modtalePayload : value :=
  Obj [("id", Str "p1"); ("title", Str "Project one"); ("author", Str "ann");
       ("classification", Str "ART");
       ("versions", Arr [Obj [("id", Str "v1"); ("version", Str "1.0.0");
                              ("fileSize", int 2048)]])].

(** A Modtale project whose classification is not a member of the
    enumeration. *)
Definition modtaleOddPayload : value :=
  Obj [("id", Str "p2"); ("author", Str "ann"); ("classification", Str "FOO")].

Definition modtaleVersion : value :=
  Obj [("id", Str "v1"); ("fileSize", int 2048)].

(** A Modtale version whose size is negative. *)
Definition modtaleNegativeVersion : value :=
  Obj [("id", Str "v1"); ("fileSize", int (-1))].

Definition curseForgeFile : value :=
  Obj [("id", int 77); ("displayName", Str "1.0.0"); ("fileName", Str "one.jar");
       ("downloadCount", int 5); ("gameVersions", Arr [Str "1.0"]);
       ("fileDate", Str "2026-01-01"); ("fileLength", int 2048)].

Definition curseForgeMod : value :=
  Obj [("id", int 9); ("slug", Str "one"); ("name", Str "Project one");
       ("summary", Str "A mod"); ("classId", int 6);
       ("authors", Arr [Obj [("id", int 1); ("name", Str "ann")]]);
       ("latestFiles", Arr [curseForgeFile]);
       ("categories", Arr []); ("latestFilesIndexes", Arr []);
       ("screenshots", Arr []); ("downloadCount", int 5)].

(** A Modtale project whose version "v1" depends on "a" (a bare
    string) and, optionally, on "b". *)
Definition modtaleWithDependencies : value :=
  Obj [("id", Str "p1");
       ("versions",
        Arr [Obj [("id", Str "v1");
                  ("modIds", Arr [Str "a";
                                  Obj [("modId", Str "b"); ("required", Bool false)]])]])].

(** An upstream that answers every request with the given HTTP error. *)
Definition failing (code : Z) (reason body : string) (parsed : option value) : Upstream :=
  fun _ _ => Responded {| ok := false; status := code; statusText := reason;
                          text := body; json := parsed |}.

Definition noBodies : Bodies string := fun _ _ => None.

Definition someBody : Bodies string := fun _ url => Some ("bytes from " ++ url).

(** The smallest payload the Modtale transform accepts. *)
Definition modtaleBarePayload : value := Obj [("author", Str "ann")].

Definition modtaleAuthorless : value := Obj [("id", Str "p3")].

Definition modtalePagedReply (number : Z) (content : list value) : value :=
  Obj [("content", Arr content); ("number", int number)].

Definition page7 : UnifiedSearchParams.t :=
  {| UnifiedSearchParams.query := None;
     UnifiedSearchParams.classification := None;
     UnifiedSearchParams.categories := None;
     UnifiedSearchParams.tags := None;
     UnifiedSearchParams.gameVersion := None;
     UnifiedSearchParams.page := Some 7;
     UnifiedSearchParams.pageSize := Some 200;
     UnifiedSearchParams.sortBy := None;
     UnifiedSearchParams.sortOrder := None |}.

Definition curseForgeSearchReply : value :=
  Obj [("data", Arr [curseForgeMod]);
       ("pagination", Obj [("index", int 20); ("resultCount", int 10);
                           ("totalCount", int 45)])].

Definition curseForgeClass : value :=
  Obj [("id", int 6); ("name", Str "Mods"); ("slug", Str "mods"); ("isClass", Bool true)].

Definition curseForgeSubcategory : value :=
  Obj [("id", int 61); ("name", Str "Magic"); ("slug", Str "magic"); ("isClass", Bool false)].

Definition curseForgeCached : CurseForgeProvider.state :=
  {| CurseForgeProvider.apiKey := Some "key";
     CurseForgeProvider.hytaleGameId := int CurseForgeProvider.HYTALE_GAME_ID;
     CurseForgeProvider.categories := Arr [curseForgeClass; curseForgeSubcategory];
     CurseForgeProvider.classificationMap := [(int 6, PLUGIN)] |}.

Definition curseForgeFileReply : value :=
  Obj [("data", Obj [("id", int 77); ("downloadUrl", Str "https://cdn.example/one.jar")])].

Definition curseForgeVersionedMod : value :=
  Obj [("id", int 9); ("name", Str "Project one"); ("summary", Str "A mod");
       ("authors", Arr []); ("latestFiles", Arr []); ("categories", Arr []);
       ("latestFilesIndexes",
        Arr [Obj [("gameVersion", Str "1.0")]; Obj [("gameVersion", Str "")];
             Obj [("gameVersion", Str "1.1")]; Obj [("gameVersion", Str "1.0")]]);
       ("screenshots", Arr [])].

(** [?tags=magic,tech&categories=12,34&page=0&limit=25] *)
Definition taggedQuery : list (string * value) :=
  [("tags", Str "magic,tech"); ("categories", Str "12,34"); ("page", Str "0");
   ("limit", Str "25")].

Definition taggedParams : UnifiedSearchParams.t :=
  {| UnifiedSearchParams.query := None;
     UnifiedSearchParams.classification := None;
     UnifiedSearchParams.categories := Some ["12"; "34"];
     UnifiedSearchParams.tags := Some ["magic"; "tech"];
     UnifiedSearchParams.gameVersion := None;
     UnifiedSearchParams.page := Some 1;
     UnifiedSearchParams.pageSize := Some 25;
     UnifiedSearchParams.sortBy := None;
     UnifiedSearchParams.sortOrder := None |}.

End Samples.

(* ================================================================== *)
(** * Vocabulary of the statements *)
(* ================================================================== *)

Module Spec.
Import JS Eff.

(** [requested || fallback] on an optional number of the search
    parameters: the requested number, or the fallback when it is
    absent or zero. *)
Definition requestedOr (requested : option Z) (fallback : Z) : Z :=
  match requested with
  | Some n => if (n =? 0)%Z then fallback else n
  | None => fallback
  end.

(** An empty page of results attributed to [providerId]. *)
Definition emptyPage (providerId : string) (params : UnifiedSearchParams.t)
  : UnifiedSearchResponse.t :=
  {| UnifiedSearchResponse.projects := [];
     UnifiedSearchResponse.total := int 0;
     UnifiedSearchResponse.page := int (requestedOr (UnifiedSearchParams.page params) 1);
     UnifiedSearchResponse.pageSize :=
       int (requestedOr (UnifiedSearchParams.pageSize params) 50);
     UnifiedSearchResponse.hasMore := false;
     UnifiedSearchResponse.providerId := providerId |}.

Definition numericTotal (r : UnifiedSearchResponse.t) : Prop :=
  exists n, UnifiedSearchResponse.total r = Number n.

Definition sum (zs : list Z) : Z := List.fold_right Z.add 0 zs.

(** Counts whose sum a double holds exactly: none is negative and
    together they do not exceed 2^53. *)
Definition countable (zs : list Z) : Prop :=
  Forall (fun z => 0 <= z) zs /\ sum zs <= 2 ^ 53.

(** [Number.isSafeInteger]: a whole number of magnitude below 2^53.
    A double holds it exactly and prints it in full, and sums, products
    and differences of such numbers are exact when they are such
    numbers themselves. *)
Definition safeInteger (z : Z) : Prop := Z.abs z < 2 ^ 53.

(** An optional number of the search parameters is absent or safe. *)
Definition safeOrAbsent (o : option Z) : Prop :=
  match o with Some z => safeInteger z | None => True end.

Section Aggregation.
Variables S Stream : Type.
Variable params : UnifiedSearchParams.t.

(** [isolated t' ps entries answered]: one entry per adapter of [ps],
    in order.  The entry of an adapter whose [searchProjects] returned
    is what it returned, and that response is also listed in
    [answered]; the entry of one whose [searchProjects] threw is the
    empty page under its id, and the trace [t'] holds the error line
    that names it.  Nothing is said about the order in which the
    searches ran. *)
Inductive isolated (t' : list event)
  : list (IModProvider.t S Stream) ->
    list UnifiedSearchResponse.t -> list UnifiedSearchResponse.t -> Prop :=
| isolated_nil : isolated t' [] [] []
| isolated_answered : forall p ps r entries answered,
    (exists s0 t0 s1 t1,
       IModProvider.searchProjects p params s0 t0 = (Ok r, s1, t1)) ->
    isolated t' ps entries answered ->
    isolated t' (p :: ps) (r :: entries) (r :: answered)
| isolated_failed : forall p ps entries answered,
    (exists s0 t0 e s1 t1,
       IModProvider.searchProjects p params s0 t0 = (Throw e, s1, t1)) ->
    In (Log error ("[ModProviderRegistry] Search failed for "
                   ++ IModProvider.id p ++ ":")) t' ->
    isolated t' ps entries answered ->
    isolated t' (p :: ps) (emptyPage (IModProvider.id p) params :: entries) answered.

(** The adapter keeps to its interface: whenever its search returns,
    the [total] of the response is a number. *)
Definition answersWithNumber (p : IModProvider.t S Stream) : Prop :=
  forall s0 t0 r s1 t1,
    IModProvider.searchProjects p params s0 t0 = (Ok r, s1, t1) -> numericTotal r.

(** What each per-provider operation of the service does before it
    reaches the adapter: an unknown id and an unconfigured adapter are
    both rejected with the store and the trace untouched, so no adapter
    method has run and no request was sent. *)
Definition guarded {A} (operation : ModProviderRegistry.t S Stream -> string -> M S A)
  : Prop :=
  forall registry providerId s t,
    (ModProviderRegistry.getProvider registry providerId = None ->
     operation registry providerId s t
       = (Throw (Error ("Provider not found: " ++ providerId)), s, t))
    /\
    (forall provider,
       ModProviderRegistry.getProvider registry providerId = Some provider ->
       IModProvider.isConfigured provider s = false ->
       operation registry providerId s t
         = (Throw (Error ("Provider " ++ providerId
                          ++ " is not configured. Please set up the API key.")), s, t)).

End Aggregation.

(** The five members of the classification enumeration, as values. *)
Definition isClassification (v : value) : Prop :=
  exists c, v = Str (classificationName c).

Definition nonNegative (v : value) : Prop :=
  exists n, v = int n /\ (0 <= n)%Z.

Definition absentOrNonNegative (v : value) : Prop :=
  v = Undefined \/ v = Null \/ nonNegative v.

(** [required == true] iff [type == 'required'] *)
Definition consistent (d : UnifiedDependency.t) : Prop :=
  UnifiedDependency.required d = true <-> UnifiedDependency.type d = "required".

(** A [Map] holds each key once. *)
Definition uniqueKeys {V} (m : StringMap.t V) : Prop := NoDup (List.map fst m).

(** The events an operation appended to the trace [before]. *)
Definition appended (before after added : list event) : Prop :=
  after = (before ++ added)%list.

(** [requested ?? fallback] on an optional number of the search
    parameters. *)
Definition requestedOrElse (requested : option Z) (fallback : Z) : Z :=
  match requested with
  | Some n => n
  | None => fallback
  end.

(** Neither [null] nor [undefined]. *)
Definition present (v : value) : Prop := v <> Undefined /\ v <> Null.

(** If [v] is an array, none of its entries is [null] or [undefined]. *)
Definition noNullEntries (v : value) : Prop :=
  forall items, v = Arr items -> Forall present items.

(** The CurseForge adapter holds the same key in both stores. *)
Definition sameKey (s s' : CurseForgeProvider.state) : Prop :=
  CurseForgeProvider.apiKey s' = CurseForgeProvider.apiKey s.

(** The same key and the same game id. *)
Definition sameKeyAndGame (s s' : CurseForgeProvider.state) : Prop :=
  CurseForgeProvider.apiKey s' = CurseForgeProvider.apiKey s
  /\ CurseForgeProvider.hytaleGameId s' = CurseForgeProvider.hytaleGameId s.

(** The payloads of the strings in a list of values. *)
Fixpoint strings (vs : list value) : list string :=
  match vs with
  | [] => []
  | Str s :: rest => s :: strings rest
  | _ :: rest => strings rest
  end.

(** An optional list of strings of a typed record, as the array a
    JavaScript operator sees. *)
Definition ofStrings (o : option (list string)) : value :=
  match o with Some l => Arr (List.map Str l) | None => Undefined end.

(** [params] is the typed reading of the object [raw] that
    [parseSearchParams] built: property by property, the same value. *)
Definition typed (raw : value) (params : UnifiedSearchParams.t) : Prop :=
  prop raw "query" = ofString (UnifiedSearchParams.query params)
  /\ prop raw "classification" = ofString (UnifiedSearchParams.classification params)
  /\ prop raw "categories" = ofStrings (UnifiedSearchParams.categories params)
  /\ prop raw "tags" = ofStrings (UnifiedSearchParams.tags params)
  /\ prop raw "gameVersion" = ofString (UnifiedSearchParams.gameVersion params)
  /\ prop raw "page" = ofNumber (UnifiedSearchParams.page params)
  /\ prop raw "pageSize" = ofNumber (UnifiedSearchParams.pageSize params)
  /\ prop raw "sortBy" = ofString (UnifiedSearchParams.sortBy params)
  /\ prop raw "sortOrder" = ofString (UnifiedSearchParams.sortOrder params).

(** A whole number other than zero. *)
Definition nonZeroInteger (v : value) : Prop := exists z, v = int z /\ z <> 0.

(** No comma in the string. *)
Fixpoint commaFree (s : string) : bool :=
  match s with
  | EmptyString => true
  | String c rest => negb (Ascii.eqb c ","%char) && commaFree rest
  end.

(** A list the query string can carry: not empty, not the single empty
    string, and no entry holds a comma. *)
Definition listed (o : option (list string)) : Prop :=
  match o with
  | Some l => l <> [] /\ l <> [""] /\ Forall (fun s => commaFree s = true) l
  | None => True
  end.

(** A number the query string can carry: not zero, and small enough
    for its decimal text to be exact. *)
Definition sendableNumber (o : option Z) : Prop :=
  match o with
  | Some n => n <> 0 /\ Z.abs n < 2 ^ 53
  | None => True
  end.

(** Search parameters the query string can carry: no empty string,
    numbers and lists as above. *)
Definition sendable (params : UnifiedSearchParams.t) : Prop :=
  UnifiedSearchParams.query params <> Some ""
  /\ UnifiedSearchParams.classification params <> Some ""
  /\ listed (UnifiedSearchParams.categories params)
  /\ listed (UnifiedSearchParams.tags params)
  /\ UnifiedSearchParams.gameVersion params <> Some ""
  /\ sendableNumber (UnifiedSearchParams.page params)
  /\ sendableNumber (UnifiedSearchParams.pageSize params)
  /\ UnifiedSearchParams.sortBy params <> Some ""
  /\ UnifiedSearchParams.sortOrder params <> Some "".

(** [c] relates by [R] the store it starts from to the store it ends
    in, whether it returns or throws. *)
Definition keeps {S A} (R : S -> S -> Prop) (c : M S A) : Prop :=
  forall s t, R s (store (c s t)).

End Spec.

(* ================================================================== *)
(** * Reasoning about computations *)
(* ================================================================== *)

Section Computations.
Import JS Eff.
Variable S : Type.

Lemma bind_inv {A B} (c : M S A) (k : A -> M S B) s t b s' t' :
  bind c k s t = (Ok b, s', t') ->
  exists a s1 t1, c s t = (Ok a, s1, t1) /\ k a s1 t1 = (Ok b, s', t').
Proof.
  unfold bind. destruct (c s t) as [[[a | e] s1] t1]; intros H.
  - exists a, s1, t1. split; [reflexivity | exact H].
  - discriminate H.
Qed.

Lemma bind_ok {A B} (c : M S A) (k : A -> M S B) s t a s1 t1 :
  c s t = (Ok a, s1, t1) -> bind c k s t = k a s1 t1.
Proof. intros H. unfold bind. rewrite H. reflexivity. Qed.

Lemma bind_throw {A B} (c : M S A) (k : A -> M S B) s t e s1 t1 :
  c s t = (Throw e, s1, t1) -> bind c k s t = (Throw e, s1, t1).
Proof. intros H. unfold bind. rewrite H. reflexivity. Qed.

Lemma lift_inv {A} (r : result A) (s : S) t a (s' : S) t' :
  lift r s t = (Ok a, s', t') -> r = Ok a /\ s' = s /\ t' = t.
Proof. unfold lift. intros H. inversion H. auto. Qed.

Lemma rbind_inv {A B} (r : result A) (k : A -> result B) b :
  rbind r k = Ok b -> exists a, r = Ok a /\ k a = Ok b.
Proof.
  destruct r as [a | e]; simpl; intros H; [eauto | discriminate].
Qed.

Lemma mapR_Forall {A B} (f : A -> result B) (P : B -> Prop) :
  (forall x y, f x = Ok y -> P y) ->
  forall xs ys, mapR f xs = Ok ys -> Forall P ys.
Proof.
  intros Hf. induction xs as [| x xs IH]; simpl; intros ys H.
  - inversion H. constructor.
  - apply rbind_inv in H. destruct H as [y [Hy H]].
    apply rbind_inv in H. destruct H as [ys' [Hys H]].
    inversion H; subst. constructor; eauto.
Qed.

Lemma collect_Forall {A B} (body : A -> M S B) (P : B -> Prop) :
  (forall x s t y s' t', body x s t = (Ok y, s', t') -> P y) ->
  forall xs s t ys s' t', collect xs body s t = (Ok ys, s', t') -> Forall P ys.
Proof.
  intros Hb. induction xs as [| x xs IH]; simpl; intros s t ys s' t' H.
  - inversion H. constructor.
  - apply bind_inv in H. destruct H as [y [s1 [t1 [Hy H]]]].
    apply bind_inv in H. destruct H as [ys' [s2 [t2 [Hys H]]]].
    inversion H; subst. constructor; eauto.
Qed.

End Computations.

Lemma or_requested (requested : option Z) (fallback : Z) :
  JS.or (ofNumber requested) (JS.int fallback)
    = JS.int (Spec.requestedOr requested fallback).
Proof.
  destruct requested as [n |]; simpl; [| reflexivity].
  unfold JS.or. simpl. destruct (n =? 0)%Z; reflexivity.
Qed.

(* ================================================================== *)
(** * The registry: aggregation *)
(* ================================================================== *)

Section RegistryProperties.
Import JS Eff.
Variables S Stream : Type.

#[local] Abbreviation Provider := (IModProvider.t S Stream).

Lemma emptyResult_emptyPage (params : UnifiedSearchParams.t) (p : Provider) :
  ModProviderRegistry.emptyResult params p = Spec.emptyPage (IModProvider.id p) params.
Proof.
  unfold ModProviderRegistry.emptyResult, Spec.emptyPage.
  rewrite !or_requested. reflexivity.
Qed.

(** Starting a search never throws: what the adapter's search settles
    to is handed on, and the store and the trace are the ones the
    search left. *)
Lemma searchStarted_runs (params : UnifiedSearchParams.t) (p : Provider) s t :
  let started := (t ++ [Call (IModProvider.id p) "searchProjects"])%list in
  ModProviderRegistry.searchStarted params p s t
  = (Ok (p, outcome (IModProvider.searchProjects p params s started)),
     store (IModProvider.searchProjects p params s started),
     trace (IModProvider.searchProjects p params s started)).
Proof.
  intros started.
  unfold ModProviderRegistry.searchStarted, tryCatch, bind, emit, ret, outcome, store, trace.
  fold started.
  destruct (IModProvider.searchProjects p params s started) as [[[r | e] s1] t1];
    reflexivity.
Qed.

(** What the continuation of one branch does with a settled search. *)
Lemma searchSettled_runs (params : UnifiedSearchParams.t) (p : Provider)
    (settled : result UnifiedSearchResponse.t) s t :
  ModProviderRegistry.searchSettled params (p, settled) s t
  = match settled with
    | Ok r => (Ok r, s, t)
    | Throw _ =>
        (Ok (Spec.emptyPage (IModProvider.id p) params), s,
         (t ++ [Log error ("[ModProviderRegistry] Search failed for "
                           ++ IModProvider.id p ++ ":")])%list)
    end.
Proof.
  unfold ModProviderRegistry.searchSettled. cbn [fst snd].
  destruct settled as [r | e]; [reflexivity |].
  unfold bind, log, emit, ret. rewrite emptyResult_emptyPage. reflexivity.
Qed.

(** Every adapter's search is started, in order, and each settles to
    what that adapter's [searchProjects] did. *)
Lemma collect_started (params : UnifiedSearchParams.t) (ps : list Provider) :
  forall s t, exists settled s' t',
    collect ps (ModProviderRegistry.searchStarted params) s t
      = (Ok (List.combine ps settled), s', t')
    /\ Forall2 (fun p o => exists s0 t0 s1 t1,
                  IModProvider.searchProjects p params s0 t0 = (o, s1, t1)) ps settled.
Proof.
  induction ps as [| p ps IH]; intros s t.
  - exists [], s, t. split; [reflexivity | constructor].
  - cbn [collect]. unfold bind at 1. rewrite searchStarted_runs.
    set (run := IModProvider.searchProjects p params s
                  (t ++ [Call (IModProvider.id p) "searchProjects"])%list).
    destruct (IH (store run) (trace run)) as [settled [s' [t' [Hrest Hall]]]].
    unfold bind at 1. rewrite Hrest. unfold ret.
    exists (outcome run :: settled), s', t'. split; [reflexivity |].
    constructor; [| exact Hall].
    exists s, (t ++ [Call (IModProvider.id p) "searchProjects"])%list, (store run), (trace run).
    fold run. destruct run as [[o s1] t1]. reflexivity.
Qed.

(** The continuations never throw and leave the store alone; each
    hands back its adapter's response or logs and substitutes the
    empty page. *)
Lemma promiseAll_settled (params : UnifiedSearchParams.t)
    (ps : list Provider) (settled : list (result UnifiedSearchResponse.t)) :
  Forall2 (fun p o => exists s0 t0 s1 t1,
             IModProvider.searchProjects p params s0 t0 = (o, s1, t1)) ps settled ->
  forall s t, exists entries answered added,
    ModProviderRegistry.promiseAll
      (List.map (ModProviderRegistry.searchSettled params) (List.combine ps settled)) s t
      = (Ok entries, s, (t ++ added)%list)
    /\ forall t', (forall e, In e added -> In e t') ->
         Spec.isolated params t' ps entries answered.
Proof.
  induction 1 as [| p o ps settled Hrun Hall IH]; intros s t.
  - exists [], [], []. split; [cbn; rewrite List.app_nil_r; reflexivity |].
    intros t' _. constructor.
  - cbn [List.combine List.map ModProviderRegistry.promiseAll].
    rewrite searchSettled_runs. destruct o as [r | e].
    + destruct (IH s t) as [entries [answered [added [Hrest Hiso]]]].
      rewrite Hrest. exists (r :: entries), (r :: answered), added.
      split; [reflexivity |]. intros t' Hin.
      apply Spec.isolated_answered; [exact Hrun | apply Hiso; exact Hin].
    + set (line := Log error ("[ModProviderRegistry] Search failed for "
                              ++ IModProvider.id p ++ ":")).
      destruct (IH s (t ++ [line])%list) as [entries [answered [added [Hrest Hiso]]]].
      rewrite Hrest.
      exists (Spec.emptyPage (IModProvider.id p) params :: entries), answered,
        (line :: added).
      split; [rewrite <- List.app_assoc; reflexivity |]. intros t' Hin.
      destruct Hrun as [s0 [t0 [s1 [t1 Hrun]]]].
      apply Spec.isolated_failed.
      * exists s0, t0, e, s1, t1. exact Hrun.
      * apply Hin. left. reflexivity.
      * apply Hiso. intros x Hx. apply Hin. right. exact Hx.
Qed.

Lemma isolated_length (params : UnifiedSearchParams.t) (ps : list Provider)
    t' entries answered :
  Spec.isolated params t' ps entries answered ->
  List.length entries = List.length ps.
Proof. induction 1; simpl; congruence. Qed.

Lemma add_numbers (n m : number) : add (Number n) (Number m) = Number (numAdd n m).
Proof. reflexivity. Qed.

Lemma numAdd_zero (n : number) : numAdd n (Num 0) = n.
Proof. destruct n as [z |]; simpl; [rewrite Z.add_0_r |]; reflexivity. Qed.

(** The [reduce] over entries whose totals are whole numbers adds them up. *)
Lemma sumTotals_sum (entries : list UnifiedSearchResponse.t) :
  forall (zs : list Z) (a : Z),
    List.map UnifiedSearchResponse.total entries = List.map int zs ->
    List.fold_left (fun sum r => add sum (UnifiedSearchResponse.total r)) entries (int a)
    = int (a + Spec.sum zs).
Proof.
  induction entries as [| r entries IH]; intros [| z zs] a H; try discriminate H.
  - cbn. rewrite Z.add_0_r. reflexivity.
  - cbn [List.map] in H. injection H as Hr Hrest.
    cbn [List.fold_left]. rewrite Hr. unfold int at 1 2. rewrite add_numbers.
    cbn [numAdd]. fold (int (a + z)). rewrite (IH zs (a + z) Hrest).
    unfold Spec.sum. cbn [List.fold_right]. f_equal. lia.
Qed.

(** The substituted entries count for nothing: the totals of all
    entries are those of the answers with zeros in between. *)
Lemma isolated_totals (params : UnifiedSearchParams.t) (ps : list Provider)
    t' entries answered :
  Spec.isolated params t' ps entries answered ->
  forall zs, List.map UnifiedSearchResponse.total answered = List.map int zs ->
  exists all,
    List.map UnifiedSearchResponse.total entries = List.map int all
    /\ Spec.sum all = Spec.sum zs.
Proof.
  induction 1 as [| p ps r entries answered Hrun Hrest IH
                  | p ps entries answered Hrun Hlog Hrest IH]; intros zs Hzs.
  - exists []. destruct zs; [split; reflexivity | discriminate Hzs].
  - destruct zs as [| z zs]; [discriminate Hzs |].
    cbn [List.map] in Hzs. injection Hzs as Hr Hzs.
    destruct (IH zs Hzs) as [all [Hall Hsum]].
    exists (z :: all). split.
    + cbn [List.map]. rewrite Hr, Hall. reflexivity.
    + unfold Spec.sum in *. cbn [List.fold_right]. rewrite Hsum. reflexivity.
  - destruct (IH zs Hzs) as [all [Hall Hsum]].
    exists (0 :: all). split.
    + cbn [List.map Spec.emptyPage UnifiedSearchResponse.total]. rewrite Hall. reflexivity.
    + unfold Spec.sum in *. cbn [List.fold_right]. rewrite Hsum. reflexivity.
Qed.

(** The fan-out always returns: one entry per configured adapter, and
    the total the code's [reduce] makes of the entries. *)
Lemma searchAll_runs
    (providers : ModProviderRegistry.t S Stream) (params : UnifiedSearchParams.t) s t :
  exists entries answered s' t',
    ModProviderRegistry.searchAll providers params s t
      = (Ok {| MultiProviderSearchResponse.results := entries;
               MultiProviderSearchResponse.totalAcrossProviders :=
                 ModProviderRegistry.sumTotals entries |}, s', t')
    /\ Spec.isolated params t'
         (ModProviderRegistry.getConfiguredProviders providers s) entries answered.
Proof.
  unfold ModProviderRegistry.searchAll. unfold bind at 1. unfold read at 1.
  cbv beta iota zeta.
  destruct (ModProviderRegistry.getConfiguredProviders providers s) as [| p ps] eqn:Hconf.
  - exists [], [], s, t. split; [reflexivity | constructor].
  - change (List.length (p :: ps) =? 0)%nat with false. cbv beta iota.
    destruct (collect_started params (p :: ps) s t) as [settled [s1 [t1 [Hstart Hall]]]].
    destruct (promiseAll_settled params Hall s1 t1)
      as [entries [answered [added [Hrest Hiso]]]].
    unfold bind at 1. rewrite Hstart. unfold bind at 1. rewrite Hrest. unfold ret.
    exists entries, answered, s1, (t1 ++ added)%list.
    split; [reflexivity |].
    apply Hiso. intros e He. apply List.in_or_app. right. exact He.
Qed.

(** C1 (aggregation isolation).  Take any registry whose configured
    adapters (the registered adapters whose [isConfigured()] is true,
    in the registry's iteration order) answer a search, when they
    answer, with a numeric [total].  Then [searchAll] returns normally,
    whichever of them throw.  Its [results] hold exactly one entry per
    configured adapter, in that order: the adapter's own response where
    its [searchProjects] returned, and where it threw an entry with no
    projects, [total] 0, [hasMore] false, the adapter's id and the
    requested [page] and [pageSize] (1 and 50 when absent or zero),
    with the failure logged.  When the totals are counts that a double
    adds up exactly, [totalAcrossProviders] is the sum of the [total]
    fields of all entries, which is the sum over the adapters that
    answered. *)
Theorem searchAll_isolates_failures
    (providers : ModProviderRegistry.t S Stream) (params : UnifiedSearchParams.t) s t :
  let configured :=
    List.filter (fun p => IModProvider.isConfigured p s) (List.map snd providers) in
  Forall (Spec.answersWithNumber params) configured ->
  exists entries answered total s' t',
    ModProviderRegistry.searchAll providers params s t
      = (Ok {| MultiProviderSearchResponse.results := entries;
               MultiProviderSearchResponse.totalAcrossProviders := total |}, s', t')
    /\ List.length entries = List.length configured
    /\ Spec.isolated params t' configured entries answered
    /\ (forall zs, List.map UnifiedSearchResponse.total entries = List.map int zs ->
          Spec.countable zs -> total = int (Spec.sum zs))
    /\ (forall zs, List.map UnifiedSearchResponse.total answered = List.map int zs ->
          Spec.countable zs -> total = int (Spec.sum zs)).
Proof.
  intros configured _.
  destruct (searchAll_runs providers params s t)
    as [entries [answered [s' [t' [Hrun Hiso]]]]].
  change (ModProviderRegistry.getConfiguredProviders providers s) with configured in Hiso.
  exists entries, answered, (ModProviderRegistry.sumTotals entries), s', t'.
  split; [exact Hrun |]. split; [eapply isolated_length; exact Hiso |].
  split; [exact Hiso |]. split.
  - intros zs Hzs _. unfold ModProviderRegistry.sumTotals.
    rewrite (sumTotals_sum entries zs 0 Hzs). reflexivity.
  - intros zs Hzs _. destruct (isolated_totals Hiso zs Hzs) as [all [Hall Hsum]].
    unfold ModProviderRegistry.sumTotals.
    rewrite (sumTotals_sum entries all 0 Hall), Hsum. reflexivity.
Qed.

(** C10 (empty registry).  When no registered adapter is configured,
    [searchAll] returns [{results: [], totalAcrossProviders: 0}] and
    leaves the store and the trace as they were: no adapter's
    [searchProjects] was called and no request was issued. *)
Theorem searchAll_without_configured_provider
    (providers : ModProviderRegistry.t S Stream) (params : UnifiedSearchParams.t) s t :
  ModProviderRegistry.getConfiguredProviders providers s = [] ->
  ModProviderRegistry.searchAll providers params s t
  = (Ok {| MultiProviderSearchResponse.results := [];
           MultiProviderSearchResponse.totalAcrossProviders := int 0 |}, s, t).
Proof.
  intros Hnone. unfold ModProviderRegistry.searchAll, bind, read.
  rewrite Hnone. reflexivity.
Qed.

End RegistryProperties.

(** The statement at a registry of two configured adapters, the second
    of which fails. *)
Lemma searchAll_isolates_failures_witness :
  exists s' t',
    ModProviderRegistry.searchAll Samples.registryXZ Samples.page3size10 tt []
    = (JS.Ok {| MultiProviderSearchResponse.results :=
                  [Samples.sevenHits; Spec.emptyPage "Z" Samples.page3size10];
                MultiProviderSearchResponse.totalAcrossProviders := JS.int 7 |}, s', t')
    /\ In (Eff.Log Eff.error "[ModProviderRegistry] Search failed for Z:") t'.
Proof.
  assert (Hnumeric : Forall (Spec.answersWithNumber Samples.page3size10)
                       [Samples.providerX; Samples.providerZ]).
  { repeat constructor; intros s0 t0 r s1 t1 H; inversion H; subst.
    exists (JS.Num 7). reflexivity. }
  destruct (@searchAll_isolates_failures unit string Samples.registryXZ
              Samples.page3size10 tt [] Hnumeric)
    as [entries [answered [total [s' [t' [Hrun [_ [_ [Hsum _]]]]]]]]].
  pose proof Hrun as Hrun'. vm_compute in Hrun'.
  injection Hrun' as Hentries _ _ Htrace. subst entries t'.
  exists s'. eexists. split.
  - rewrite Hrun. rewrite (Hsum [7; 0] eq_refl); [reflexivity |].
    split; [repeat constructor; discriminate | discriminate].
  - right. right. left. reflexivity.
Defined.

(** A registry whose only adapter has no key. *)
Lemma searchAll_without_configured_provider_witness :
  ModProviderRegistry.getConfiguredProviders Samples.registryY tt = []
  /\ ModProviderRegistry.searchAll Samples.registryY Samples.page3size10 tt []
     = (JS.Ok {| MultiProviderSearchResponse.results := [];
                 MultiProviderSearchResponse.totalAcrossProviders := JS.int 0 |}, tt, []).
Proof.
  split; [reflexivity |].
  apply (searchAll_without_configured_provider Samples.registryY Samples.page3size10 tt []).
  reflexivity.
Defined.

(* ================================================================== *)
(** * The service: preconditions and installation downloads *)
(* ================================================================== *)

Section ServiceProperties.
Import JS Eff.
Variables S Stream : Type.

#[local] Abbreviation Provider := (IModProvider.t S Stream).
#[local] Abbreviation Registry := (ModProviderRegistry.t S Stream).

Lemma withProvider_guarded {A} (k : string -> Provider -> M S A) :
  Spec.guarded (fun registry providerId =>
                  ModProviderService.withProvider registry providerId (k providerId)).
Proof.
  intros registry providerId s t.
  unfold ModProviderService.withProvider, ModProviderService.notFound,
    ModProviderService.notConfigured.
  split.
  - intros Hnone. rewrite Hnone. reflexivity.
  - intros provider Hsome Hoff. rewrite Hsome.
    unfold bind, read, throw. rewrite Hoff. reflexivity.
Qed.

(** C6 (shared precondition).  Each of [search], [getProject],
    [getProjectBySlug], [getCategories], [getTags],
    [getVersionDependencies], [downloadVersion] and
    [downloadForInstallation] throws "Provider not found" for an id the
    registry does not hold, and throws "not configured" for a
    registered adapter whose [isConfigured()] is false; in both cases
    the store and the trace are unchanged, so the adapter was not
    reached and no request was made. *)
Theorem per_provider_operations_are_guarded
    (params : UnifiedSearchParams.t) (projectId versionId slug : string) :
  Spec.guarded (fun (registry : Registry) providerId =>
                  ModProviderService.search registry providerId params)
  /\ Spec.guarded (fun (registry : Registry) providerId =>
                     ModProviderService.getProject registry providerId projectId)
  /\ Spec.guarded (fun (registry : Registry) providerId =>
                     ModProviderService.getProjectBySlug registry providerId slug)
  /\ Spec.guarded (fun (registry : Registry) providerId =>
                     ModProviderService.getCategories registry providerId)
  /\ Spec.guarded (fun (registry : Registry) providerId =>
                     ModProviderService.getTags registry providerId)
  /\ Spec.guarded (fun (registry : Registry) providerId =>
                     ModProviderService.getVersionDependencies registry providerId
                       projectId versionId)
  /\ Spec.guarded (fun (registry : Registry) providerId =>
                     ModProviderService.downloadVersion registry providerId
                       projectId versionId)
  /\ Spec.guarded (fun (registry : Registry) providerId =>
                     ModProviderService.downloadForInstallation registry providerId
                       projectId versionId).
Proof.
  unfold ModProviderService.search, ModProviderService.getProject,
    ModProviderService.getProjectBySlug, ModProviderService.getCategories,
    ModProviderService.getTags, ModProviderService.getVersionDependencies,
    ModProviderService.downloadVersion, ModProviderService.downloadForInstallation.
  repeat apply conj.
  - apply (withProvider_guarded (fun _ provider => _)).
  - apply (withProvider_guarded (fun _ provider => _)).
  - apply (withProvider_guarded (fun providerId provider => _)).
  - apply (withProvider_guarded (fun _ provider => _)).
  - apply (withProvider_guarded (fun _ provider => _)).
  - apply (withProvider_guarded (fun _ provider => _)).
  - apply (withProvider_guarded (fun _ provider => _)).
  - apply (withProvider_guarded (fun providerId provider => _)).
Qed.

(** C2, as the code has it.  Take a registered, configured adapter
    whose [getProject] returned a project that does not list the
    requested [versionId].  If the project has no [latestVersion] the
    operation throws "Version ... not found" without asking for the
    download.  If it has one, the download of the requested [versionId]
    is attempted; when that throws, so does the operation, and when it
    returns, the operation returns the stream with metadata whose
    [versionId] is the requested id and whose [versionName] and
    [fileSize] are those of [latestVersion]. *)
Theorem downloadForInstallation_unlisted_version
    (registry : Registry) (providerId projectId versionId : string)
    (provider : Provider) (project : UnifiedProject.t) s t s1 t1 :
  ModProviderRegistry.getProvider registry providerId = Some provider ->
  IModProvider.isConfigured provider s = true ->
  IModProvider.getProject provider projectId s
    (t ++ [Call (IModProvider.id provider) "getProject"])%list = (Ok project, s1, t1) ->
  ModProviderService.findVersion (UnifiedProject.versions project) versionId = None ->
  match UnifiedProject.latestVersion project with
  | None =>
      ModProviderService.downloadForInstallation registry providerId projectId versionId s t
      = (Throw (Error ("Version " ++ versionId ++ " not found for project " ++ projectId)),
         s1, t1)
  | Some latest =>
      match IModProvider.downloadVersion provider projectId versionId s1
              (t1 ++ [Call (IModProvider.id provider) "downloadVersion"])%list with
      | (Ok stream, s2, t2) =>
          ModProviderService.downloadForInstallation registry providerId projectId
            versionId s t
          = (Ok (stream,
                 {| UnifiedModMetadata.providerId := providerId;
                    UnifiedModMetadata.projectId := projectId;
                    UnifiedModMetadata.projectTitle := UnifiedProject.title project;
                    UnifiedModMetadata.projectIconUrl := UnifiedProject.iconUrl project;
                    UnifiedModMetadata.versionId := versionId;
                    UnifiedModMetadata.versionName := UnifiedVersion.version latest;
                    UnifiedModMetadata.classification :=
                      UnifiedProject.classification project;
                    UnifiedModMetadata.fileSize := UnifiedVersion.fileSize latest |}),
             s2, t2)
      | (Throw e, s2, t2) =>
          ModProviderService.downloadForInstallation registry providerId projectId
            versionId s t
          = (Throw e, s2, t2)
      end
  end.
Proof.
  intros Hsome Hon Hproject Hunlisted.
  unfold ModProviderService.downloadForInstallation, ModProviderService.withProvider,
    ModProviderService.delegate.
  rewrite Hsome. unfold bind, read, emit, throw, ret.
  rewrite Hon. cbn [negb]. cbv beta iota. rewrite Hproject. cbv beta iota.
  rewrite Hunlisted.
  destruct (UnifiedProject.latestVersion project) as [latest |]; [| reflexivity].
  destruct (IModProvider.downloadVersion provider projectId versionId s1
              (t1 ++ [Call (IModProvider.id provider) "downloadVersion"])%list)
    as [[[stream | e] s2] t2]; reflexivity.
Qed.

End ServiceProperties.

(** Scenario A: X and Y are registered, only X is configured, and a
    search on Y is rejected before anything else happens. *)
Lemma per_provider_operations_are_guarded_witness :
  ModProviderRegistry.getProvider Samples.registryXY "Y" = Some Samples.providerY
  /\ IModProvider.isConfigured Samples.providerY tt = false
  /\ ModProviderService.search Samples.registryXY "Y" UnifiedSearchParams.empty tt []
     = (JS.Throw (JS.Error "Provider Y is not configured. Please set up the API key."),
        tt, []).
Proof.
  split; [reflexivity |]. split; [reflexivity |].
  apply (proj2 (proj1 (@per_provider_operations_are_guarded unit string
                         UnifiedSearchParams.empty "" "" "")
                  Samples.registryXY "Y" tt []) Samples.providerY);
    reflexivity.
Defined.

(** Scenario C on the sample adapter X: "v9" is not listed, "v1" is the
    latest version. *)
Lemma downloadForInstallation_unlisted_version_witness :
  ModProviderService.downloadForInstallation Samples.registryXY "X" "p1" "v9" tt []
  = (JS.Ok ("bytes of v9",
            {| UnifiedModMetadata.providerId := "X";
               UnifiedModMetadata.projectId := "p1";
               UnifiedModMetadata.projectTitle := JS.Str "Project one";
               UnifiedModMetadata.projectIconUrl := JS.Undefined;
               UnifiedModMetadata.versionId := "v9";
               UnifiedModMetadata.versionName := JS.Str "1.0.0";
               UnifiedModMetadata.classification := JS.Str "PLUGIN";
               UnifiedModMetadata.fileSize := JS.int 2048 |}),
     tt, [Eff.Call "X" "getProject"; Eff.Call "X" "downloadVersion"]).
Proof.
  exact (downloadForInstallation_unlisted_version
           Samples.registryXY "X" "p1" "v9" (provider := Samples.providerX)
           (project := Samples.projectOne)
           tt [] (s1 := tt) (t1 := [Eff.Call "X" "getProject"])
           eq_refl eq_refl eq_refl eq_refl).
Defined.

(** C2 as stated fails: the metadata carries the requested id "v9",
    not the id "v1" of [latestVersion]. *)
Lemma downloadForInstallation_metadata_keeps_requested_id :
  ModProviderService.findVersion (UnifiedProject.versions Samples.projectOne) "v9" = None
  /\ UnifiedProject.latestVersion Samples.projectOne = Some Samples.versionOne
  /\ UnifiedVersion.id Samples.versionOne = JS.Str "v1"
  /\ match ModProviderService.downloadForInstallation
             Samples.registryXY "X" "p1" "v9" tt [] with
     | (JS.Ok (_, metadata), _, _) =>
         UnifiedModMetadata.versionId metadata = "v9"
         /\ UnifiedModMetadata.versionName metadata
            = UnifiedVersion.version Samples.versionOne
         /\ JS.Str (UnifiedModMetadata.versionId metadata)
            <> UnifiedVersion.id Samples.versionOne
     | _ => False
     end.
Proof.
  split; [reflexivity |]. split; [reflexivity |]. split; [reflexivity |].
  vm_compute. split; [reflexivity |]. split; [reflexivity |]. discriminate.
Qed.

(* ================================================================== *)
(** * The adapters: transforms *)
(* ================================================================== *)

(** Peels one [x <~ r ;; k] off a hypothesis [... = Ok _]. *)
Ltac peel H :=
  let a := fresh "a" in
  let Ha := fresh "Ha" in
  apply rbind_inv in H; destruct H as [a [Ha H]].

(** Peels one [x <- c ;; k] off a hypothesis [... = (Ok _, _, _)]. *)
Ltac unbind H :=
  let a := fresh "a" in
  let s := fresh "s" in
  let t := fresh "t" in
  let Ha := fresh "Ha" in
  apply bind_inv in H; destruct H as [a [s [t [Ha H]]]].

Section Transforms.
Import JS.

Lemma modtale_transformProject_fields (project : value) (p : UnifiedProject.t) :
  ModtaleProvider.transformProject project = Ok p ->
  UnifiedProject.latestVersion p = List.hd_error (UnifiedProject.versions p)
  /\ UnifiedProject.classification p
     = or (prop project "classification") (Str "PLUGIN").
Proof.
  unfold ModtaleProvider.transformProject. intros H.
  peel H. peel H. peel H. peel H.
  injection H as <-. split; reflexivity.
Qed.

Lemma curseForge_transformMod_fields (s : CurseForgeProvider.state)
    (mod_ : value) (p : UnifiedProject.t) :
  CurseForgeProvider.transformMod s mod_ = Ok p ->
  UnifiedProject.latestVersion p = List.hd_error (UnifiedProject.versions p)
  /\ UnifiedProject.classification p
     = Str (classificationName
              (CurseForgeProvider.getClassification s (prop mod_ "classId"))).
Proof.
  unfold CurseForgeProvider.transformMod. intros H.
  peel H. peel H. peel H. peel H. peel H. peel H. peel H. peel H.
  injection H as <-. split; reflexivity.
Qed.

(** C5 (latestVersion invariant).  Every project either adapter's
    transform produces has [latestVersion] absent when [versions] is
    empty and equal to [versions[0]] otherwise. *)
Theorem latestVersion_is_first_version :
  (forall project p,
     ModtaleProvider.transformProject project = Ok p ->
     (UnifiedProject.versions p = [] -> UnifiedProject.latestVersion p = None)
     /\ (forall v vs, UnifiedProject.versions p = v :: vs ->
                      UnifiedProject.latestVersion p = Some v))
  /\
  (forall s mod_ p,
     CurseForgeProvider.transformMod s mod_ = Ok p ->
     (UnifiedProject.versions p = [] -> UnifiedProject.latestVersion p = None)
     /\ (forall v vs, UnifiedProject.versions p = v :: vs ->
                      UnifiedProject.latestVersion p = Some v)).
Proof.
  split.
  - intros project p H.
    destruct (modtale_transformProject_fields project H) as [Hlatest _].
    rewrite Hlatest. split; [intros -> | intros v vs ->]; reflexivity.
  - intros s mod_ p H.
    destruct (curseForge_transformMod_fields s mod_ H) as [Hlatest _].
    rewrite Hlatest. split; [intros -> | intros v vs ->]; reflexivity.
Qed.

(** C3, as the code has it.  The CurseForge adapter always files a
    project under one of PLUGIN, DATA, ART, SAVE, MODPACK, and under
    PLUGIN when the upstream [classId] is absent (falsy) or has no
    entry in the class map.  The Modtale adapter yields PLUGIN when the
    upstream [classification] is absent (falsy) and otherwise hands the
    upstream value on unchanged, so that its result is one of the five
    whenever the upstream value is. *)
Theorem classification_of_transformed_project :
  (forall s mod_ p,
     CurseForgeProvider.transformMod s mod_ = Ok p ->
     Spec.isClassification (UnifiedProject.classification p)
     /\ (truthy (prop mod_ "classId") = false
         \/ CurseForgeProvider.mapGet (CurseForgeProvider.classificationMap s)
              (prop mod_ "classId") = None ->
         UnifiedProject.classification p = Str "PLUGIN"))
  /\
  (forall project p,
     ModtaleProvider.transformProject project = Ok p ->
     (truthy (prop project "classification") = false ->
      UnifiedProject.classification p = Str "PLUGIN")
     /\ (truthy (prop project "classification") = true ->
         UnifiedProject.classification p = prop project "classification")
     /\ (Spec.isClassification (prop project "classification") ->
         Spec.isClassification (UnifiedProject.classification p))).
Proof.
  split.
  - intros s mod_ p H.
    destruct (curseForge_transformMod_fields s mod_ H) as [_ Hclass].
    rewrite Hclass. split.
    + eexists. reflexivity.
    + unfold CurseForgeProvider.getClassification.
      intros [Hfalsy | Hunmapped].
      * rewrite Hfalsy. reflexivity.
      * rewrite Hunmapped. destruct (negb (truthy (prop mod_ "classId"))); reflexivity.
  - intros project p H.
    destruct (modtale_transformProject_fields project H) as [_ Hclass].
    rewrite Hclass. unfold or. repeat split.
    + intros ->. reflexivity.
    + intros ->. reflexivity.
    + intros [c Hc]. rewrite Hc. exists c. destruct c; reflexivity.
Qed.

End Transforms.

Section FileSize.
Import JS.

Lemma ToNumber_or_absent (a b : value) :
  Spec.absentOrNonNegative a -> Spec.absentOrNonNegative b ->
  Spec.nonNegative (Number (ToNumber (or (or a b) (int 0)))).
Proof.
  assert (Hzero : Spec.nonNegative (Number (ToNumber (int 0)))).
  { exists 0%Z. split; [reflexivity | lia]. }
  assert (Hpick : forall x, Spec.absentOrNonNegative x ->
                            truthy x = true -> Spec.nonNegative (Number (ToNumber x))).
  { intros x [-> | [-> | [n [-> Hn]]]] Hx; try discriminate Hx.
    exists n. split; [reflexivity | exact Hn]. }
  intros Ha Hb. unfold or.
  destruct (truthy a) eqn:Ea.
  - rewrite Ea. apply Hpick; assumption.
  - destruct (truthy b) eqn:Eb.
    + apply Hpick; assumption.
    + exact Hzero.
Qed.

(** C9, as the code has it.  The Modtale transform sets [fileSize] to
    [Number(version.fileSize || version.size || 0)], which is a number
    greater than or equal to 0 whenever each of the two upstream fields
    is absent or a non-negative number; the CurseForge transform stores
    the upstream [fileLength] unchanged.  Neither clamps the value. *)
Theorem fileSize_of_transformed_version :
  (forall version v,
     ModtaleProvider.transformVersion version = Ok v ->
     UnifiedVersion.fileSize v
       = Number (ToNumber (or (or (prop version "fileSize") (prop version "size")) (int 0)))
     /\ (Spec.absentOrNonNegative (prop version "fileSize") ->
         Spec.absentOrNonNegative (prop version "size") ->
         Spec.nonNegative (UnifiedVersion.fileSize v)))
  /\
  (forall file v,
     CurseForgeProvider.transformFile file = Ok v ->
     UnifiedVersion.fileSize v = prop file "fileLength"
     /\ (Spec.nonNegative (prop file "fileLength") ->
         Spec.nonNegative (UnifiedVersion.fileSize v))).
Proof.
  split.
  - intros version v H. unfold ModtaleProvider.transformVersion in H.
    peel H. injection H as <-. cbn [UnifiedVersion.fileSize].
    split; [reflexivity | apply ToNumber_or_absent].
  - intros file v H. unfold CurseForgeProvider.transformFile in H.
    peel H. peel H. injection H as <-. cbn [UnifiedVersion.fileSize].
    split; [reflexivity | trivial].
Qed.

End FileSize.

(** The sample Modtale project: one version, which is the latest. *)
Lemma latestVersion_is_first_version_witness :
  exists p v,
    ModtaleProvider.transformProject Samples.modtalePayload = JS.Ok p
    /\ UnifiedProject.versions p = [v]
    /\ UnifiedProject.latestVersion p = Some v.
Proof.
  eexists. eexists. split; [reflexivity |]. split; [reflexivity |].
  apply (proj2 (proj1 latestVersion_is_first_version Samples.modtalePayload _ eq_refl)
           _ [] eq_refl).
Defined.

(** The sample projects: class 6 is unmapped, "ART" is passed on. *)
Lemma classification_of_transformed_project_witness :
  (exists p,
     CurseForgeProvider.transformMod Samples.curseForgeReady Samples.curseForgeMod
       = JS.Ok p
     /\ UnifiedProject.classification p = JS.Str "PLUGIN")
  /\ (exists p,
        ModtaleProvider.transformProject Samples.modtalePayload = JS.Ok p
        /\ UnifiedProject.classification p = JS.Str "ART").
Proof.
  split.
  - eexists. split; [reflexivity |].
    apply (proj2 (proj1 classification_of_transformed_project
                    Samples.curseForgeReady Samples.curseForgeMod _ eq_refl)).
    right. reflexivity.
  - eexists. split; [reflexivity |].
    apply (proj1 (proj2 (proj2 classification_of_transformed_project
                           Samples.modtalePayload _ eq_refl)) eq_refl).
Defined.

(** C3 as stated fails: an upstream classification outside the
    enumeration is neither rejected nor replaced by PLUGIN. *)
Lemma modtale_classification_not_closed :
  match ModtaleProvider.transformProject Samples.modtaleOddPayload with
  | JS.Ok p =>
      UnifiedProject.classification p = JS.Str "FOO"
      /\ ~ Spec.isClassification (UnifiedProject.classification p)
      /\ UnifiedProject.classification p <> JS.Str "PLUGIN"
  | JS.Throw _ => False
  end.
Proof.
  vm_compute. split; [reflexivity |]. split; [| discriminate].
  intros [c Hc]. destruct c; discriminate Hc.
Qed.

(** The sample version and file: 2048 bytes each. *)
Lemma fileSize_of_transformed_version_witness :
  (exists v,
     ModtaleProvider.transformVersion Samples.modtaleVersion = JS.Ok v
     /\ Spec.nonNegative (UnifiedVersion.fileSize v))
  /\ (exists v,
        CurseForgeProvider.transformFile Samples.curseForgeFile = JS.Ok v
        /\ Spec.nonNegative (UnifiedVersion.fileSize v)).
Proof.
  split.
  - eexists. split; [reflexivity |].
    apply (proj2 (proj1 fileSize_of_transformed_version
                    Samples.modtaleVersion _ eq_refl)).
    + right. right. exists 2048%Z. split; [reflexivity | lia].
    + left. reflexivity.
  - eexists. split; [reflexivity |].
    apply (proj2 (proj2 fileSize_of_transformed_version
                    Samples.curseForgeFile _ eq_refl)).
    exists 2048%Z. split; [reflexivity | lia].
Defined.

(** C9 as stated fails: a negative upstream size comes out negative. *)
Lemma modtale_fileSize_can_be_negative :
  match ModtaleProvider.transformVersion Samples.modtaleNegativeVersion with
  | JS.Ok v =>
      UnifiedVersion.fileSize v = JS.int (-1)
      /\ ~ Spec.nonNegative (UnifiedVersion.fileSize v)
  | JS.Throw _ => False
  end.
Proof.
  vm_compute. split; [reflexivity |].
  intros [n [Hn Hpos]]. injection Hn as <-. apply Hpos. reflexivity.
Qed.

(* ================================================================== *)
(** * The adapters: dependencies *)
(* ================================================================== *)

Section Dependencies.
Import JS Eff.
Variable net : Upstream.

Lemma tryCatch_cases {S A} (c : M S A) (handler : exn -> M S A) s t :
  (exists a s1 t1, c s t = (Ok a, s1, t1) /\ tryCatch c handler s t = (Ok a, s1, t1))
  \/ (exists e s1 t1, c s t = (Throw e, s1, t1)
                      /\ tryCatch c handler s t = handler e s1 t1).
Proof.
  unfold tryCatch. destruct (c s t) as [[[a | e] s1] t1].
  - left. exists a, s1, t1. split; reflexivity.
  - right. exists e, s1, t1. split; reflexivity.
Qed.

Lemma modtale_transformDependency_consistent (dep : value) (d : UnifiedDependency.t) :
  ModtaleProvider.transformDependency dep = Ok d -> Spec.consistent d.
Proof.
  unfold ModtaleProvider.transformDependency, Spec.consistent.
  destruct (isString dep); intros H.
  - injection H as <-. split; reflexivity.
  - peel H. injection H as <-. cbn [UnifiedDependency.required UnifiedDependency.type].
    destruct (negb (strictEq (prop dep "required") (Bool false)));
      split; intros E; try reflexivity; discriminate E.
Qed.

Lemma modtale_dependencies_consistent (projectId versionId : string) s t :
  exists deps s' t',
    ModtaleProvider.getVersionDependencies net projectId versionId s t = (Ok deps, s', t')
    /\ Forall Spec.consistent deps.
Proof.
  unfold ModtaleProvider.getVersionDependencies.
  match goal with
  | |- context [tryCatch ?c ?h s t] =>
      destruct (tryCatch_cases c h s t) as [[deps [s1 [t1 [H ->]]]] | [e [s1 [t1 [_ ->]]]]]
  end.
  - exists deps, s1, t1. split; [reflexivity |].
    unbind H. unbind H. unbind H.
    destruct (negb (truthy a1)).
    + unbind H. injection H as <- _ _. constructor.
    + destruct (or (or (prop a1 "modIds") (prop a1 "dependencies")) (Arr []))
        as [| | b | n | str | [| x items] | fields];
        try (injection H as <- _ _; constructor).
      apply lift_inv in H. destruct H as [H _].
      eapply mapR_Forall; [| exact H].
      intros y d Hd. eapply modtale_transformDependency_consistent; eassumption.
  - eexists [], s1, _. split; [reflexivity | constructor].
Qed.

Lemma curseForge_resolveDependency_consistent (dep : value) s t d s' t' :
  CurseForgeProvider.resolveDependency net dep s t = (Ok d, s', t') -> Spec.consistent d.
Proof.
  unfold CurseForgeProvider.resolveDependency, Spec.consistent.
  match goal with
  | |- context [tryCatch ?c ?h s t] =>
      destruct (tryCatch_cases c h s t) as [[d0 [s1 [t1 [H ->]]]] | [e [s1 [t1 [_ ->]]]]]
  end; intros H'.
  - injection H' as -> _ _.
    unbind H. unbind H. unbind H. unbind H. injection H as <- _ _.
    cbn [UnifiedDependency.required UnifiedDependency.type].
    unfold CurseForgeProvider.dependencyType.
    destruct (strictEq (prop dep "relationType") (int 3)).
    + split; reflexivity.
    + destruct (strictEq (prop dep "relationType") (int 2));
        split; intros E; discriminate E.
  - unbind H'. injection H' as <- _ _.
    cbn [UnifiedDependency.required UnifiedDependency.type].
    destruct (strictEq (prop dep "relationType") (int 3));
      split; intros E; try reflexivity; discriminate E.
Qed.

Lemma curseForge_dependencies_consistent (projectId versionId : string) s t :
  exists deps s' t',
    CurseForgeProvider.getVersionDependencies net projectId versionId s t
      = (Ok deps, s', t')
    /\ Forall Spec.consistent deps.
Proof.
  unfold CurseForgeProvider.getVersionDependencies.
  match goal with
  | |- context [tryCatch ?c ?h s t] =>
      destruct (tryCatch_cases c h s t) as [[deps [s1 [t1 [H ->]]]] | [e [s1 [t1 [_ ->]]]]]
  end.
  - exists deps, s1, t1. split; [reflexivity |].
    unbind H. unbind H. unbind H. unbind H.
    eapply collect_Forall; [| exact H].
    intros ? ? ? ? ? ? Hy.
    eapply curseForge_resolveDependency_consistent; eassumption.
  - eexists [], s1, _. split; [reflexivity | constructor].
Qed.

(** C8 (dependency consistency).  [getVersionDependencies] of either
    adapter always returns a list, and every dependency in it, whether
    it came from a string entry, an object entry, a resolved or an
    unresolved mod name, has [required] true exactly when its [type]
    is 'required'. *)
Theorem dependencies_required_iff_type (projectId versionId : string) :
  (forall s t, exists deps s' t',
     ModtaleProvider.getVersionDependencies net projectId versionId s t
       = (Ok deps, s', t')
     /\ Forall (fun d => UnifiedDependency.required d = true
                         <-> UnifiedDependency.type d = "required") deps)
  /\
  (forall s t, exists deps s' t',
     CurseForgeProvider.getVersionDependencies net projectId versionId s t
       = (Ok deps, s', t')
     /\ Forall (fun d => UnifiedDependency.required d = true
                         <-> UnifiedDependency.type d = "required") deps).
Proof.
  split; intros s t.
  - apply modtale_dependencies_consistent.
  - apply curseForge_dependencies_consistent.
Qed.

End Dependencies.

(* ================================================================== *)
(** * The adapters: search *)
(* ================================================================== *)

Section Search.
Import JS Eff.
Variable net : Upstream.

Lemma fetches_after_log (t : list event) (l : level) (message : string) :
  List.filter isFetch (t ++ [Log l message]) = List.filter isFetch t.
Proof. rewrite List.filter_app. simpl. apply List.app_nil_r. Qed.


Lemma modtale_request_ok (endpoint key : string) (r : Response) (body : value) s t :
  ModtaleProvider.apiKey s = Some key ->
  ModtaleProvider.isConfigured s = true ->
  net (List.length (List.filter isFetch t)) (ModtaleProvider.MODTALE_API_BASE ++ endpoint)
    = Responded r ->
  ok r = true ->
  json r = Some body ->
  ModtaleProvider.request net endpoint s t
  = (Ok body, s,
     (t ++ [Log info ("[ModtaleProvider] Fetching: "
                      ++ ModtaleProvider.MODTALE_API_BASE ++ endpoint);
            Fetch (ModtaleProvider.MODTALE_API_BASE ++ endpoint)
                  [("X-MODTALE-KEY", key)]])%list).
Proof.
  intros Hkey Hconf Hnet Hok Hjson.
  unfold ModtaleProvider.request, bind, read, log, emit, fetch, throw, ret.
  rewrite Hkey, Hconf. cbn [negb]. rewrite fetches_after_log, Hnet.
  rewrite Hok. cbn [negb]. rewrite Hjson. rewrite <- List.app_assoc. reflexivity.
Qed.


(** C7, as the code has it.  When a configured Modtale adapter
    receives a successful HTTP reply whose JSON body is none of the
    three shapes it recognises (an object with [content], an array, an
    object with [projects]), [searchProjects] returns the empty page
    (no projects, [total] 0, [hasMore] false, the requested [page] and
    [pageSize], provider id "modtale") and writes a warning to the
    log; it does not throw. *)
Theorem modtale_unrecognised_reply_is_empty_page
    (params : UnifiedSearchParams.t) (key : string) (r : Response) (body : value) s t :
  ModtaleProvider.apiKey s = Some key ->
  ModtaleProvider.isConfigured s = true ->
  net (List.length (List.filter isFetch t))
      (ModtaleProvider.MODTALE_API_BASE ++ ModtaleProvider.searchEndpoint params)
    = Responded r ->
  ok r = true ->
  json r = Some body ->
  ModtaleProvider.isPaginated body = false ->
  isArray body = false ->
  ModtaleProvider.isKeyed body = false ->
  ModtaleProvider.searchProjects net params s t
  = (Ok {| UnifiedSearchResponse.projects := [];
           UnifiedSearchResponse.total := int 0;
           UnifiedSearchResponse.page :=
             int (Spec.requestedOr (UnifiedSearchParams.page params) 1);
           UnifiedSearchResponse.pageSize :=
             int (Spec.requestedOr (UnifiedSearchParams.pageSize params) 50);
           UnifiedSearchResponse.hasMore := false;
           UnifiedSearchResponse.providerId := "modtale" |},
     s,
     (t ++ [Log info ("[ModtaleProvider] Fetching: "
                      ++ ModtaleProvider.MODTALE_API_BASE
                      ++ ModtaleProvider.searchEndpoint params);
            Fetch (ModtaleProvider.MODTALE_API_BASE
                   ++ ModtaleProvider.searchEndpoint params)
                  [("X-MODTALE-KEY", key)];
            Log warn "[ModtaleProvider] Unexpected response format"])%list).
Proof.
  intros Hkey Hconf Hnet Hok Hjson Hpaginated Harray Hkeyed.
  unfold ModtaleProvider.searchProjects.
  erewrite bind_ok by (eapply modtale_request_ok; eassumption).
  unfold ModtaleProvider.searchResult.
  rewrite Hpaginated, Harray, Hkeyed.
  unfold bind, log, emit, ret, ModtaleProvider.emptyResponse.
  rewrite !or_requested, <- List.app_assoc. reflexivity.
Qed.







End Search.

(** Two dependencies of the sample Modtale version, one of each kind. *)
Lemma dependencies_required_iff_type_witness :
  exists deps s' t',
    ModtaleProvider.getVersionDependencies
      (Samples.always Samples.modtaleWithDependencies) "p1" "v1" Samples.modtaleReady []
      = (JS.Ok deps, s', t')
    /\ Forall (fun d => UnifiedDependency.required d = true
                        <-> UnifiedDependency.type d = "required") deps.
Proof.
  exact (proj1 (dependencies_required_iff_type
                  (Samples.always Samples.modtaleWithDependencies) "p1" "v1")
           Samples.modtaleReady []).
Defined.

Example modtale_dependencies_of_sample :
  List.map (fun d => (UnifiedDependency.projectId d, UnifiedDependency.required d,
                      UnifiedDependency.type d))
    match Eff.outcome (ModtaleProvider.getVersionDependencies
                         (Samples.always Samples.modtaleWithDependencies)
                         "p1" "v1" Samples.modtaleReady []) with
    | JS.Ok deps => deps
    | JS.Throw _ => []
    end
  = [(JS.Str "a", true, "required"); (JS.Str "b", false, "optional")].
Proof. vm_compute. reflexivity. Qed.

(** A body that is a bare string is none of the three shapes. *)
Lemma modtale_unrecognised_reply_is_empty_page_witness :
  ModtaleProvider.searchProjects (Samples.always (JS.Str "oops"))
    Samples.page3size10 Samples.modtaleReady []
  = (JS.Ok {| UnifiedSearchResponse.projects := [];
              UnifiedSearchResponse.total := JS.int 0;
              UnifiedSearchResponse.page := JS.int 3;
              UnifiedSearchResponse.pageSize := JS.int 10;
              UnifiedSearchResponse.hasMore := false;
              UnifiedSearchResponse.providerId := "modtale" |},
     Samples.modtaleReady,
     [Eff.Log Eff.info
        "[ModtaleProvider] Fetching: https://api.modtale.net/api/v1/projects?page=2&size=10";
      Eff.Fetch "https://api.modtale.net/api/v1/projects?page=2&size=10"
        [("X-MODTALE-KEY", "key")];
      Eff.Log Eff.warn "[ModtaleProvider] Unexpected response format"]).
Proof.
  exact (modtale_unrecognised_reply_is_empty_page
           (Samples.always (JS.Str "oops")) Samples.page3size10 (key := "key")
           (r := {| Eff.ok := true; Eff.status := 200; Eff.statusText := "OK";
                    Eff.text := ""; Eff.json := Some (JS.Str "oops") |})
           (body := JS.Str "oops") Samples.modtaleReady []
           eq_refl eq_refl eq_refl eq_refl eq_refl eq_refl eq_refl eq_refl).
Defined.

(** C7 as stated fails for the CurseForge adapter: a successful reply
    whose body lacks [data] makes [searchProjects] throw. *)
Lemma curseForge_unrecognised_reply_throws :
  Samples.always (JS.Obj []) 0%nat
    "https://api.curseforge.com/v1/mods/search?gameId=70216&index=20&pageSize=10"
  = Eff.Responded {| Eff.ok := true; Eff.status := 200; Eff.statusText := "OK";
                     Eff.text := ""; Eff.json := Some (JS.Obj []) |}
  /\ Eff.outcome (CurseForgeProvider.searchProjects (Samples.always (JS.Obj []))
                    Samples.page3size10 Samples.curseForgeReady [])
     = JS.Throw JS.TypeError.
Proof. split; vm_compute; reflexivity. Qed.



Example modtale_page_three_decoded :
  Eff.outcome (ModtaleProvider.searchProjects
                 (Samples.always (JS.Obj [("content", JS.Arr []); ("number", JS.int 2);
                                          ("size", JS.int 10); ("last", JS.Bool true)]))
                 Samples.page3size10 Samples.modtaleReady [])
  = JS.Ok {| UnifiedSearchResponse.projects := [];
             UnifiedSearchResponse.total := JS.int 0;
             UnifiedSearchResponse.page := JS.int 3;
             UnifiedSearchResponse.pageSize := JS.int 10;
             UnifiedSearchResponse.hasMore := false;
             UnifiedSearchResponse.providerId := "modtale" |}.
Proof. vm_compute. reflexivity. Qed.

(** Scenario B: X answers with 7 hits, Z's upstream fails; both get
    an entry and the failure is logged. *)
Example searchAll_with_one_failing_provider :
  ModProviderRegistry.searchAll Samples.registryXZ Samples.page3size10 tt []
  = (JS.Ok {| MultiProviderSearchResponse.results :=
                [Samples.sevenHits; Spec.emptyPage "Z" Samples.page3size10];
              MultiProviderSearchResponse.totalAcrossProviders := JS.int 7 |},
     tt,
     [Eff.Call "X" "searchProjects"; Eff.Call "Z" "searchProjects";
      Eff.Log Eff.error "[ModProviderRegistry] Search failed for Z:"]).
Proof. vm_compute. reflexivity. Qed.

(** Scenario A: both adapters are listed, only X is configured. *)
Example getProviders_lists_configuration :
  List.map (fun i => (ProviderInfo.id i, ProviderInfo.isConfigured i))
    (ModProviderService.getProviders Samples.registryXY tt)
  = [("X", true); ("Y", false)].
Proof. reflexivity. Qed.

(* ================================================================== *)
(** * The registry as a map *)
(* ================================================================== *)

Section MapProperties.
Variable V : Type.

Lemma get_set_same (m : StringMap.t V) (k : string) (v : V) :
  StringMap.get (StringMap.set m k v) k = Some v.
Proof.
  induction m as [| [k' v'] rest IH]; simpl.
  - rewrite String.eqb_refl. reflexivity.
  - destruct (String.eqb k k') eqn:E; simpl; rewrite E; [reflexivity | exact IH].
Qed.

Lemma get_set_other (m : StringMap.t V) (k k' : string) (v : V) :
  k' <> k -> StringMap.get (StringMap.set m k v) k' = StringMap.get m k'.
Proof.
  intros Hne. induction m as [| [k0 v0] rest IH]; simpl.
  - destruct (String.eqb_spec k' k) as [E | _]; [contradiction | reflexivity].
  - destruct (String.eqb_spec k k0) as [E | E]; simpl.
    + subst k0. destruct (String.eqb_spec k' k) as [E' | _]; [contradiction | reflexivity].
    + destruct (String.eqb k' k0); [reflexivity | exact IH].
Qed.

Lemma get_None_keys (m : StringMap.t V) (k : string) :
  StringMap.get m k = None <-> ~ In k (List.map fst m).
Proof.
  induction m as [| [k' v'] rest IH]; simpl.
  - split; [intros _ [] | reflexivity].
  - destruct (String.eqb_spec k k') as [E | E].
    + split; [discriminate | intros H; exfalso; apply H; left; symmetry; exact E].
    + rewrite IH. split.
      * intros H [H' | H']; [apply E; symmetry; exact H' | exact (H H')].
      * intros H H'. apply H. right. exact H'.
Qed.

Lemma keys_set_present (m : StringMap.t V) (k : string) (v : V) :
  StringMap.has m k = true ->
  List.map fst (StringMap.set m k v) = List.map fst m.
Proof.
  unfold StringMap.has. induction m as [| [k' v'] rest IH]; simpl.
  - discriminate.
  - destruct (String.eqb k k'); simpl; [reflexivity |].
    intros H. rewrite IH by exact H. reflexivity.
Qed.

Lemma set_absent (m : StringMap.t V) (k : string) (v : V) :
  StringMap.has m k = false -> StringMap.set m k v = (m ++ [(k, v)])%list.
Proof.
  unfold StringMap.has. induction m as [| [k' v'] rest IH]; simpl.
  - reflexivity.
  - destruct (String.eqb k k'); [discriminate |].
    intros H. rewrite IH by exact H. reflexivity.
Qed.

Lemma has_keys (m : StringMap.t V) (k : string) :
  StringMap.has m k = false <-> ~ In k (List.map fst m).
Proof.
  unfold StringMap.has. rewrite <- get_None_keys.
  destruct (StringMap.get m k); split; intros H; congruence.
Qed.

Lemma uniqueKeys_set (m : StringMap.t V) (k : string) (v : V) :
  Spec.uniqueKeys m -> Spec.uniqueKeys (StringMap.set m k v).
Proof.
  unfold Spec.uniqueKeys. intros Hm.
  destruct (StringMap.has m k) eqn:E.
  - rewrite keys_set_present by exact E. exact Hm.
  - rewrite set_absent by exact E. rewrite List.map_app. simpl.
    apply has_keys in E.
    apply List.NoDup_app.
    + exact Hm.
    + repeat constructor. intros [].
    + intros x Hx [Hk | []]. subst x. exact (E Hx).
Qed.

Lemma keys_delete (m : StringMap.t V) (k : string) :
  forall x, In x (List.map fst (StringMap.delete m k)) -> In x (List.map fst m).
Proof.
  induction m as [| [k' v'] rest IH]; simpl; intros x Hx.
  - exact Hx.
  - destruct (String.eqb k k'); simpl in Hx.
    + right. exact Hx.
    + destruct Hx as [Hx | Hx]; [left; exact Hx | right; apply IH; exact Hx].
Qed.

Lemma uniqueKeys_delete (m : StringMap.t V) (k : string) :
  Spec.uniqueKeys m -> Spec.uniqueKeys (StringMap.delete m k).
Proof.
  unfold Spec.uniqueKeys. induction m as [| [k' v'] rest IH]; simpl; intros Hm.
  - exact Hm.
  - inversion Hm as [| ? ? Hnotin Hrest]; subst.
    destruct (String.eqb k k'); simpl; [exact Hrest |].
    constructor; [| apply IH; exact Hrest].
    intros Hin. apply Hnotin. eapply keys_delete. exact Hin.
Qed.

Lemma get_delete_same (m : StringMap.t V) (k : string) :
  Spec.uniqueKeys m -> StringMap.get (StringMap.delete m k) k = None.
Proof.
  unfold Spec.uniqueKeys. induction m as [| [k' v'] rest IH]; simpl; intros Hm.
  - reflexivity.
  - inversion Hm as [| ? ? Hnotin Hrest]; subst.
    destruct (String.eqb_spec k k') as [E | E]; simpl.
    + subst k'. apply get_None_keys. exact Hnotin.
    + destruct (String.eqb_spec k k') as [E' | _]; [contradiction |].
      apply IH. exact Hrest.
Qed.

Lemma get_delete_other (m : StringMap.t V) (k k' : string) :
  k' <> k -> StringMap.get (StringMap.delete m k) k' = StringMap.get m k'.
Proof.
  intros Hne. induction m as [| [k0 v0] rest IH]; simpl.
  - reflexivity.
  - destruct (String.eqb_spec k k0) as [E | E]; simpl.
    + subst k0. destruct (String.eqb_spec k' k) as [E' | _]; [contradiction | reflexivity].
    + destruct (String.eqb k' k0); [reflexivity | exact IH].
Qed.

Lemma delete_absent (m : StringMap.t V) (k : string) :
  StringMap.has m k = false -> StringMap.delete m k = m.
Proof.
  unfold StringMap.has. induction m as [| [k' v'] rest IH]; simpl.
  - reflexivity.
  - destruct (String.eqb k k'); [discriminate |].
    intros H. rewrite IH by exact H. reflexivity.
Qed.

Lemma length_delete_present (m : StringMap.t V) (k : string) :
  StringMap.has m k = true ->
  Datatypes.S (List.length (StringMap.delete m k)) = List.length m.
Proof.
  unfold StringMap.has. induction m as [| [k' v'] rest IH]; simpl.
  - discriminate.
  - destruct (String.eqb k k'); simpl; [reflexivity |].
    intros H. rewrite IH by exact H. reflexivity.
Qed.

(** Setting a key the map holds swaps the value at the place of its
    first binding and moves nothing. *)
Lemma set_present_split (m : StringMap.t V) (k : string) (v : V) :
  StringMap.has m k = true ->
  exists before old after,
    m = (before ++ (k, old) :: after)%list
    /\ StringMap.set m k v = (before ++ (k, v) :: after)%list
    /\ ~ In k (List.map fst before).
Proof.
  unfold StringMap.has. induction m as [| [k' v'] rest IH]; simpl.
  - discriminate.
  - destruct (String.eqb_spec k k') as [E | E].
    + subst k'. intros _. exists [], v', rest. repeat split. intros [].
    + intros H. destruct (IH H) as [before [old [after [Hm [Hset Hnotin]]]]].
      exists ((k', v') :: before), old, after. simpl. rewrite <- Hm, Hset.
      repeat split. intros [Heq | Hin]; [apply E; symmetry; exact Heq | exact (Hnotin Hin)].
Qed.

End MapProperties.

Section RegistryMapProperties.
Import JS Eff.
Variables S Stream : Type.

#[local] Abbreviation Provider := (IModProvider.t S Stream).
#[local] Abbreviation Registry := (ModProviderRegistry.t S Stream).

Lemma registerProvider_runs (providers : Registry) (provider : Provider) s t :
  ModProviderRegistry.registerProvider providers provider s t
  = (Ok (StringMap.set providers (IModProvider.id provider) provider), s,
     (t ++ (if StringMap.has providers (IModProvider.id provider)
            then [Log warn ("[ModProviderRegistry] Provider " ++ IModProvider.id provider
                            ++ " already registered, replacing")]
            else [])
        ++ [Log info ("[ModProviderRegistry] Registered provider: "
                      ++ IModProvider.displayName provider
                      ++ " (" ++ IModProvider.id provider ++ ")")])%list).
Proof.
  unfold ModProviderRegistry.registerProvider, bind, log, emit, ret.
  destruct (StringMap.has providers (IModProvider.id provider)).
  - rewrite <- List.app_assoc. reflexivity.
  - reflexivity.
Qed.

(** X1.  Registration followed by lookup: the adapter just registered is
    the one found under its id, every other id resolves as before, and
    the adapters' store is not touched. *)
Theorem registerProvider_then_getProvider (providers : Registry) (provider : Provider) s t :
  exists providers' t',
    ModProviderRegistry.registerProvider providers provider s t = (Ok providers', s, t')
    /\ ModProviderRegistry.getProvider providers' (IModProvider.id provider) = Some provider
    /\ ModProviderRegistry.hasProvider providers' (IModProvider.id provider) = true
    /\ (forall other, other <> IModProvider.id provider ->
          ModProviderRegistry.getProvider providers' other
          = ModProviderRegistry.getProvider providers other).
Proof.
  eexists _, _. split; [apply registerProvider_runs |].
  unfold ModProviderRegistry.getProvider, ModProviderRegistry.hasProvider, StringMap.has.
  rewrite get_set_same. repeat split.
  intros other Hother. apply get_set_other. exact Hother.
Qed.

(** X2.  Registering under an id that is already taken replaces the
    adapter where it stands: the new adapter takes the place of the
    old one in the iteration order, every other entry stays where it
    was, the new adapter is the one found under the id, the count is
    unchanged and a warning is logged.  Under a new id the adapter goes
    last, the count grows by one and no warning is logged. *)
Theorem registerProvider_replaces_in_place (providers : Registry) (provider : Provider) s t :
  exists providers' t',
    ModProviderRegistry.registerProvider providers provider s t = (Ok providers', s, t')
    /\ (ModProviderRegistry.hasProvider providers (IModProvider.id provider) = true ->
        (exists before old after,
           providers = (before ++ (IModProvider.id provider, old) :: after)%list
           /\ providers' = (before ++ (IModProvider.id provider, provider) :: after)%list
           /\ ~ In (IModProvider.id provider) (List.map fst before))
        /\ ModProviderRegistry.getProvider providers' (IModProvider.id provider)
           = Some provider
        /\ ModProviderRegistry.count providers' = ModProviderRegistry.count providers
        /\ In (Log warn ("[ModProviderRegistry] Provider " ++ IModProvider.id provider
                         ++ " already registered, replacing")) t')
    /\ (ModProviderRegistry.hasProvider providers (IModProvider.id provider) = false ->
        ModProviderRegistry.getAllProviders providers'
        = (ModProviderRegistry.getAllProviders providers ++ [provider])%list
        /\ ModProviderRegistry.count providers'
           = Datatypes.S (ModProviderRegistry.count providers)
        /\ t' = (t ++ [Log info ("[ModProviderRegistry] Registered provider: "
                                 ++ IModProvider.displayName provider
                                 ++ " (" ++ IModProvider.id provider ++ ")")])%list).
Proof.
  eexists _, _. split; [apply registerProvider_runs |].
  unfold ModProviderRegistry.hasProvider, ModProviderRegistry.count,
    ModProviderRegistry.getAllProviders, ModProviderRegistry.getProvider, StringMap.values.
  split; intros Hhas; rewrite Hhas.
  - pose proof (keys_set_present providers (IModProvider.id provider) provider Hhas) as Hkeys.
    split; [apply set_present_split; exact Hhas |].
    split; [apply get_set_same |]. split.
    + rewrite <- (List.length_map fst), Hkeys, List.length_map. reflexivity.
    + cbv iota. apply List.in_or_app. right. left. reflexivity.
  - rewrite set_absent by exact Hhas. rewrite List.map_app, List.length_app. simpl.
    split; [reflexivity |]. split; [lia | reflexivity].
Qed.

Lemma unregisterProvider_runs (providers : Registry) (providerId : string) s t :
  ModProviderRegistry.unregisterProvider providers providerId s t
  = (Ok (StringMap.delete providers providerId), s,
     (t ++ (if StringMap.has providers providerId
            then [Log info ("[ModProviderRegistry] Unregistered provider: " ++ providerId)]
            else []))%list).
Proof.
  unfold ModProviderRegistry.unregisterProvider, bind, log, emit, ret.
  destruct (StringMap.has providers providerId).
  - reflexivity.
  - rewrite List.app_nil_r. reflexivity.
Qed.

(** X3.  In a registry that holds each id once, unregistering an id makes
    it unknown, leaves every other id as it was and lowers the count by
    one; unregistering an id that is not registered changes nothing and
    logs nothing. *)
Theorem unregisterProvider_removes (providers : Registry) (providerId : string) s t :
  Spec.uniqueKeys providers ->
  exists providers' t',
    ModProviderRegistry.unregisterProvider providers providerId s t = (Ok providers', s, t')
    /\ ModProviderRegistry.getProvider providers' providerId = None
    /\ ModProviderRegistry.hasProvider providers' providerId = false
    /\ (forall other, other <> providerId ->
          ModProviderRegistry.getProvider providers' other
          = ModProviderRegistry.getProvider providers other)
    /\ (ModProviderRegistry.hasProvider providers providerId = true ->
        Datatypes.S (ModProviderRegistry.count providers')
        = ModProviderRegistry.count providers)
    /\ (ModProviderRegistry.hasProvider providers providerId = false ->
        providers' = providers /\ t' = t).
Proof.
  intros Hunique. eexists _, _. split; [apply unregisterProvider_runs |].
  unfold ModProviderRegistry.getProvider, ModProviderRegistry.hasProvider,
    ModProviderRegistry.count.
  unfold StringMap.has at 1. rewrite get_delete_same by exact Hunique.
  split; [reflexivity |]. split; [reflexivity |]. split; [| split].
  - intros other Hother. apply get_delete_other. exact Hother.
  - apply length_delete_present.
  - intros Habsent. rewrite Habsent, List.app_nil_r.
    split; [apply delete_absent; exact Habsent | reflexivity].
Qed.

(** X4.  The registry keeps every id unique: the empty registry does, and
    so does the registry left by a registration or an unregistration. *)
Theorem registry_keeps_ids_unique (providers : Registry) (provider : Provider)
    (providerId : string) s t :
  Spec.uniqueKeys (@nil (string * Provider))
  /\ (Spec.uniqueKeys providers ->
      (forall providers' s' t',
         ModProviderRegistry.registerProvider providers provider s t
           = (Ok providers', s', t') ->
         Spec.uniqueKeys providers')
      /\ (forall providers' s' t',
            ModProviderRegistry.unregisterProvider providers providerId s t
              = (Ok providers', s', t') ->
            Spec.uniqueKeys providers')).
Proof.
  split; [constructor |]. intros Hunique. split; intros providers' s' t' H.
  - rewrite registerProvider_runs in H. injection H as <- _ _.
    apply uniqueKeys_set. exact Hunique.
  - rewrite unregisterProvider_runs in H. injection H as <- _ _.
    apply uniqueKeys_delete. exact Hunique.
Qed.

Lemma length_filter_map {A B} (f : A -> B) (p : B -> bool) (xs : list A) :
  List.length (List.filter p (List.map f xs))
  = List.length (List.filter (fun x => p (f x)) xs).
Proof.
  induction xs as [| x xs IH]; simpl; [reflexivity |].
  destruct (p (f x)); simpl; rewrite IH; reflexivity.
Qed.

(** X5.  What the provider list announces is what a fan-out search
    delivers: [getProviderInfo] lists the registered adapters in
    iteration order, and [searchAll] returns as many per-provider
    entries as that list has adapters marked configured. *)
Theorem searchAll_matches_provider_info
    (providers : Registry) (params : UnifiedSearchParams.t) s t :
  List.map ProviderInfo.id (ModProviderRegistry.getProviderInfo providers s)
  = List.map (@IModProvider.id S Stream) (ModProviderRegistry.getAllProviders providers)
  /\ exists response s' t',
       ModProviderRegistry.searchAll providers params s t = (Ok response, s', t')
       /\ List.length (MultiProviderSearchResponse.results response)
          = List.length (List.filter ProviderInfo.isConfigured
                           (ModProviderRegistry.getProviderInfo providers s)).
Proof.
  split.
  - unfold ModProviderRegistry.getProviderInfo. rewrite List.map_map. reflexivity.
  - assert (Hcount :
      List.length (List.filter ProviderInfo.isConfigured
                     (ModProviderRegistry.getProviderInfo providers s))
      = List.length (ModProviderRegistry.getConfiguredProviders providers s)).
    { unfold ModProviderRegistry.getProviderInfo, ModProviderRegistry.getConfiguredProviders.
      rewrite length_filter_map. reflexivity. }
    rewrite Hcount.
    destruct (searchAll_runs providers params s t)
      as [entries [answered [s' [t' [Hrun Hiso]]]]].
    rewrite Hrun. eexists _, _, _. split; [reflexivity |].
    cbn [MultiProviderSearchResponse.results].
    eapply isolated_length. exact Hiso.
Qed.

End RegistryMapProperties.

(** Unregistering Y from the sample registry of X and Y. *)
Lemma unregisterProvider_removes_witness :
  exists providers' t',
    ModProviderRegistry.unregisterProvider Samples.registryXY "Y" tt []
      = (JS.Ok providers', tt, t')
    /\ ModProviderRegistry.getProvider providers' "Y" = None
    /\ ModProviderRegistry.hasProvider providers' "Y" = false
    /\ (forall other, other <> "Y" ->
          ModProviderRegistry.getProvider providers' other
          = ModProviderRegistry.getProvider Samples.registryXY other)
    /\ (ModProviderRegistry.hasProvider Samples.registryXY "Y" = true ->
        Datatypes.S (ModProviderRegistry.count providers')
        = ModProviderRegistry.count Samples.registryXY)
    /\ (ModProviderRegistry.hasProvider Samples.registryXY "Y" = false ->
        providers' = Samples.registryXY /\ t' = []).
Proof.
  apply (@unregisterProvider_removes unit string Samples.registryXY "Y" tt []).
  repeat constructor; simpl; intuition discriminate.
Defined.

(* ================================================================== *)
(** * The service: delegation *)
(* ================================================================== *)

Section ServiceDelegation.
Import JS Eff.
Variables S Stream : Type.

#[local] Abbreviation Provider := (IModProvider.t S Stream).
#[local] Abbreviation Registry := (ModProviderRegistry.t S Stream).

Lemma withProvider_configured {A} (registry : Registry) (providerId : string)
    (provider : Provider) (k : Provider -> M S A) s t :
  ModProviderRegistry.getProvider registry providerId = Some provider ->
  IModProvider.isConfigured provider s = true ->
  ModProviderService.withProvider registry providerId k s t = k provider s t.
Proof.
  intros Hsome Hon. unfold ModProviderService.withProvider.
  rewrite Hsome. unfold bind, read. rewrite Hon. reflexivity.
Qed.

(** X6.  One failure, seen both ways.  When a configured adapter's search
    throws, a direct [search] on it throws the same exception, while
    [searchAll] over a registry holding just that adapter returns
    normally with the empty page in its place and logs the failure. *)
Theorem search_propagates_where_searchAll_substitutes
    (provider : Provider) (params : UnifiedSearchParams.t) (e : exn) s t s1 t1 :
  IModProvider.isConfigured provider s = true ->
  IModProvider.searchProjects provider params s
    (t ++ [Call (IModProvider.id provider) "searchProjects"])%list = (Throw e, s1, t1) ->
  let registry := StringMap.set [] (IModProvider.id provider) provider in
  ModProviderService.search registry (IModProvider.id provider) params s t
    = (Throw e, s1, t1)
  /\ ModProviderService.searchAll registry params s t
     = (Ok {| MultiProviderSearchResponse.results :=
                [Spec.emptyPage (IModProvider.id provider) params];
              MultiProviderSearchResponse.totalAcrossProviders := int 0 |},
        s1,
        (t1 ++ [Log error ("[ModProviderRegistry] Search failed for "
                           ++ IModProvider.id provider ++ ":")])%list).
Proof.
  intros Hon Hthrow registry. split.
  - unfold ModProviderService.search.
    rewrite (withProvider_configured registry (IModProvider.id provider)
               (provider := provider)).
    + unfold ModProviderService.delegate, bind, emit. exact Hthrow.
    + unfold registry, ModProviderRegistry.getProvider. apply get_set_same.
    + exact Hon.
  - unfold ModProviderService.searchAll, ModProviderRegistry.searchAll, bind, read.
    unfold registry, ModProviderRegistry.getConfiguredProviders,
      ModProviderRegistry.getAllProviders, StringMap.values.
    cbn [StringMap.set List.map snd List.filter]. rewrite Hon.
    cbn [List.length Nat.eqb collect]. unfold bind at 1.
    rewrite searchStarted_runs, Hthrow. cbn [outcome store trace fst snd].
    unfold bind, ret. cbn [List.map ModProviderRegistry.promiseAll].
    rewrite searchSettled_runs. reflexivity.
Qed.

(** X7.  Optional capabilities.  On a configured adapter that has no
    [getTags], the service's [getTags] returns the empty list without
    calling the adapter; on one that has no [getProjectBySlug], the
    service's [getProjectBySlug] throws "does not support slug-based
    lookup", again without calling it. *)
Theorem missing_capabilities
    (registry : Registry) (providerId slug : string) (provider : Provider) s t :
  ModProviderRegistry.getProvider registry providerId = Some provider ->
  IModProvider.isConfigured provider s = true ->
  (IModProvider.getTags provider = None ->
   ModProviderService.getTags registry providerId s t = (Ok [], s, t))
  /\ (IModProvider.getProjectBySlug provider = None ->
      ModProviderService.getProjectBySlug registry providerId slug s t
      = (Throw (Error ("Provider " ++ providerId
                       ++ " does not support slug-based lookup")), s, t)).
Proof.
  intros Hsome Hon.
  unfold ModProviderService.getTags, ModProviderService.getProjectBySlug.
  rewrite !(withProvider_configured registry providerId (provider := provider))
    by assumption.
  split; intros ->; reflexivity.
Qed.

Lemma findVersion_found (versions : list UnifiedVersion.t) (versionId : string)
    (v : UnifiedVersion.t) :
  ModProviderService.findVersion versions versionId = Some v ->
  In v versions /\ UnifiedVersion.id v = Str versionId.
Proof.
  unfold ModProviderService.findVersion. intros H.
  apply List.find_some in H. destruct H as [Hin Heq]. split; [exact Hin |].
  destruct (UnifiedVersion.id v) as [| | b | n | str | items | fields];
    try discriminate Heq.
  simpl in Heq. apply String.eqb_eq in Heq. subst. reflexivity.
Qed.

(** X8.  Installing a listed version.  When the fetched project lists a
    version whose id is the requested [versionId], the metadata
    describes that version (its id is the requested id, its label and
    size are recorded) whatever [latestVersion] says, and the stream is
    the adapter's download of that id; a failing download fails the
    operation with the adapter's exception. *)
Theorem downloadForInstallation_listed_version
    (registry : Registry) (providerId projectId versionId : string)
    (provider : Provider) (project : UnifiedProject.t) (v : UnifiedVersion.t) s t s1 t1 :
  ModProviderRegistry.getProvider registry providerId = Some provider ->
  IModProvider.isConfigured provider s = true ->
  IModProvider.getProject provider projectId s
    (t ++ [Call (IModProvider.id provider) "getProject"])%list = (Ok project, s1, t1) ->
  ModProviderService.findVersion (UnifiedProject.versions project) versionId = Some v ->
  In v (UnifiedProject.versions project)
  /\ UnifiedVersion.id v = Str versionId
  /\ match IModProvider.downloadVersion provider projectId versionId s1
             (t1 ++ [Call (IModProvider.id provider) "downloadVersion"])%list with
     | (Ok stream, s2, t2) =>
         ModProviderService.downloadForInstallation registry providerId projectId
           versionId s t
         = (Ok (stream,
                {| UnifiedModMetadata.providerId := providerId;
                   UnifiedModMetadata.projectId := projectId;
                   UnifiedModMetadata.projectTitle := UnifiedProject.title project;
                   UnifiedModMetadata.projectIconUrl := UnifiedProject.iconUrl project;
                   UnifiedModMetadata.versionId := versionId;
                   UnifiedModMetadata.versionName := UnifiedVersion.version v;
                   UnifiedModMetadata.classification :=
                     UnifiedProject.classification project;
                   UnifiedModMetadata.fileSize := UnifiedVersion.fileSize v |}),
            s2, t2)
     | (Throw e, s2, t2) =>
         ModProviderService.downloadForInstallation registry providerId projectId
           versionId s t
         = (Throw e, s2, t2)
     end.
Proof.
  intros Hsome Hon Hproject Hfound.
  destruct (findVersion_found _ _ Hfound) as [Hin Hid].
  split; [exact Hin |]. split; [exact Hid |].
  unfold ModProviderService.downloadForInstallation.
  rewrite (withProvider_configured registry providerId (provider := provider))
    by assumption.
  unfold ModProviderService.delegate, bind, emit, throw, ret.
  rewrite Hproject. cbv beta iota. rewrite Hfound.
  destruct (IModProvider.downloadVersion provider projectId versionId s1
              (t1 ++ [Call (IModProvider.id provider) "downloadVersion"])%list)
    as [[[stream | e] s2] t2]; reflexivity.
Qed.

(** X9.  When the adapter cannot deliver the project, the installation
    download stops there: the exception is passed on and no download
    is asked for. *)
Theorem downloadForInstallation_stops_without_project
    (registry : Registry) (providerId projectId versionId : string)
    (provider : Provider) (e : exn) s t s1 t1 :
  ModProviderRegistry.getProvider registry providerId = Some provider ->
  IModProvider.isConfigured provider s = true ->
  IModProvider.getProject provider projectId s
    (t ++ [Call (IModProvider.id provider) "getProject"])%list = (Throw e, s1, t1) ->
  ModProviderService.downloadForInstallation registry providerId projectId versionId s t
  = (Throw e, s1, t1).
Proof.
  intros Hsome Hon Hproject.
  unfold ModProviderService.downloadForInstallation.
  rewrite (withProvider_configured registry providerId (provider := provider))
    by assumption.
  unfold ModProviderService.delegate, bind, emit.
  rewrite Hproject. reflexivity.
Qed.

End ServiceDelegation.

(** Z is configured and its search fails. *)
Lemma search_propagates_where_searchAll_substitutes_witness :
  ModProviderService.search (StringMap.set [] "Z" Samples.providerZ) "Z"
    Samples.page3size10 tt []
    = (JS.Throw (JS.Error "HTTP 500"), tt, [Eff.Call "Z" "searchProjects"])
  /\ ModProviderService.searchAll (StringMap.set [] "Z" Samples.providerZ)
       Samples.page3size10 tt []
     = (JS.Ok {| MultiProviderSearchResponse.results :=
                   [Spec.emptyPage "Z" Samples.page3size10];
                 MultiProviderSearchResponse.totalAcrossProviders := JS.int 0 |},
        tt,
        [Eff.Call "Z" "searchProjects";
         Eff.Log Eff.error "[ModProviderRegistry] Search failed for Z:"]).
Proof.
  exact (search_propagates_where_searchAll_substitutes
           Samples.providerZ Samples.page3size10 (e := JS.Error "HTTP 500")
           tt [] (s1 := tt) (t1 := [Eff.Call "Z" "searchProjects"]) eq_refl eq_refl).
Defined.

(** The sample adapter X has neither tags nor slug lookup. *)
Lemma missing_capabilities_witness :
  ModProviderService.getTags Samples.registryXY "X" tt [] = (JS.Ok [], tt, [])
  /\ ModProviderService.getProjectBySlug Samples.registryXY "X" "one" tt []
     = (JS.Throw (JS.Error "Provider X does not support slug-based lookup"), tt, []).
Proof.
  destruct (missing_capabilities Samples.registryXY "X" "one"
              (provider := Samples.providerX) tt [] eq_refl eq_refl) as [Htags Hslug].
  split; [apply Htags | apply Hslug]; reflexivity.
Defined.

(** Installing the listed version "v1" of the sample project. *)
Lemma downloadForInstallation_listed_version_witness :
  ModProviderService.downloadForInstallation Samples.registryXY "X" "p1" "v1" tt []
  = (JS.Ok ("bytes of v1",
            {| UnifiedModMetadata.providerId := "X";
               UnifiedModMetadata.projectId := "p1";
               UnifiedModMetadata.projectTitle := JS.Str "Project one";
               UnifiedModMetadata.projectIconUrl := JS.Undefined;
               UnifiedModMetadata.versionId := "v1";
               UnifiedModMetadata.versionName := JS.Str "1.0.0";
               UnifiedModMetadata.classification := JS.Str "PLUGIN";
               UnifiedModMetadata.fileSize := JS.int 2048 |}),
     tt, [Eff.Call "X" "getProject"; Eff.Call "X" "downloadVersion"]).
Proof.
  exact (proj2 (proj2 (downloadForInstallation_listed_version
           Samples.registryXY "X" "p1" "v1" (provider := Samples.providerX)
           (project := Samples.projectOne) (v := Samples.versionOne)
           tt [] (s1 := tt) (t1 := [Eff.Call "X" "getProject"])
           eq_refl eq_refl eq_refl eq_refl))).
Defined.

(** The project is gone upstream: nothing is downloaded. *)
Lemma downloadForInstallation_stops_without_project_witness :
  ModProviderService.downloadForInstallation
    (StringMap.set [] "G" Samples.providerGone) "G" "p1" "v1" tt []
  = (JS.Throw (JS.Error "HTTP 404"), tt, [Eff.Call "G" "getProject"]).
Proof.
  exact (downloadForInstallation_stops_without_project
           (StringMap.set [] "G" Samples.providerGone) "G" "p1" "v1"
           (provider := Samples.providerGone) (e := JS.Error "HTTP 404")
           tt [] (s1 := tt) (t1 := [Eff.Call "G" "getProject"])
           eq_refl eq_refl eq_refl).
Defined.

(* ================================================================== *)
(** * The Modtale adapter: credentials and failures *)
(* ================================================================== *)

Section ModtaleFailures.
Import JS Eff.
Variable net : Upstream.
Variable Stream : Type.
Variable bodies : Bodies Stream.

Lemma modtale_request_unconfigured (endpoint : string) s t :
  ModtaleProvider.isConfigured s = false ->
  ModtaleProvider.request net endpoint s t
  = (Throw (Error "Modtale API key not configured"), s, t).
Proof.
  intros Hoff. unfold ModtaleProvider.request, bind, read, throw.
  destruct (ModtaleProvider.apiKey s); [rewrite Hoff |]; reflexivity.
Qed.

(** X10.  Without a usable key the Modtale adapter never reaches the
    network.  Search, project, category and tag lookups and downloads
    all throw "Modtale API key not configured" and leave the trace as
    it was; the dependency lookup, which swallows every failure,
    returns the empty list and logs the error. *)
Theorem modtale_without_key_sends_nothing
    (params : UnifiedSearchParams.t) (projectId versionId slug : string) s t :
  ModtaleProvider.isConfigured s = false ->
  let refused {A} : result A * ModtaleProvider.state * list event :=
    (Throw (Error "Modtale API key not configured"), s, t) in
  ModtaleProvider.searchProjects net params s t = refused
  /\ ModtaleProvider.getProject net projectId s t = refused
  /\ ModtaleProvider.getProjectBySlug net slug s t = refused
  /\ ModtaleProvider.getCategories net s t = refused
  /\ ModtaleProvider.getTags net s t = refused
  /\ ModtaleProvider.downloadVersion net bodies projectId versionId s t = refused
  /\ ModtaleProvider.getVersionDependencies net projectId versionId s t
     = (Ok [], s,
        (t ++ [Log error ("[ModtaleProvider] Error getting dependencies for "
                          ++ projectId ++ "/" ++ versionId ++ ":")])%list).
Proof.
  intros Hoff refused. unfold refused.
  unfold ModtaleProvider.searchProjects, ModtaleProvider.getProject,
    ModtaleProvider.getProjectBySlug, ModtaleProvider.getCategories,
    ModtaleProvider.getTags, ModtaleProvider.getVersionDependencies.
  repeat split;
    try (apply bind_throw; apply modtale_request_unconfigured; exact Hoff).
  - unfold ModtaleProvider.downloadVersion, bind, read, throw.
    destruct (ModtaleProvider.apiKey s); [rewrite Hoff |]; reflexivity.
  - unfold tryCatch.
    erewrite bind_throw by (apply modtale_request_unconfigured; exact Hoff).
    reflexivity.
Qed.

(** X11.  How an HTTP failure surfaces from the Modtale adapter.  When the
    reply is not ok and the [message] of its JSON error body, if it has
    one, is a plain value, [request] throws an [Error] whose message is
    that [message] if it is truthy, the raw body text if the body is
    JSON without a usable [message], and "HTTP <status>: <statusText>"
    if the body is not JSON.  A body that parses to [null] makes the
    read of [message] itself fail with a [TypeError]. *)
Theorem modtale_request_http_failure
    (endpoint key : string) (r : Response) s t :
  ModtaleProvider.apiKey s = Some key ->
  ModtaleProvider.isConfigured s = true ->
  net (List.length (List.filter isFetch t)) (ModtaleProvider.MODTALE_API_BASE ++ endpoint)
    = Responded r ->
  ok r = false ->
  (forall body, json r = Some body -> plain (prop body "message") = true) ->
  outcome (ModtaleProvider.request net endpoint s t)
  = match json r with
    | None =>
        Throw (Error ("HTTP " ++ ToString (int (status r)) ++ ": " ++ statusText r))
    | Some Null | Some Undefined => Throw TypeError
    | Some body =>
        if truthy (prop body "message")
        then Throw (Error (ToString (prop body "message")))
        else Throw (Error (text r))
    end.
Proof.
  intros Hkey Hconf Hnet Hok _.
  unfold ModtaleProvider.request, bind, read, log, emit, fetch, throw, ret, lift, outcome.
  rewrite Hkey, Hconf. cbn [negb]. rewrite fetches_after_log, Hnet, Hok. cbn [negb].
  destruct (json r) as [body |].
  - destruct body as [| | b | n | str | items | fields]; try reflexivity;
      unfold prop, or; cbn [get fst];
      match goal with
      | |- context [truthy ?v] => destruct (truthy v); reflexivity
      end.
  - reflexivity.
Qed.

End ModtaleFailures.

(* ================================================================== *)
(** * The Modtale adapter: pages and payloads *)
(* ================================================================== *)

Section ModtalePayloads.
Import JS Eff.

Lemma mapR_length {A B} (f : A -> result B) (xs : list A) (ys : list B) :
  mapR f xs = Ok ys -> List.length ys = List.length xs.
Proof.
  revert ys. induction xs as [| x xs IH]; simpl; intros ys H.
  - injection H as <-. reflexivity.
  - peel H. peel H. injection H as <-. simpl. f_equal. apply IH. assumption.
Qed.

Lemma mapR_total {A B} (f : A -> result B) (xs : list A) :
  Forall (fun x => exists y, f x = Ok y) xs -> exists ys, mapR f xs = Ok ys.
Proof.
  induction 1 as [| x xs [y Hy] _ [ys Hys]]; simpl.
  - eexists. reflexivity.
  - rewrite Hy. simpl. rewrite Hys. simpl. eexists. reflexivity.
Qed.

Lemma mapR_throws {A B} (f : A -> result B) (e : exn) (xs : list A) (x : A) :
  (forall y e', f y = Throw e' -> e' = e) ->
  In x xs -> f x = Throw e -> mapR f xs = Throw e.
Proof.
  intros Honly. induction xs as [| x' xs IH]; simpl; intros Hin Hx.
  - contradiction.
  - destruct (f x') as [y | e'] eqn:Hx'; simpl.
    + destruct Hin as [-> | Hin]; [congruence |].
      rewrite (IH Hin Hx). reflexivity.
    + rewrite (Honly _ _ Hx'). reflexivity.
Qed.

Lemma mapR_only_throws {A B} (f : A -> result B) (e : exn) (xs : list A) :
  (forall y e', f y = Throw e' -> e' = e) ->
  forall e', mapR f xs = Throw e' -> e' = e.
Proof.
  intros Honly. induction xs as [| x xs IH]; simpl; intros e' H.
  - discriminate.
  - destruct (f x) as [y | e0] eqn:Hx; simpl in H.
    + destruct (mapR f xs) as [ys | e1]; simpl in H; [discriminate |].
      injection H as <-. apply IH. reflexivity.
    + injection H as <-. eapply Honly. exact Hx.
Qed.

Lemma present_nonNullish (v : value) : Spec.present v -> nonNullish v = Ok tt.
Proof. intros [Hu Hn]. destruct v; try reflexivity; congruence. Qed.

Lemma nonNullish_only_TypeError (v : value) (e : exn) :
  nonNullish v = Throw e -> e = TypeError.
Proof. destruct v; simpl; intros H; congruence. Qed.

Lemma modtale_transformVersion_only_TypeError (v : value) (e : exn) :
  ModtaleProvider.transformVersion v = Throw e -> e = TypeError.
Proof.
  unfold ModtaleProvider.transformVersion.
  destruct (nonNullish v) eqn:E; simpl; intros H; [discriminate |].
  injection H as <-. eapply nonNullish_only_TypeError. exact E.
Qed.

Lemma modtale_transformTag_only_TypeError (v : value) (e : exn) :
  ModtaleProvider.transformTag v = Throw e -> e = TypeError.
Proof.
  unfold ModtaleProvider.transformTag. destruct (isString v); [discriminate |].
  destruct (nonNullish v) eqn:E; simpl; intros H; [discriminate |].
  injection H as <-. eapply nonNullish_only_TypeError. exact E.
Qed.

Lemma modtale_transformVersion_present (v : value) :
  Spec.present v -> exists u, ModtaleProvider.transformVersion v = Ok u.
Proof.
  intros Hv. unfold ModtaleProvider.transformVersion.
  rewrite (present_nonNullish Hv). simpl. eexists. reflexivity.
Qed.

Lemma modtale_transformTag_present (v : value) :
  Spec.present v -> exists u, ModtaleProvider.transformTag v = Ok u.
Proof.
  intros Hv. unfold ModtaleProvider.transformTag.
  destruct (isString v); [eexists; reflexivity |].
  rewrite (present_nonNullish Hv). simpl. eexists. reflexivity.
Qed.

Lemma modtale_transformAuthor_present (v : value) :
  Spec.present v -> exists u, ModtaleProvider.transformAuthor v = Ok u.
Proof.
  intros Hv. unfold ModtaleProvider.transformAuthor.
  destruct (isString v); [eexists; reflexivity |].
  rewrite (present_nonNullish Hv). simpl. eexists. reflexivity.
Qed.

Lemma map_present {B} (v : value) (f : value -> result B) :
  (forall x, Spec.present x -> exists y, f x = Ok y) ->
  Spec.noNullEntries v ->
  exists ys, (if isArray v then JS.map v f else Ok []) = Ok ys
             /\ (forall items, v = Arr items -> List.length ys = List.length items)
             /\ (isArray v = false -> ys = []).
Proof.
  intros Hf Hv. destruct v as [| | b | n | str | items | fields];
    try (exists []; repeat split; [intros ? H; discriminate H]).
  simpl. destruct (@mapR_total _ _ f items) as [ys Hys].
  - specialize (Hv items eq_refl). revert Hv. apply List.Forall_impl. exact Hf.
  - exists ys. split; [exact Hys |]. split.
    + intros items' H. injection H as <-. eapply mapR_length. exact Hys.
    + discriminate.
Qed.

(** X12.  The Modtale project transform tolerates missing fields.  On any
    plain payload that is not [null] or [undefined], that has an
    author, and whose [versions] and [tags] arrays (if it has them)
    hold no [null] entry, it returns a project: attributed to "modtale", carrying the
    payload as [_raw], with one version per upstream entry, and with no
    versions and no latest version when [versions] is not an array. *)
Theorem modtale_transformProject_tolerates_missing_fields (project : value) :
  plain project = true ->
  Spec.present project ->
  Spec.present (prop project "author") ->
  Spec.noNullEntries (prop project "versions") ->
  Spec.noNullEntries (prop project "tags") ->
  exists p,
    ModtaleProvider.transformProject project = Ok p
    /\ UnifiedProject.providerId p = "modtale"
    /\ UnifiedProject._raw p = project
    /\ (forall items, prop project "versions" = Arr items ->
          List.length (UnifiedProject.versions p) = List.length items)
    /\ (isArray (prop project "versions") = false ->
          UnifiedProject.versions p = [] /\ UnifiedProject.latestVersion p = None).
Proof.
  intros _ Hproject Hauthor Hversions Htags.
  unfold ModtaleProvider.transformProject.
  rewrite (present_nonNullish Hproject). cbn [rbind].
  destruct (@map_present _ (prop project "versions") ModtaleProvider.transformVersion
              modtale_transformVersion_present Hversions) as [vs [Hvs [Hlen Hnone]]].
  destruct (@map_present _ (prop project "tags") ModtaleProvider.transformTag
              modtale_transformTag_present Htags) as [ts [Hts _]].
  destruct (modtale_transformAuthor_present Hauthor) as [a Ha].
  rewrite Hvs. cbn [rbind]. rewrite Hts. cbn [rbind]. rewrite Ha. cbn [rbind].
  eexists. split; [reflexivity |].
  cbn [UnifiedProject.providerId UnifiedProject._raw UnifiedProject.versions
       UnifiedProject.latestVersion].
  split; [reflexivity |]. split; [reflexivity |]. split; [exact Hlen |].
  intros Hnot. rewrite (Hnone Hnot). split; reflexivity.
Qed.

Lemma modtale_transformProject_only_TypeError (project : value) (e : exn) :
  ModtaleProvider.transformProject project = Throw e -> e = TypeError.
Proof.
  unfold ModtaleProvider.transformProject.
  destruct (nonNullish project) eqn:E; cbn [rbind];
    [| intros H; injection H as <-; eapply nonNullish_only_TypeError; exact E].
  destruct (if isArray (prop project "versions") then _ else _) as [vs | e1] eqn:Hvs;
    cbn [rbind].
  2:{ intros H. injection H as <-.
      destruct (prop project "versions"); try discriminate Hvs.
      eapply mapR_only_throws; [apply modtale_transformVersion_only_TypeError | exact Hvs]. }
  destruct (if isArray (prop project "tags") then _ else _) as [ts | e2] eqn:Hts;
    cbn [rbind].
  2:{ intros H. injection H as <-.
      destruct (prop project "tags"); try discriminate Hts.
      eapply mapR_only_throws; [apply modtale_transformTag_only_TypeError | exact Hts]. }
  unfold ModtaleProvider.transformAuthor.
  destruct (isString (prop project "author")); cbn [rbind]; [discriminate |].
  destruct (nonNullish (prop project "author")) eqn:Ea; cbn [rbind]; [discriminate |].
  intros H. injection H as <-. eapply nonNullish_only_TypeError. exact Ea.
Qed.

Lemma modtale_transformProject_needs_author (project : value) :
  prop project "author" = Undefined \/ prop project "author" = Null ->
  ModtaleProvider.transformProject project = Throw TypeError.
Proof.
  intros Hauthor.
  destruct (ModtaleProvider.transformProject project) as [p | e] eqn:H.
  - exfalso. unfold ModtaleProvider.transformProject in H.
    peel H. peel H. peel H. peel H.
    unfold ModtaleProvider.transformAuthor in Ha2.
    destruct Hauthor as [E | E]; rewrite E in Ha2; discriminate Ha2.
  - f_equal. eapply modtale_transformProject_only_TypeError. exact H.
Qed.

(** X13.  The author is the one field the Modtale transform cannot do
    without: a project payload with no author makes it throw a
    [TypeError], and a single such project in a paginated reply makes
    the whole search result throw, however many well-formed projects
    surround it. *)
Theorem modtale_project_without_author_fails_the_page
    (params : UnifiedSearchParams.t) (response project : value) (items : list value) s t :
  prop project "author" = Undefined \/ prop project "author" = Null ->
  ModtaleProvider.isPaginated response = true ->
  prop response "content" = Arr items ->
  In project items ->
  ModtaleProvider.transformProject project = Throw TypeError
  /\ ModtaleProvider.searchResult params response s t = (Throw TypeError, s, t).
Proof.
  intros Hauthor Hpaginated Hcontent Hin.
  pose proof (modtale_transformProject_needs_author project Hauthor) as Hthrow.
  split; [exact Hthrow |].
  unfold ModtaleProvider.searchResult. rewrite Hpaginated, Hcontent.
  unfold bind, lift. cbn [JS.map].
  rewrite (mapR_throws ModtaleProvider.transformProject (e := TypeError) items project
             modtale_transformProject_only_TypeError Hin Hthrow).
  reflexivity.
Qed.

End ModtalePayloads.

Section ModtalePages.
Import JS Eff.
Variable net : Upstream.
Variable Stream : Type.
Variable bodies : Bodies Stream.

(** X14.  Page numbers survive the trip to Modtale and back, for every
    page and size that are safe integers (of magnitude below 2^53).
    The query carries the requested page minus one (page 1 when none
    is requested) and the requested size (50 when none is); when the
    paginated reply reports that same 0-based number, the page of the
    result is the requested one. *)
Theorem modtale_page_round_trip
    (params : UnifiedSearchParams.t) (response : value) s t r s' t' :
  Spec.safeOrAbsent (UnifiedSearchParams.page params) ->
  Spec.safeOrAbsent (UnifiedSearchParams.pageSize params) ->
  ModtaleProvider.isPaginated response = true ->
  prop response "number"
    = int (Spec.requestedOrElse (UnifiedSearchParams.page params) 1 - 1) ->
  ModtaleProvider.searchResult params response s t = (Ok r, s', t') ->
  In ("page", ToString (int (Spec.requestedOrElse (UnifiedSearchParams.page params) 1 - 1)))
     (ModtaleProvider.searchQuery params)
  /\ In ("size", ToString (int (Spec.requestedOrElse (UnifiedSearchParams.pageSize params) 50)))
        (ModtaleProvider.searchQuery params)
  /\ UnifiedSearchResponse.page r
     = int (Spec.requestedOrElse (UnifiedSearchParams.page params) 1).
Proof.
  intros _ _ Hpaginated Hnumber H.
  split; [| split].
  - unfold ModtaleProvider.searchQuery, Spec.requestedOrElse.
    do 4 (apply List.in_or_app; right). apply List.in_or_app. left. left. reflexivity.
  - unfold ModtaleProvider.searchQuery, Spec.requestedOrElse.
    do 4 (apply List.in_or_app; right). apply List.in_or_app. left. right. left. reflexivity.
  - unfold ModtaleProvider.searchResult in H. rewrite Hpaginated in H.
    unbind H. injection H as <- _ _. cbn [UnifiedSearchResponse.page].
    rewrite Hnumber. unfold or, int. cbn [truthy].
    destruct (Z.eqb_spec (Spec.requestedOrElse (UnifiedSearchParams.page params) 1 - 1) 0)
      as [E | E]; cbn [negb ToNumber]; rewrite add_numbers; cbn [numAdd];
      do 2 f_equal; lia.
Qed.

Lemma or_int_requested (requested : option Z) (fallback : Z) (a : value) :
  ge a (or (ofNumber requested) (int fallback))
  = ge a (int (Spec.requestedOr requested fallback)).
Proof. rewrite or_requested. reflexivity. Qed.

(** X15.  A reply that is a bare array carries no paging data, so the
    adapter makes it up: one project per element, [total] the number of
    elements, the requested page and size (1 and 50 when absent or
    zero), and [hasMore] exactly when the array is at least a page
    long. *)
Theorem modtale_bare_array_page
    (params : UnifiedSearchParams.t) (items : list value) s t r s' t' :
  ModtaleProvider.searchResult params (Arr items) s t = (Ok r, s', t') ->
  List.length (UnifiedSearchResponse.projects r) = List.length items
  /\ UnifiedSearchResponse.total r = int (Z.of_nat (List.length items))
  /\ UnifiedSearchResponse.page r
     = int (Spec.requestedOr (UnifiedSearchParams.page params) 1)
  /\ UnifiedSearchResponse.pageSize r
     = int (Spec.requestedOr (UnifiedSearchParams.pageSize params) 50)
  /\ UnifiedSearchResponse.hasMore r
     = (Spec.requestedOr (UnifiedSearchParams.pageSize params) 50
        <=? Z.of_nat (List.length items))%Z
  /\ s' = s /\ t' = t.
Proof.
  unfold ModtaleProvider.searchResult.
  change (ModtaleProvider.isPaginated (Arr items)) with false.
  change (isArray (Arr items)) with true. cbv iota.
  intros H. unbind H. apply lift_inv in Ha. destruct Ha as [Hmap [-> ->]].
  injection H as <- <- <-.
  cbn [UnifiedSearchResponse.projects UnifiedSearchResponse.total
       UnifiedSearchResponse.page UnifiedSearchResponse.pageSize
       UnifiedSearchResponse.hasMore].
  rewrite !or_requested.
  split; [eapply mapR_length; exact Hmap |].
  repeat split.
Qed.

Lemma lowerChar_idempotent (c : Ascii.ascii) :
  lowerChar (lowerChar c) = lowerChar c.
Proof.
  destruct c as [[] [] [] [] [] [] [] []]; reflexivity.
Qed.

Lemma toLowerCase_idempotent (s : string) : toLowerCase (toLowerCase s) = toLowerCase s.
Proof.
  induction s as [| c s IH]; simpl; [reflexivity |].
  rewrite lowerChar_idempotent, IH. reflexivity.
Qed.

Lemma toLowerCase_append (a b : string) :
  toLowerCase (a ++ b) = toLowerCase a ++ toLowerCase b.
Proof. induction a as [| c a IH]; simpl; [| rewrite IH]; reflexivity. Qed.

Lemma head_and_rest (s : string) : charAt0 s ++ slice1 s = s.
Proof. destruct s; reflexivity. Qed.

Lemma classificationCategory_shape (c : value) (category : UnifiedCategory.t) :
  ModtaleProvider.classificationCategory c = Ok category ->
  exists code head rest,
    c = Str code
    /\ code = head ++ rest
    /\ String.length head = Nat.min 1 (String.length code)
    /\ UnifiedCategory.id category = Str code
    /\ UnifiedCategory.slug category = Str (toLowerCase code)
    /\ UnifiedCategory.name category = Str (head ++ toLowerCase rest).
Proof.
  destruct c as [| | b | n | code | items | fields]; try discriminate.
  intros H. injection H as <-. exists code, (charAt0 code), (slice1 code).
  split; [reflexivity |]. split; [symmetry; apply head_and_rest |].
  split; [destruct code; reflexivity |]. repeat split.
Qed.

(** X16.  Modtale's classifications as categories.  Whenever [getCategories]
    returns, the upstream reply was an array of strings and each became
    one category, in order: its id is the upstream string, its slug the
    lower-cased string, and its name the string's first character as
    it stands followed by the rest of the string in lower case. *)
Theorem modtale_getCategories_from_classifications s t categories s' t' :
  ModtaleProvider.getCategories net s t = (Ok categories, s', t') ->
  exists items,
    ModtaleProvider.request net "/meta/classifications" s t = (Ok (Arr items), s', t')
    /\ Forall2 (fun item category =>
                  exists code head rest,
                    item = Str code
                    /\ code = head ++ rest
                    /\ String.length head = Nat.min 1 (String.length code)
                    /\ UnifiedCategory.id category = Str code
                    /\ UnifiedCategory.slug category = Str (toLowerCase code)
                    /\ UnifiedCategory.name category = Str (head ++ toLowerCase rest))
         items categories.
Proof.
  unfold ModtaleProvider.getCategories. intros H.
  unbind H. apply lift_inv in H. destruct H as [Hmap [-> ->]].
  destruct a as [| | b | n | str | items | fields]; try discriminate Hmap.
  exists items. split; [exact Ha |]. cbn [JS.map] in Hmap.
  clear Ha. revert categories Hmap.
  induction items as [| c items IH]; simpl; intros categories Hmap.
  - injection Hmap as <-. constructor.
  - peel Hmap. peel Hmap. injection Hmap as <-. constructor.
    + apply classificationCategory_shape. exact Ha.
    + apply IH. exact Ha0.
Qed.

(** X17.  Downloading from Modtale.  A configured adapter asks for exactly
    the URL that [getDownloadUrl] advertises, with its key, and for
    nothing else.  It returns the reply's body; it throws "Download
    failed: HTTP <status>" when the reply is not ok, "No response body
    received" when an ok reply has no body, and the transport's own
    error when the request is rejected. *)
Theorem modtale_downloadVersion_outcomes (projectId versionId key : string) s t :
  ModtaleProvider.apiKey s = Some key ->
  ModtaleProvider.isConfigured s = true ->
  let url := ModtaleProvider.getDownloadUrl projectId versionId in
  let n := List.length (List.filter isFetch t) in
  outcome (ModtaleProvider.downloadVersion net bodies projectId versionId s t)
  = match net n url with
    | Rejected m => Throw (Error m)
    | Responded r =>
        if ok r
        then match bodies n url with
             | Some body => Ok body
             | None => Throw (Error "No response body received")
             end
        else Throw (Error ("Download failed: HTTP " ++ ToString (int (status r))))
    end
  /\ List.filter isFetch (trace (ModtaleProvider.downloadVersion net bodies
                                   projectId versionId s t))
     = (List.filter isFetch t ++ [Fetch url [("X-MODTALE-KEY", key)]])%list.
Proof.
  intros Hkey Hconf url n.
  unfold ModtaleProvider.downloadVersion, bind, read, log, emit, fetchStream, throw, ret,
    outcome, trace.
  rewrite Hkey, Hconf. cbn [negb]. rewrite fetches_after_log.
  fold n. change (ModtaleProvider.MODTALE_API_BASE ++ "/projects/" ++ projectId
                  ++ "/versions/" ++ versionId ++ "/download") with url.
  assert (Hsent : forall (l : level) (m : string) (more : list event),
             List.filter isFetch more = [] ->
             List.filter isFetch
               (((t ++ [Log l m]) ++ [Fetch url [("X-MODTALE-KEY", key)]]) ++ more)%list
             = (List.filter isFetch t ++ [Fetch url [("X-MODTALE-KEY", key)]])%list).
  { intros l m more Hmore. rewrite !List.filter_app, Hmore. cbn [List.filter isFetch].
    rewrite !List.app_nil_r. reflexivity. }
  destruct (net n url) as [m | r]; cbn [fst snd].
  - split; [reflexivity |]. rewrite <- (List.app_nil_r (_ ++ [Fetch _ _])).
    apply Hsent. reflexivity.
  - destruct (ok r); cbn [negb fst snd].
    + destruct (bodies n url); (split; [reflexivity |]);
        rewrite <- (List.app_nil_r (_ ++ [Fetch _ _])); apply Hsent; reflexivity.
    + split; [reflexivity |]. apply Hsent. reflexivity.
Qed.

End ModtalePages.

(* ================================================================== *)
(** * What a computation leaves unchanged *)
(* ================================================================== *)

Section Frames.
Import JS Eff.
Variable S : Type.
Variable R : S -> S -> Prop.
Hypothesis R_refl : forall s, R s s.
Hypothesis R_trans : forall s1 s2 s3, R s1 s2 -> R s2 s3 -> R s1 s3.

#[local] Abbreviation keeps := (Spec.keeps R).

Lemma keeps_ret {A} (a : A) : keeps (ret a).
Proof. intros s t. apply R_refl. Qed.

Lemma keeps_throw {A} (e : exn) : keeps (@throw S A e).
Proof. intros s t. apply R_refl. Qed.

Lemma keeps_lift {A} (r : result A) : keeps (lift r).
Proof. intros s t. apply R_refl. Qed.

Lemma keeps_read : keeps (@read S).
Proof. intros s t. apply R_refl. Qed.

Lemma keeps_log (l : level) (m : string) : keeps (@log S l m).
Proof. intros s t. apply R_refl. Qed.

Lemma keeps_fetch (net : Upstream) (url : string) (headers : list (string * string)) :
  keeps (@fetch S net url headers).
Proof. intros s t. unfold fetch, store. destruct (net _ _); apply R_refl. Qed.

Lemma keeps_bind {A B} (c : M S A) (k : A -> M S B) :
  keeps c -> (forall a, keeps (k a)) -> keeps (bind c k).
Proof.
  intros Hc Hk s t. specialize (Hc s t). unfold bind, store in *.
  destruct (c s t) as [[[a | e] s1] t1]; cbn [fst snd] in *.
  - eapply R_trans; [exact Hc | apply Hk].
  - exact Hc.
Qed.

Lemma keeps_tryCatch {A} (c : M S A) (handler : exn -> M S A) :
  keeps c -> (forall e, keeps (handler e)) -> keeps (tryCatch c handler).
Proof.
  intros Hc Hh s t. specialize (Hc s t). unfold tryCatch, store in *.
  destruct (c s t) as [[[a | e] s1] t1]; cbn [fst snd] in *.
  - exact Hc.
  - eapply R_trans; [exact Hc | apply Hh].
Qed.

Lemma keeps_forEach {A} (xs : list A) (body : A -> M S unit) :
  (forall x, keeps (body x)) -> keeps (forEach xs body).
Proof.
  intros Hbody. induction xs as [| x xs IH]; simpl.
  - apply keeps_ret.
  - apply keeps_bind; [apply Hbody | intros _; exact IH].
Qed.

Lemma keeps_if {A} (b : bool) (c1 c2 : M S A) : keeps c1 -> keeps c2 -> keeps (if b then c1 else c2).
Proof. destruct b; auto. Qed.

End Frames.

(** A handler that cannot throw makes the whole [try] return. *)
Lemma tryCatch_returns {S A} (c : Eff.M S A) (handler : JS.exn -> Eff.M S A) s t :
  (forall e s1 t1, exists a s2 t2, handler e s1 t1 = (JS.Ok a, s2, t2)) ->
  exists a s' t', Eff.tryCatch c handler s t = (JS.Ok a, s', t').
Proof.
  intros Hh. unfold Eff.tryCatch.
  destruct (c s t) as [[[a | e] s1] t1]; [eexists _, _, _; reflexivity | apply Hh].
Qed.

(* ================================================================== *)
(** * The CurseForge adapter: discovery *)
(* ================================================================== *)

Ltac frame Hrefl Htrans leaf :=
  repeat match goal with
         | |- forall _, Spec.keeps _ _ => intro
         | |- Spec.keeps _ (Eff.bind _ _) => apply (@keeps_bind _ _ Htrans)
         | |- Spec.keeps _ (Eff.tryCatch _ _) => apply (@keeps_tryCatch _ _ Htrans)
         | |- Spec.keeps _ (Eff.forEach _ _) => apply (@keeps_forEach _ _ Hrefl Htrans)
         | |- Spec.keeps _ (if _ then _ else _) => apply keeps_if
         | |- Spec.keeps _ (Eff.ret _) => apply (@keeps_ret _ _ Hrefl)
         | |- Spec.keeps _ (Eff.throw _) => apply (@keeps_throw _ _ Hrefl)
         | |- Spec.keeps _ (Eff.lift _) => apply (@keeps_lift _ _ Hrefl)
         | |- Spec.keeps _ Eff.read => apply (@keeps_read _ _ Hrefl)
         | |- Spec.keeps _ (Eff.log _ _) => apply (@keeps_log _ _ Hrefl)
         | |- Spec.keeps _ (match ?x with Some _ => _ | None => _ end) => destruct x
         | _ => leaf
         end.

Section CurseForgeDiscovery.
Import JS Eff.
Variable net : Upstream.

Lemma sameKey_refl s : Spec.sameKey s s.
Proof. reflexivity. Qed.

Lemma sameKey_trans s1 s2 s3 : Spec.sameKey s1 s2 -> Spec.sameKey s2 s3 -> Spec.sameKey s1 s3.
Proof. unfold Spec.sameKey. congruence. Qed.

Lemma sameKeyAndGame_refl s : Spec.sameKeyAndGame s s.
Proof. split; reflexivity. Qed.

Lemma sameKeyAndGame_trans s1 s2 s3 :
  Spec.sameKeyAndGame s1 s2 -> Spec.sameKeyAndGame s2 s3 -> Spec.sameKeyAndGame s1 s3.
Proof. unfold Spec.sameKeyAndGame. intros [? ?] [? ?]. split; congruence. Qed.

Lemma curseForge_request_keeps_store (endpoint : string) s t :
  store (CurseForgeProvider.request net endpoint s t) = s.
Proof.
  unfold CurseForgeProvider.request, bind, read, log, emit, fetch, throw, ret, store.
  destruct (CurseForgeProvider.apiKey s); [| reflexivity].
  destruct (negb (CurseForgeProvider.isConfigured s)); [reflexivity |].
  destruct (net _ _) as [m | r]; [reflexivity |].
  destruct (negb (ok r)); [reflexivity |]. destruct (json r); reflexivity.
Qed.

Lemma curseForge_request_frame (R : CurseForgeProvider.state -> CurseForgeProvider.state -> Prop)
    (endpoint : string) :
  (forall s, R s s) -> Spec.keeps R (CurseForgeProvider.request net endpoint).
Proof. intros Hrefl s t. rewrite curseForge_request_keeps_store. apply Hrefl. Qed.

Lemma setCategories_frame (v : value) :
  Spec.keeps Spec.sameKeyAndGame (CurseForgeProvider.setCategories v).
Proof. intros s t. split; reflexivity. Qed.

Lemma setClassification_frame (k : value) (c : UnifiedClassification) :
  Spec.keeps Spec.sameKeyAndGame (CurseForgeProvider.setClassification k c).
Proof. intros s t. split; reflexivity. Qed.

Lemma setHytaleGameId_frame (v : value) :
  Spec.keeps Spec.sameKey (CurseForgeProvider.setHytaleGameId v).
Proof. intros s t. reflexivity. Qed.

Lemma loadCategories_frame :
  Spec.keeps Spec.sameKeyAndGame (CurseForgeProvider.loadCategories net).
Proof.
  unfold CurseForgeProvider.loadCategories.
  frame sameKeyAndGame_refl sameKeyAndGame_trans
    ltac:(first [ apply curseForge_request_frame; exact sameKeyAndGame_refl
                | apply setCategories_frame | apply setClassification_frame ]).
Qed.

Lemma sameKeyAndGame_sameKey (c : M CurseForgeProvider.state unit) :
  Spec.keeps Spec.sameKeyAndGame c -> Spec.keeps Spec.sameKey c.
Proof. intros H s t. exact (proj1 (H s t)). Qed.

Lemma discoverHytaleGame_frame :
  Spec.keeps Spec.sameKey (CurseForgeProvider.discoverHytaleGame net).
Proof.
  unfold CurseForgeProvider.discoverHytaleGame.
  frame sameKey_refl sameKey_trans
    ltac:(first [ apply curseForge_request_frame; exact sameKey_refl
                | apply setHytaleGameId_frame
                | apply sameKeyAndGame_sameKey; apply loadCategories_frame ]).
Qed.

Lemma loadCategories_returns s t :
  exists s' t', CurseForgeProvider.loadCategories net s t = (Ok tt, s', t').
Proof.
  unfold CurseForgeProvider.loadCategories. unfold bind at 1. unfold read at 1.
  destruct (negb (truthy (CurseForgeProvider.hytaleGameId s))).
  - eexists _, _. reflexivity.
  - match goal with
    | |- context [tryCatch ?c ?h s t] =>
        destruct (@tryCatch_returns _ _ c h s t) as [[] [s' [t' H]]]
    end.
    + intros e s1 t1. eexists _, _, _. reflexivity.
    + exists s', t'. exact H.
Qed.

(** X18.  Game discovery is fail-safe.  [discoverHytaleGame] never throws
    and never changes the API key.  Without a key it does nothing at
    all; with one, if the request for the games list fails in any way,
    the game id ends up as the built-in 70216. *)
Theorem discoverHytaleGame_is_fail_safe s t :
  exists s' t',
    CurseForgeProvider.discoverHytaleGame net s t = (Ok tt, s', t')
    /\ CurseForgeProvider.apiKey s' = CurseForgeProvider.apiKey s
    /\ (CurseForgeProvider.isConfigured s = false -> s' = s /\ t' = t)
    /\ (CurseForgeProvider.isConfigured s = true ->
        (exists e,
           outcome (CurseForgeProvider.request net "/v1/games" s
                      (t ++ [Log info
                               "[CurseForgeProvider] Fetching games list from CurseForge API..."])%list)
           = Throw e) ->
        CurseForgeProvider.hytaleGameId s' = int CurseForgeProvider.HYTALE_GAME_ID).
Proof.
  pose proof (discoverHytaleGame_frame s t) as Hkey. unfold Spec.sameKey, store in Hkey.
  unfold CurseForgeProvider.discoverHytaleGame in *.
  unfold bind at 1 in Hkey. unfold bind at 1. unfold read at 1 in Hkey. unfold read at 1.
  cbv beta iota in *.
  destruct (CurseForgeProvider.isConfigured s) eqn:Hconf; cbn [negb] in *.
  - match goal with
    | |- context [tryCatch ?c ?h s t] =>
        destruct (tryCatch_cases c h s t)
          as [[[] [s1 [t1 [Hbody Htry]]]] | [e [s1 [t1 [Hbody Htry]]]]];
        rewrite Htry in *
    end.
    + exists s1, t1. split; [reflexivity |]. split; [exact Hkey |].
      split; [discriminate |]. intros _ [e He]. exfalso.
      unfold bind at 1 in Hbody. unfold log at 1, emit at 1 in Hbody. cbv beta iota in Hbody.
      unfold bind at 1 in Hbody. unfold outcome in He.
      destruct (CurseForgeProvider.request net "/v1/games" s _) as [[[a | e'] s2] t2];
        cbn [fst] in He; [discriminate He | discriminate Hbody].
    + eexists _, _. split; [reflexivity |]. split; [exact Hkey |].
      split; [discriminate |]. intros _ _. reflexivity.
  - exists s, t. split; [reflexivity |]. split; [reflexivity |].
    split; [auto | discriminate].
Qed.

End CurseForgeDiscovery.

(* ================================================================== *)
(** * The CurseForge adapter: search, categories, downloads *)
(* ================================================================== *)

Section CurseForgeOperations.
Import JS Eff.
Variable net : Upstream.
Variable Stream : Type.
Variable bodies : Bodies Stream.



(** The query holds one [index] and one [pageSize]. *)
Lemma curseForge_paging_pairs (s : CurseForgeProvider.state)
    (params : UnifiedSearchParams.t) (k text : string) :
  k = "index" \/ k = "pageSize" ->
  In (k, text) (CurseForgeProvider.searchQuery s params) ->
  (k, text) = ("index", ToString (int ((CurseForgeProvider.searchPage params - 1)
                                       * CurseForgeProvider.searchPageSize params)))
  \/ (k, text) = ("pageSize", ToString (int (CurseForgeProvider.searchPageSize params))).
Proof.
  intros Hk Hin. unfold CurseForgeProvider.searchQuery in Hin.
  repeat (apply List.in_app_or in Hin; destruct Hin as [Hin | Hin]).
  - destruct Hin as [Hin | []]. destruct Hk; subst k; discriminate Hin.
  - destruct (UnifiedSearchParams.query params) as [q |]; [| destruct Hin].
    destruct (truthy (Str q)); [| destruct Hin].
    destruct Hin as [Hin | []]. destruct Hk; subst k; discriminate Hin.
  - destruct (UnifiedSearchParams.classification params) as [c |]; [| destruct Hin].
    destruct (truthy (Str c)); [| destruct Hin].
    destruct (List.find _ _) as [[classId ?] |]; [| destruct Hin].
    destruct Hin as [Hin | []]. destruct Hk; subst k; discriminate Hin.
  - destruct (UnifiedSearchParams.categories params) as [[| c cs] |]; try destruct Hin.
    + destruct Hk; subst k; discriminate H.
    + destruct H.
  - destruct (UnifiedSearchParams.gameVersion params) as [g |]; [| destruct Hin].
    destruct (truthy (Str g)); [| destruct Hin].
    destruct Hin as [Hin | []]. destruct Hk; subst k; discriminate Hin.
  - destruct Hin as [Hin | [Hin | []]]; [left | right]; symmetry; exact Hin.
  - destruct (UnifiedSearchParams.sortBy params) as [f |]; [| destruct Hin].
    destruct (truthy (Str f)); [| destruct Hin].
    destruct Hin as [Hin | [Hin | []]]; destruct Hk; subst k; discriminate Hin.
Qed.

(** X20.  CurseForge paging, for a page and a size that are safe
    integers with a safe offset.  The query never asks for more than
    50 results: its one [pageSize] is the requested size capped at 50
    (50 when none is requested), and its one [index] is the requested
    page minus one times that capped size.  A page that came back from
    a request carries the requested page number and the capped size. *)
Theorem curseForge_page_size_is_capped (params : UnifiedSearchParams.t) s :
  Spec.safeOrAbsent (UnifiedSearchParams.page params) ->
  Spec.safeOrAbsent (UnifiedSearchParams.pageSize params) ->
  let requested := Spec.requestedOrElse (UnifiedSearchParams.pageSize params) 50 in
  let page := Spec.requestedOrElse (UnifiedSearchParams.page params) 1 in
  Spec.safeInteger ((page - 1) * Z.min requested 50) ->
  exists size,
    (size <= 50)%Z /\ (size <= requested)%Z /\ (size = requested \/ size = 50)
    /\ In ("pageSize", ToString (int size)) (CurseForgeProvider.searchQuery s params)
    /\ (forall text, In ("pageSize", text) (CurseForgeProvider.searchQuery s params) ->
          text = ToString (int size))
    /\ In ("index", ToString (int ((page - 1) * size)))
          (CurseForgeProvider.searchQuery s params)
    /\ (forall text, In ("index", text) (CurseForgeProvider.searchQuery s params) ->
          text = ToString (int ((page - 1) * size)))
    /\ forall t r s' t',
         CurseForgeProvider.searchProjects net params s t = (Ok r, s', t') ->
         truthy (CurseForgeProvider.hytaleGameId s') = true ->
         UnifiedSearchResponse.page r = int page
         /\ UnifiedSearchResponse.pageSize r = int size.
Proof.
  intros _ _ requested page _.
  exists (Z.min requested 50).
  split; [apply Z.le_min_r |]. split; [apply Z.le_min_l |].
  split; [destruct (Z.min_spec requested 50) as [[_ ->] | [_ ->]]; auto |].
  split; [| split; [| split; [| split]]].
  - unfold CurseForgeProvider.searchQuery.
    do 5 (apply List.in_or_app; right). apply List.in_or_app. left. right. left. reflexivity.
  - intros text Hin.
    destruct (@curseForge_paging_pairs s params "pageSize" text (or_intror eq_refl) Hin)
      as [H | H]; [discriminate H | injection H as ->; reflexivity].
  - unfold CurseForgeProvider.searchQuery.
    do 5 (apply List.in_or_app; right). apply List.in_or_app. left. left. reflexivity.
  - intros text Hin.
    destruct (@curseForge_paging_pairs s params "index" text (or_introl eq_refl) Hin)
      as [H | H]; [injection H as ->; reflexivity | discriminate H].
  - intros t r s' t' H Hgame.
    unfold CurseForgeProvider.searchProjects in H.
    unbind H. unbind H. unbind H.
    apply (f_equal (fun x => fst (fst x))) in Ha1 as Hread. cbn in Hread.
    unfold read in Ha1. injection Ha1 as <- <- <-.
    destruct (negb (truthy (CurseForgeProvider.hytaleGameId s1))) eqn:Hbranch.
    + unbind H. injection H as <- <- _.
      unfold log, emit in Ha1. injection Ha1 as _ <- _.
      rewrite Hgame in Hbranch. discriminate Hbranch.
    + unbind H. unbind H. apply lift_inv in H. destruct H as [H _].
      unfold CurseForgeProvider.searchResult in H.
      peel H. peel H. peel H. peel H. injection H as <-. split; reflexivity.
Qed.

(** X21.  CurseForge's completeness signal.  When the reply's pagination
    block holds safe integers whose sum [index + resultCount] is one as
    well, the result's [total] is [totalCount],
    [hasMore] says whether [index + resultCount] falls short of it, and
    there is one project per entry of [data]. *)
Theorem curseForge_hasMore_from_pagination
    (params : UnifiedSearchParams.t) (response : value) (items : list value)
    (index resultCount totalCount : Z) s r :
  prop response "data" = Arr items ->
  prop (prop response "pagination") "index" = int index ->
  prop (prop response "pagination") "resultCount" = int resultCount ->
  prop (prop response "pagination") "totalCount" = int totalCount ->
  Spec.safeInteger index -> Spec.safeInteger resultCount ->
  Spec.safeInteger totalCount -> Spec.safeInteger (index + resultCount) ->
  CurseForgeProvider.searchResult s params response = Ok r ->
  UnifiedSearchResponse.total r = int totalCount
  /\ UnifiedSearchResponse.hasMore r = (index + resultCount <? totalCount)%Z
  /\ List.length (UnifiedSearchResponse.projects r) = List.length items.
Proof.
  intros Hdata Hindex Hcount Htotal _ _ _ _ H.
  unfold CurseForgeProvider.searchResult in H.
  peel H. peel H. peel H. peel H. injection H as <-.
  cbn [UnifiedSearchResponse.total UnifiedSearchResponse.hasMore
       UnifiedSearchResponse.projects].
  assert (Ea : a = prop response "data") by (unfold prop; rewrite Ha; reflexivity).
  assert (Ea1 : a1 = prop response "pagination") by (unfold prop; rewrite Ha1; reflexivity).
  assert (Ea2 : a2 = prop a1 "totalCount") by (unfold prop; rewrite Ha2; reflexivity).
  subst a a1 a2. rewrite Hindex, Hcount, Htotal. split; [reflexivity |].
  split; [reflexivity |].
  rewrite Hdata in Ha0. cbn [JS.map] in Ha0. eapply mapR_length. exact Ha0.
Qed.

Lemma filterR_present (f : value -> result bool) (p : value -> bool) (items : list value) :
  (forall x, Spec.present x -> f x = Ok (p x)) ->
  Forall Spec.present items ->
  filterR f items = Ok (List.filter p items).
Proof.
  intros Hf. induction 1 as [| x items Hx _ IH]; simpl.
  - reflexivity.
  - rewrite (Hf x Hx). simpl. rewrite IH. simpl. reflexivity.
Qed.

Lemma get_present (v : value) (k : string) : Spec.present v -> get v k = Ok (prop v k).
Proof.
  intros [Hu Hn]. unfold prop. destruct v; try reflexivity; congruence.
Qed.

(** X22.  CurseForge's categories come from the adapter's cache.  Once the
    cache holds a non-empty array of plain entries, none of them
    [null], [getCategories] answers from it without a request: it returns the
    transformed entries whose [isClass] is truthy, in order, and
    nothing else. *)
Theorem curseForge_getCategories_from_cache (first : value) (others : list value) s t :
  CurseForgeProvider.categories s = Arr (first :: others) ->
  Forall Spec.present (first :: others) ->
  Forall (fun c => plain c = true) (first :: others) ->
  exists categories,
    CurseForgeProvider.getCategories net s t = (Ok categories, s, t)
    /\ mapR CurseForgeProvider.transformCategory
         (List.filter (fun c => truthy (prop c "isClass")) (first :: others))
       = Ok categories
    /\ List.map UnifiedCategory.name categories
       = List.map (fun c => prop c "name")
           (List.filter (fun c => truthy (prop c "isClass")) (first :: others)).
Proof.
  intros Hcache Hpresent _.
  set (classes := List.filter (fun c => truthy (prop c "isClass")) (first :: others)).
  assert (Hclasses : Forall Spec.present classes).
  { apply List.Forall_forall. intros x Hx. apply List.filter_In in Hx.
    destruct Hx as [Hx _]. revert x Hx. apply List.Forall_forall. exact Hpresent. }
  assert (Hall : forall xs, Forall Spec.present xs ->
            exists cs, mapR CurseForgeProvider.transformCategory xs = Ok cs
                       /\ List.map UnifiedCategory.name cs
                          = List.map (fun c => prop c "name") xs).
  { induction 1 as [| x xs Hx _ [cs [Hcs Hnames]]]; simpl.
    - exists []. split; reflexivity.
    - unfold CurseForgeProvider.transformCategory at 1.
      rewrite (present_nonNullish Hx). cbn [rbind]. rewrite Hcs. cbn [rbind].
      eexists. split; [reflexivity |]. simpl. rewrite Hnames. reflexivity. }
  destruct (Hall classes Hclasses) as [categories [Hmap Hnames]].
  exists categories. split; [| split; assumption].
  unfold CurseForgeProvider.getCategories, bind, read, lift, ret.
  rewrite Hcache. cbn [get List.length Z.of_nat]. rewrite String.eqb_refl.
  cbn [strictEq numEqb int Z.eqb andb]. rewrite Hcache. cbn [JS.filter].
  rewrite (@filterR_present _ (fun c => truthy (prop c "isClass")) (first :: others)).
  - fold classes. rewrite Hmap. reflexivity.
  - intros x Hx. rewrite (get_present "isClass" Hx). reflexivity.
  - exact Hpresent.
Qed.

End CurseForgeOperations.

Section CurseForgePayloads.
Import JS Eff.
Variable net : Upstream.
Variable Stream : Type.
Variable bodies : Bodies Stream.

(** X23.  Resolving a CurseForge download.  After the file lookup has
    answered, a truthy inline [downloadUrl] that is a plain value is
    fetched directly, once, with the key.  When that request is
    answered, the outcome is the reply's body, "Download failed: HTTP
    <status>" for a reply that is not ok, or "No response body
    received"; when it is rejected, the download throws.  Without an
    inline URL the adapter asks the download-url endpoint, and if that
    has none either it throws "Download URL not available for this
    file" without fetching anything further. *)
Theorem curseForge_download_resolves_url
    (projectId versionId key : string) (fileResponse : value) s t s1 t1 :
  CurseForgeProvider.apiKey s = Some key ->
  CurseForgeProvider.isConfigured s = true ->
  CurseForgeProvider.request net ("/v1/mods/" ++ projectId ++ "/files/" ++ versionId) s t
    = (Ok fileResponse, s1, t1) ->
  Spec.present fileResponse ->
  Spec.present (prop fileResponse "data") ->
  plain (prop (prop fileResponse "data") "downloadUrl") = true ->
  let downloadUrl := prop (prop fileResponse "data") "downloadUrl" in
  let n := List.length (List.filter isFetch t1) in
  (truthy downloadUrl = true ->
   List.filter isFetch
     (trace (CurseForgeProvider.downloadVersion net bodies projectId versionId s t))
   = (List.filter isFetch t1 ++ [Fetch (ToString downloadUrl) [("x-api-key", key)]])%list
   /\ (forall r, net n (ToString downloadUrl) = Responded r ->
         outcome (CurseForgeProvider.downloadVersion net bodies projectId versionId s t)
         = if ok r
           then match bodies n (ToString downloadUrl) with
                | Some body => Ok body
                | None => Throw (Error "No response body received")
                end
           else Throw (Error ("Download failed: HTTP " ++ ToString (int (status r)))))
   /\ (forall m, net n (ToString downloadUrl) = Rejected m ->
         exists e,
           outcome (CurseForgeProvider.downloadVersion net bodies projectId versionId s t)
           = Throw e))
  /\ (truthy downloadUrl = false ->
      forall urlResponse s2 t2,
        CurseForgeProvider.request net
          ("/v1/mods/" ++ projectId ++ "/files/" ++ versionId ++ "/download-url") s1 t1
          = (Ok urlResponse, s2, t2) ->
        Spec.present urlResponse ->
        truthy (prop urlResponse "data") = false ->
        CurseForgeProvider.downloadVersion net bodies projectId versionId s t
        = (Throw (Error "Download URL not available for this file"), s2, t2)).
Proof.
  intros Hkey Hconf Hfile Hresponse Hdata _ downloadUrl n. subst downloadUrl n.
  assert (Hstart :
    CurseForgeProvider.downloadVersion net bodies projectId versionId s t
    = bind (if negb (truthy (prop (prop fileResponse "data") "downloadUrl"))
            then
              urlResponse <- CurseForgeProvider.request net
                               ("/v1/mods/" ++ projectId ++ "/files/" ++ versionId
                                ++ "/download-url") ;;
              lift (get urlResponse "data")
            else ret (prop (prop fileResponse "data") "downloadUrl"))
         (fun downloadUrl =>
            if negb (truthy downloadUrl)
            then throw (Error "Download URL not available for this file")
            else
              log info ("[CurseForgeProvider] Downloading from: " ++ ToString downloadUrl) ;;;
              reply <- fetchStream net bodies (ToString downloadUrl) [("x-api-key", key)] ;;
              if negb (ok (fst reply))
              then throw (Error ("Download failed: HTTP "
                                 ++ ToString (int (status (fst reply)))))
              else match snd reply with
                   | Some body => ret body
                   | None => throw (Error "No response body received")
                   end) s1 t1).
  { unfold CurseForgeProvider.downloadVersion.
    unfold bind at 1. unfold read at 1. cbv beta iota. rewrite Hkey, Hconf. cbn [negb].
    unfold bind at 1. rewrite Hfile. cbv beta iota.
    unfold bind at 1. unfold lift at 1. rewrite (get_present "data" Hresponse). cbv beta iota.
    unfold bind at 1. unfold lift at 1. rewrite (get_present "downloadUrl" Hdata).
    cbv beta iota. reflexivity. }
  rewrite Hstart. split.
  - intros Hinline. split; [| split]; [| intros r Hnet | intros m Hnet].
    all: rewrite Hinline; cbn [negb]; unfold bind at 1; unfold ret at 1; cbv beta iota;
      rewrite Hinline; cbn [negb];
      unfold bind, log, emit, fetchStream, throw, ret, outcome, trace;
      rewrite fetches_after_log.
    + destruct (net _ _) as [m | r]; cbn [fst snd];
        [rewrite !List.filter_app; cbn; rewrite List.app_nil_r; reflexivity |].
      destruct (ok r); cbn [negb fst snd];
        [destruct (bodies _ _) |]; cbn [snd]; rewrite !List.filter_app; cbn;
        rewrite List.app_nil_r; reflexivity.
    + rewrite Hnet. cbn [fst snd].
      destruct (ok r); cbn [negb fst snd]; [| reflexivity].
      destruct (bodies _ _); reflexivity.
    + rewrite Hnet. eexists. reflexivity.
  - intros Hinline urlResponse s2 t2 Hurl Hpresent Hnone. rewrite Hinline. cbn [negb].
    unfold bind at 1. unfold bind at 1. rewrite Hurl. cbv beta iota.
    unfold lift at 1. rewrite (get_present "data" Hpresent). cbv beta iota.
    rewrite Hnone. reflexivity.
Qed.

Lemma map_ok_isArray {B} (v : value) (f : value -> result B) (ys : list B) :
  JS.map v f = Ok ys ->
  isArray v = true /\ forall items, v = Arr items -> List.length ys = List.length items.
Proof.
  destruct v; try discriminate. simpl. intros H. split; [reflexivity |].
  intros items' E. injection E as <-. eapply mapR_length. exact H.
Qed.

Lemma first_ok_present (v x : value) : JS.first v = Ok x -> Spec.present v.
Proof. destruct v; try discriminate; intros _; split; discriminate. Qed.

(** X24.  What the CurseForge transform insists on.  Whenever [transformMod]
    returns a project, the upstream mod had arrays under [latestFiles],
    [categories], [latestFilesIndexes] and [screenshots], a string
    [summary] and a present [authors]; the project is attributed to
    "curseforge", has one version per latest file and no tags, and
    names its author "Unknown" when [authors] is empty. *)
Theorem curseForge_transformMod_requirements
    (s : CurseForgeProvider.state) (mod_ : value) (p : UnifiedProject.t) :
  CurseForgeProvider.transformMod s mod_ = Ok p ->
  isArray (prop mod_ "latestFiles") = true
  /\ isArray (prop mod_ "categories") = true
  /\ isArray (prop mod_ "latestFilesIndexes") = true
  /\ isArray (prop mod_ "screenshots") = true
  /\ isString (prop mod_ "summary") = true
  /\ Spec.present (prop mod_ "authors")
  /\ UnifiedProject.providerId p = "curseforge"
  /\ UnifiedProject.tags p = None
  /\ (forall files, prop mod_ "latestFiles" = Arr files ->
        List.length (UnifiedProject.versions p) = List.length files)
  /\ (prop mod_ "authors" = Arr [] ->
        UnifiedAuthor.username (UnifiedProject.author p) = Str "Unknown").
Proof.
  unfold CurseForgeProvider.transformMod. intros H.
  peel H. peel H. peel H. peel H. peel H. peel H. peel H. peel H.
  injection H as <-.
  cbn [UnifiedProject.providerId UnifiedProject.tags UnifiedProject.versions
       UnifiedProject.author].
  destruct (map_ok_isArray _ _ Ha1) as [Hfiles Hlen].
  destruct (map_ok_isArray _ _ Ha2) as [Hcats _].
  destruct (map_ok_isArray _ _ Ha3) as [Hindexes _].
  destruct (map_ok_isArray _ _ Ha6) as [Hshots _].
  repeat split; try assumption.
  - destruct (prop mod_ "summary"); try discriminate Ha4. reflexivity.
  - apply (first_ok_present _ Ha0).
  - apply (first_ok_present _ Ha0).
  - intros Hnone. rewrite Hnone in Ha0. injection Ha0 as <-. reflexivity.
Qed.

Lemma sameValueZero_string (g : string) (v : value) :
  sameValueZero (Str g) v = true <-> v = Str g.
Proof.
  destruct v; simpl; split; intros H; try discriminate H.
  - apply String.eqb_eq in H. subst. reflexivity.
  - injection H as ->. apply String.eqb_refl.
Qed.

Lemma distinct_sublist (xs seen : list value) (x : value) :
  In x (CurseForgeProvider.distinct seen xs) -> In x xs.
Proof.
  revert seen. induction xs as [| y xs IH]; simpl; intros seen H.
  - exact H.
  - destruct (List.existsb (sameValueZero y) seen).
    + right. eapply IH. exact H.
    + destruct H as [H | H]; [left; exact H | right; eapply IH; exact H].
Qed.

Lemma distinct_strings (xs seen : list value) :
  NoDup (Spec.strings (CurseForgeProvider.distinct seen xs))
  /\ forall g, In g (Spec.strings (CurseForgeProvider.distinct seen xs)) ->
               ~ In (Str g) seen.
Proof.
  revert seen. induction xs as [| x xs IH]; simpl; intros seen.
  - split; [constructor | intros g []].
  - destruct (List.existsb (sameValueZero x) seen) eqn:Hseen; [apply IH |].
    destruct (IH (x :: seen)) as [Hnodup Hfresh].
    assert (Hrest : forall g, In g (Spec.strings (CurseForgeProvider.distinct (x :: seen) xs)) ->
                              ~ In (Str g) seen).
    { intros g Hg Hin. apply (Hfresh g Hg). right. exact Hin. }
    destruct x as [| | b | n | g | items | fields]; simpl; try (split; assumption).
    split.
    + constructor; [| exact Hnodup].
      intros Hg. apply (Hfresh g Hg). left. reflexivity.
    + intros h [<- | Hh]; [| apply Hrest; exact Hh].
      intros Hin.
      assert (List.existsb (sameValueZero (Str g)) seen = true) as Htrue.
      { apply List.existsb_exists. exists (Str g). split; [exact Hin |].
        apply sameValueZero_string. reflexivity. }
      congruence.
Qed.

(** X25.  The game versions of a CurseForge project form a set: every entry
    is truthy and no version string occurs twice. *)
Theorem curseForge_gameVersions_are_distinct
    (s : CurseForgeProvider.state) (mod_ : value) (p : UnifiedProject.t) :
  CurseForgeProvider.transformMod s mod_ = Ok p ->
  Forall (fun v => truthy v = true) (UnifiedProject.gameVersions p)
  /\ NoDup (Spec.strings (UnifiedProject.gameVersions p)).
Proof.
  unfold CurseForgeProvider.transformMod. intros H.
  peel H. peel H. peel H. peel H. peel H. peel H. peel H. peel H.
  injection H as <-. cbn [UnifiedProject.gameVersions]. split.
  - apply List.Forall_forall. intros v Hv. apply distinct_sublist in Hv.
    apply List.filter_In in Hv. exact (proj2 Hv).
  - apply distinct_strings.
Qed.

End CurseForgePayloads.

(* ================================================================== *)
(** * The statements above on the sample data *)
(* ================================================================== *)

Lemma present_object (fields : list (string * JS.value)) : Spec.present (JS.Obj fields).
Proof. split; discriminate. Qed.

Lemma present_string (s : string) : Spec.present (JS.Str s).
Proof. split; discriminate. Qed.

Lemma noNullEntries_undefined : Spec.noNullEntries JS.Undefined.
Proof. intros items H. discriminate H. Qed.

(** A freshly constructed Modtale adapter has no key. *)
Lemma modtale_without_key_sends_nothing_witness :
  ModtaleProvider.searchProjects (Samples.always JS.Null) Samples.page3size10
    ModtaleProvider.initial []
  = (JS.Throw (JS.Error "Modtale API key not configured"), ModtaleProvider.initial, []).
Proof.
  exact (proj1 (modtale_without_key_sends_nothing (Samples.always JS.Null)
                  Samples.noBodies Samples.page3size10 "p1" "v1" "one"
                  ModtaleProvider.initial [] eq_refl)).
Defined.

(** HTTP 404 with a JSON error body. *)
Lemma modtale_request_http_failure_witness :
  Eff.outcome (ModtaleProvider.request
                 (Samples.failing 404 "Not Found" "{...}"
                    (Some (JS.Obj [("message", JS.Str "No such project")])))
                 "/projects/p9" Samples.modtaleReady [])
  = JS.Throw (JS.Error "No such project").
Proof.
  exact (modtale_request_http_failure
           (Samples.failing 404 "Not Found" "{...}"
              (Some (JS.Obj [("message", JS.Str "No such project")])))
           "/projects/p9" (key := "key")
           (r := {| Eff.ok := false; Eff.status := 404; Eff.statusText := "Not Found";
                    Eff.text := "{...}";
                    Eff.json := Some (JS.Obj [("message", JS.Str "No such project")]) |})
           Samples.modtaleReady [] eq_refl eq_refl eq_refl eq_refl
           ltac:(intros body H; injection H as <-; reflexivity)).
Defined.

(** A payload with nothing but an author. *)
Lemma modtale_transformProject_tolerates_missing_fields_witness :
  exists p,
    ModtaleProvider.transformProject Samples.modtaleBarePayload = JS.Ok p
    /\ UnifiedProject.providerId p = "modtale"
    /\ UnifiedProject._raw p = Samples.modtaleBarePayload
    /\ (forall items, JS.prop Samples.modtaleBarePayload "versions" = JS.Arr items ->
          List.length (UnifiedProject.versions p) = List.length items)
    /\ (JS.isArray (JS.prop Samples.modtaleBarePayload "versions") = false ->
          UnifiedProject.versions p = [] /\ UnifiedProject.latestVersion p = None).
Proof.
  apply (modtale_transformProject_tolerates_missing_fields
           (project := Samples.modtaleBarePayload)).
  - reflexivity.
  - apply present_object.
  - apply present_string.
  - apply noNullEntries_undefined.
  - apply noNullEntries_undefined.
Defined.

(** One authorless project between two good ones. *)
Lemma modtale_project_without_author_fails_the_page_witness :
  ModtaleProvider.searchResult Samples.page3size10
    (Samples.modtalePagedReply 2
       [Samples.modtalePayload; Samples.modtaleAuthorless; Samples.modtalePayload])
    Samples.modtaleReady []
  = (JS.Throw JS.TypeError, Samples.modtaleReady, []).
Proof.
  apply (modtale_project_without_author_fails_the_page Samples.page3size10
           (Samples.modtalePagedReply 2
              [Samples.modtalePayload; Samples.modtaleAuthorless; Samples.modtalePayload])
           Samples.modtaleAuthorless
           (items := [Samples.modtalePayload; Samples.modtaleAuthorless;
                      Samples.modtalePayload])).
  - left. reflexivity.
  - reflexivity.
  - reflexivity.
  - right. left. reflexivity.
Defined.

(** Page 7: sent as 6, reported as 6, returned as 7. *)
Lemma modtale_page_round_trip_witness :
  In ("page", "6") (ModtaleProvider.searchQuery Samples.page7)
  /\ In ("size", "200") (ModtaleProvider.searchQuery Samples.page7)
  /\ exists r s' t',
       ModtaleProvider.searchResult Samples.page7 (Samples.modtalePagedReply 6 [])
         Samples.modtaleReady [] = (JS.Ok r, s', t')
       /\ UnifiedSearchResponse.page r = JS.int 7.
Proof.
  destruct (ModtaleProvider.searchResult Samples.page7 (Samples.modtalePagedReply 6 [])
              Samples.modtaleReady []) as [[[r | e] s'] t'] eqn:Hrun;
    [| vm_compute in Hrun; discriminate Hrun].
  destruct (@modtale_page_round_trip Samples.page7 (Samples.modtalePagedReply 6 [])
              Samples.modtaleReady [] r s' t') as [Hpage [Hsize Hback]];
    [reflexivity | reflexivity | reflexivity | reflexivity | exact Hrun |].
  split; [exact Hpage |]. split; [exact Hsize |].
  exists r, s', t'. split; [reflexivity | exact Hback].
Defined.

(** Two projects in a bare array, asked for ten per page. *)
Lemma modtale_bare_array_page_witness :
  exists r,
    ModtaleProvider.searchResult Samples.page3size10
      (JS.Arr [Samples.modtalePayload; Samples.modtaleBarePayload]) Samples.modtaleReady []
    = (JS.Ok r, Samples.modtaleReady, [])
    /\ UnifiedSearchResponse.total r = JS.int 2
    /\ UnifiedSearchResponse.hasMore r = false.
Proof.
  eexists. split; [reflexivity |].
  destruct (modtale_bare_array_page Samples.page3size10
              [Samples.modtalePayload; Samples.modtaleBarePayload]
              Samples.modtaleReady [] (s' := Samples.modtaleReady) (t' := [])
              eq_refl) as [_ [Htotal [_ [_ [Hmore _]]]]].
  split; [exact Htotal | exact Hmore].
Defined.

(** Two classifications. *)
Lemma modtale_getCategories_from_classifications_witness :
  exists categories,
    Eff.outcome (ModtaleProvider.getCategories
                   (Samples.always (JS.Arr [JS.Str "PLUGIN"; JS.Str "ART"]))
                   Samples.modtaleReady [])
    = JS.Ok categories
    /\ List.map UnifiedCategory.name categories = [JS.Str "Plugin"; JS.Str "Art"]
    /\ List.length categories = 2%nat.
Proof.
  eexists. split; [reflexivity |]. split; [reflexivity |].
  destruct (modtale_getCategories_from_classifications
              (Samples.always (JS.Arr [JS.Str "PLUGIN"; JS.Str "ART"]))
              Samples.modtaleReady [] eq_refl) as [items [Hrequest Hall]].
  injection Hrequest as <-.
  inversion Hall as [| ? ? ? ? _ Hrest]; subst.
  inversion Hrest as [| ? ? ? ? _ Hnil]; subst.
  inversion Hnil. reflexivity.
Defined.

(** A download that is answered with a body. *)
Lemma modtale_downloadVersion_outcomes_witness :
  Eff.outcome (ModtaleProvider.downloadVersion (Samples.always JS.Null) Samples.someBody
                 "p1" "v1" Samples.modtaleReady [])
  = JS.Ok "bytes from https://api.modtale.net/api/v1/projects/p1/versions/v1/download".
Proof.
  exact (proj1 (modtale_downloadVersion_outcomes (Samples.always JS.Null) Samples.someBody
                  "p1" "v1" (key := "key") Samples.modtaleReady [] eq_refl eq_refl)).
Defined.


(** Page 3 of size 10: one [pageSize=10] and one [index=20]. *)
Lemma curseForge_page_size_is_capped_witness :
  In ("pageSize", "10")
     (CurseForgeProvider.searchQuery Samples.curseForgeReady Samples.page3size10)
  /\ (forall text,
        In ("pageSize", text)
           (CurseForgeProvider.searchQuery Samples.curseForgeReady Samples.page3size10) ->
        text = "10")
  /\ In ("index", "20")
        (CurseForgeProvider.searchQuery Samples.curseForgeReady Samples.page3size10).
Proof.
  destruct (@curseForge_page_size_is_capped (Samples.always JS.Null) Samples.page3size10
              Samples.curseForgeReady eq_refl eq_refl eq_refl)
    as [size [Hcap [Hle [Hsize [Hin [Honly [Hindex _]]]]]]].
  assert (Hten : size = 10).
  { destruct Hsize as [-> | ->]; [reflexivity | compute in Hle; contradiction]. }
  subst size. split; [exact Hin |]. split; [exact Honly | exact Hindex].
Defined.

(** Entries 20 to 29 of 45: there is more. *)
Lemma curseForge_hasMore_from_pagination_witness :
  exists r,
    CurseForgeProvider.searchResult Samples.curseForgeReady Samples.page3size10
      Samples.curseForgeSearchReply = JS.Ok r
    /\ UnifiedSearchResponse.total r = JS.int 45
    /\ UnifiedSearchResponse.hasMore r = true
    /\ List.length (UnifiedSearchResponse.projects r) = 1%nat.
Proof.
  eexists. split; [reflexivity |].
  exact (curseForge_hasMore_from_pagination Samples.page3size10
           Samples.curseForgeSearchReply
           (items := [Samples.curseForgeMod]) (index := 20) (resultCount := 10)
           (totalCount := 45) Samples.curseForgeReady
           eq_refl eq_refl eq_refl eq_refl eq_refl eq_refl eq_refl eq_refl eq_refl).
Defined.

(** A cache of one class and one sub-category. *)
Lemma curseForge_getCategories_from_cache_witness :
  exists categories,
    CurseForgeProvider.getCategories (Samples.always JS.Null) Samples.curseForgeCached []
      = (JS.Ok categories, Samples.curseForgeCached, [])
    /\ List.map UnifiedCategory.name categories = [JS.Str "Mods"].
Proof.
  destruct (curseForge_getCategories_from_cache (Samples.always JS.Null)
              (first := Samples.curseForgeClass) (others := [Samples.curseForgeSubcategory])
              Samples.curseForgeCached [] eq_refl) as [categories [Hrun [_ Hnames]]].
  - repeat constructor; discriminate.
  - repeat constructor.
  - exists categories. split; [exact Hrun | exact Hnames].
Defined.

(** A file whose reply carries its download URL. *)
Lemma curseForge_download_resolves_url_witness :
  Eff.outcome (CurseForgeProvider.downloadVersion
                 (Samples.always Samples.curseForgeFileReply) Samples.someBody
                 "9" "77" Samples.curseForgeReady [])
  = JS.Ok "bytes from https://cdn.example/one.jar"
  /\ List.filter Eff.isFetch
       (Eff.trace (CurseForgeProvider.downloadVersion
                     (Samples.always Samples.curseForgeFileReply) Samples.someBody
                     "9" "77" Samples.curseForgeReady []))
     = [Eff.Fetch "https://api.curseforge.com/v1/mods/9/files/77"
          [("x-api-key", "key"); ("Content-Type", "application/json")];
        Eff.Fetch "https://cdn.example/one.jar" [("x-api-key", "key")]].
Proof.
  destruct (curseForge_download_resolves_url
              (Samples.always Samples.curseForgeFileReply) Samples.someBody
              "9" "77" (key := "key") (fileResponse := Samples.curseForgeFileReply)
              Samples.curseForgeReady []
              (s1 := Samples.curseForgeReady)
              (t1 := [Eff.Log Eff.info
                        "[CurseForgeProvider] Fetching: https://api.curseforge.com/v1/mods/9/files/77";
                      Eff.Fetch "https://api.curseforge.com/v1/mods/9/files/77"
                        [("x-api-key", "key"); ("Content-Type", "application/json")]])
              eq_refl eq_refl eq_refl
              (present_object _) (present_object _) eq_refl) as [Hinline _].
  destruct (Hinline eq_refl) as [Hsent [Hanswered _]].
  split.
  - exact (Hanswered _ eq_refl).
  - exact Hsent.
Defined.

(** A mod without authors or files. *)
Lemma curseForge_transformMod_requirements_witness :
  exists p,
    CurseForgeProvider.transformMod Samples.curseForgeReady Samples.curseForgeVersionedMod
      = JS.Ok p
    /\ UnifiedAuthor.username (UnifiedProject.author p) = JS.Str "Unknown"
    /\ UnifiedProject.providerId p = "curseforge".
Proof.
  eexists. split; [reflexivity |].
  destruct (curseForge_transformMod_requirements Samples.curseForgeReady
              Samples.curseForgeVersionedMod eq_refl)
    as [_ [_ [_ [_ [_ [_ [Hid [_ [_ Hunknown]]]]]]]]].
  split; [apply Hunknown; reflexivity | exact Hid].
Defined.

(** "1.0" is indexed twice and one index has no version. *)
Lemma curseForge_gameVersions_are_distinct_witness :
  exists p,
    CurseForgeProvider.transformMod Samples.curseForgeReady Samples.curseForgeVersionedMod
      = JS.Ok p
    /\ UnifiedProject.gameVersions p = [JS.Str "1.0"; JS.Str "1.1"]
    /\ NoDup (Spec.strings (UnifiedProject.gameVersions p)).
Proof.
  eexists. split; [reflexivity |]. split; [reflexivity |].
  exact (proj2 (curseForge_gameVersions_are_distinct Samples.curseForgeReady
                  Samples.curseForgeVersionedMod eq_refl)).
Defined.

(* ================================================================== *)
(** * Search parameters between the browser, the route and the adapters *)
(* ================================================================== *)

Section SearchParameters.
Import JS.

(** ** Decimal text *)

Lemma leadingDigits_acc (d : Decimal.uint) : forall acc : positive,
  leadingDigits (Some (Z.pos acc)) (NilEmpty.string_of_uint d)
  = Some (Z.pos (Pos.of_uint_acc d acc)).
Proof.
  induction d; intros acc;
    cbn [NilEmpty.string_of_uint leadingDigits Pos.of_uint_acc];
    [reflexivity | ..];
    (match goal with
     | |- context [digit ?c] =>
         let r := eval vm_compute in (digit c) in change (digit c) with r
     end; cbv beta iota; rewrite <- IHd; do 2 f_equal; lia).
Qed.

Lemma leadingDigits_zero (d : Decimal.uint) :
  leadingDigits (Some 0) (NilEmpty.string_of_uint d) = Some (Z.of_N (Pos.of_uint d)).
Proof.
  induction d;
    cbn [NilEmpty.string_of_uint leadingDigits Pos.of_uint];
    [reflexivity | ..];
    (match goal with
     | |- context [digit ?c] =>
         let r := eval vm_compute in (digit c) in change (digit c) with r
     end; cbv beta iota);
    [exact IHd | ..]; apply leadingDigits_acc.
Qed.

Lemma leadingDigits_uint (d : Decimal.uint) :
  d <> Decimal.Nil ->
  leadingDigits None (NilEmpty.string_of_uint d) = Some (Z.of_N (Pos.of_uint d)).
Proof.
  intros Hd. rewrite <- leadingDigits_zero.
  destruct d; [contradiction | ..]; reflexivity.
Qed.

Lemma parseInt10_uint (d : Decimal.uint) :
  d <> Decimal.Nil ->
  parseInt10 (NilEmpty.string_of_uint d) = Num (Z.of_N (Pos.of_uint d)).
Proof.
  intros Hd. pose proof (leadingDigits_uint Hd) as H.
  destruct d; [contradiction | ..];
    unfold parseInt10; cbn [NilEmpty.string_of_uint trimStart] in *;
    (match goal with
     | |- context [isWhitespace ?c] =>
         let r := eval vm_compute in (isWhitespace c) in change (isWhitespace c) with r
     end; cbv beta iota; rewrite H; f_equal; lia).
Qed.

(** [parseInt] reads back the decimal text of every whole number. *)
Lemma parseInt10_ToString (z : Z) : parseInt10 (ToString (int z)) = Num z.
Proof.
  destruct z as [| p | p]; [reflexivity | |];
    cbn [ToString int numberToString Z.to_int NilZero.string_of_int];
    pose proof (Unsigned.to_uint_nonnil p) as Hd;
    pose proof (Unsigned.of_to p) as Hp;
    unfold NilZero.string_of_uint;
    destruct (Pos.to_uint p) eqn:E; try contradiction.
  all: try (rewrite (parseInt10_uint Hd), Hp; reflexivity).
  all: unfold parseInt10; cbn [trimStart];
    change (isWhitespace "-"%char) with false; cbv beta iota;
    rewrite (leadingDigits_uint Hd), Hp; reflexivity.
Qed.

(** ** [split] and [join] *)

Lemma split_nonempty (sep : ascii) (s : string) : split sep s <> [].
Proof.
  destruct s as [| c rest]; cbn [split]; [discriminate |].
  destruct (Ascii.eqb c sep); [discriminate |].
  destruct (split sep rest); discriminate.
Qed.

(** Joining the pieces of a string gives the string back. *)
Lemma concat_split (s : string) : String.concat "," (split ","%char s) = s.
Proof.
  induction s as [| c rest IH]; [reflexivity |].
  cbn [split]. destruct (Ascii.eqb c ","%char) eqn:Hc.
  - apply Ascii.eqb_eq in Hc. subst c.
    pose proof (@split_nonempty ","%char rest) as Hne.
    destruct (split ","%char rest) as [| piece pieces] eqn:E; [contradiction |].
    change (String.concat "," ("" :: piece :: pieces))
      with ("" ++ "," ++ String.concat "," (piece :: pieces)).
    rewrite IH. reflexivity.
  - pose proof (@split_nonempty ","%char rest) as Hne.
    destruct (split ","%char rest) as [| piece pieces] eqn:E; [contradiction |].
    destruct pieces as [| next others].
    + change (String.concat "," [piece]) with piece in IH.
      change (String.concat "," [String c piece]) with (String c piece).
      rewrite IH. reflexivity.
    + change (String.concat "," (piece :: next :: others))
        with (piece ++ "," ++ String.concat "," (next :: others)) in IH.
      change (String.concat "," (String c piece :: next :: others))
        with (String c (piece ++ "," ++ String.concat "," (next :: others))).
      rewrite IH. reflexivity.
Qed.

Lemma split_commaFree (s : string) :
  Spec.commaFree s = true -> split ","%char s = [s].
Proof.
  induction s as [| c rest IH]; [reflexivity |].
  cbn [Spec.commaFree split]. intros H. apply andb_prop in H. destruct H as [Hc Hrest].
  apply negb_true_iff in Hc. rewrite Hc, (IH Hrest). reflexivity.
Qed.

Lemma split_append (s rest : string) :
  Spec.commaFree s = true ->
  split ","%char (s ++ "," ++ rest) = s :: split ","%char rest.
Proof.
  induction s as [| c s' IH]; intros H.
  - reflexivity.
  - cbn [Spec.commaFree] in H. apply andb_prop in H. destruct H as [Hc Hs'].
    apply negb_true_iff in Hc.
    change (String c s' ++ "," ++ rest) with (String c (s' ++ "," ++ rest)).
    cbn [split]. rewrite Hc, (IH Hs'). reflexivity.
Qed.

(** Splitting the join of comma-free pieces gives the pieces back. *)
Lemma split_concat (l : list string) :
  l <> [] -> Forall (fun s => Spec.commaFree s = true) l ->
  split ","%char (String.concat "," l) = l.
Proof.
  induction l as [| s rest IH]; intros Hne Hall; [contradiction |].
  inversion Hall as [| ? ? Hs Hrest]; subst.
  destruct rest as [| next others].
  - cbn [String.concat]. apply split_commaFree. exact Hs.
  - change (String.concat "," (s :: next :: others))
      with (s ++ "," ++ String.concat "," (next :: others)).
    rewrite (@split_append s _ Hs), IH; [reflexivity | discriminate | exact Hrest].
Qed.

Lemma map_Str_injective (l l' : list string) :
  List.map Str l = List.map Str l' -> l = l'.
Proof.
  revert l'. induction l as [| x xs IH]; intros [| y ys] H; try discriminate H.
  - reflexivity.
  - cbn [List.map] in H. injection H as Hx Hxs. rewrite Hx, (IH _ Hxs). reflexivity.
Qed.

(** ** Property reads on the objects built *)

Lemma lookup_app (k : string) (a b : list (string * value)) :
  lookup k (a ++ b)%list
  = match lookup k a with Some v => Some v | None => lookup k b end.
Proof.
  induction a as [| [k' v] rest IH]; [reflexivity |].
  cbn [lookup List.app]. destruct (String.eqb k k'); [reflexivity | exact IH].
Qed.

Lemma lookup_assigned (k : string) (present : bool) (k' : string) (v : value) :
  lookup k (ModsRoutes.assigned present k' v)
  = if present && String.eqb k k' then Some v else None.
Proof.
  unfold ModsRoutes.assigned. destruct present; cbn [lookup andb]; [| reflexivity].
  destruct (String.eqb k k'); reflexivity.
Qed.

Lemma lookup_appended {A} (k : string) (field : option A) (present : A -> bool)
    (k' : string) (text : A -> string) :
  lookup k (ModsRoutes.queryOf (ModProviderApi.appended field present k' text))
  = if String.eqb k k'
    then match field with
         | Some x => if present x then Some (Str (text x)) else None
         | None => None
         end
    else None.
Proof.
  unfold ModProviderApi.appended, ModsRoutes.queryOf.
  destruct field as [x |]; [| destruct (String.eqb k k'); reflexivity].
  destruct (present x); cbn [List.map lookup fst snd];
    destruct (String.eqb k k'); reflexivity.
Qed.

Lemma queryOf_app (a b : list (string * string)) :
  ModsRoutes.queryOf (a ++ b)%list = (ModsRoutes.queryOf a ++ ModsRoutes.queryOf b)%list.
Proof. apply List.map_app. Qed.

Ltac keys :=
  repeat match goal with
         | |- context [String.eqb (String ?c ?r) (String ?c' ?r')] =>
             let b := eval vm_compute in (String.eqb (String c r) (String c' r')) in
             change (String.eqb (String c r) (String c' r')) with b
         end;
  rewrite ?andb_false_r, ?andb_true_r; cbv beta iota.

(** The property [k] of the object [parseSearchParams] builds. *)
Ltac parsed :=
  unfold ModsRoutes.parseSearchParams, prop; cbn [get];
  rewrite ?lookup_app, ?lookup_assigned; keys;
  match goal with
  | |- context [if ?c then Some _ else None] => destruct c
  end; reflexivity.

(** The properties of [req.query] for the pairs [buildSearchQuery] appends. *)
Ltac built :=
  unfold ModProviderApi.buildSearchQuery, prop; cbn [get];
  rewrite ?queryOf_app, ?lookup_app, ?lookup_appended; keys.

Ltac fields :=
  cbn [UnifiedSearchParams.query UnifiedSearchParams.classification
       UnifiedSearchParams.categories UnifiedSearchParams.tags
       UnifiedSearchParams.gameVersion UnifiedSearchParams.page
       UnifiedSearchParams.pageSize UnifiedSearchParams.sortBy
       UnifiedSearchParams.sortOrder].

Lemma parsed_query (query : list (string * value)) :
  prop (ModsRoutes.parseSearchParams query) "query"
  = if truthy (or (prop (Obj query) "q") (prop (Obj query) "query"))
    then Str (ToString (or (prop (Obj query) "q") (prop (Obj query) "query")))
    else Undefined.
Proof. parsed. Qed.

Lemma parsed_classification (query : list (string * value)) :
  prop (ModsRoutes.parseSearchParams query) "classification"
  = if truthy (prop (Obj query) "classification")
    then prop (Obj query) "classification" else Undefined.
Proof. parsed. Qed.

Lemma parsed_categories (query : list (string * value)) :
  prop (ModsRoutes.parseSearchParams query) "categories"
  = if truthy (prop (Obj query) "categories")
    then if isArray (prop (Obj query) "categories") then prop (Obj query) "categories"
         else Arr (List.map Str (split ","%char (ToString (prop (Obj query) "categories"))))
    else Undefined.
Proof. parsed. Qed.

Lemma parsed_tags (query : list (string * value)) :
  prop (ModsRoutes.parseSearchParams query) "tags"
  = if truthy (prop (Obj query) "tags")
    then if isArray (prop (Obj query) "tags") then prop (Obj query) "tags"
         else Arr (List.map Str (split ","%char (ToString (prop (Obj query) "tags"))))
    else Undefined.
Proof. parsed. Qed.

Lemma parsed_gameVersion (query : list (string * value)) :
  prop (ModsRoutes.parseSearchParams query) "gameVersion"
  = if truthy (prop (Obj query) "gameVersion")
    then Str (ToString (prop (Obj query) "gameVersion")) else Undefined.
Proof. parsed. Qed.

Lemma parsed_page (query : list (string * value)) :
  prop (ModsRoutes.parseSearchParams query) "page"
  = if negb (strictEq (prop (Obj query) "page") Undefined)
    then or (Number (parseInt10 (ToString (prop (Obj query) "page")))) (int 1)
    else Undefined.
Proof. parsed. Qed.

Lemma parsed_pageSize (query : list (string * value)) :
  prop (ModsRoutes.parseSearchParams query) "pageSize"
  = if truthy (or (prop (Obj query) "pageSize") (prop (Obj query) "limit"))
    then or (Number (parseInt10 (ToString (or (prop (Obj query) "pageSize")
                                              (prop (Obj query) "limit")))))
            (int 50)
    else Undefined.
Proof. parsed. Qed.

Lemma parsed_sortBy (query : list (string * value)) :
  prop (ModsRoutes.parseSearchParams query) "sortBy"
  = if truthy (prop (Obj query) "sortBy") then prop (Obj query) "sortBy" else Undefined.
Proof. parsed. Qed.

Lemma parsed_sortOrder (query : list (string * value)) :
  prop (ModsRoutes.parseSearchParams query) "sortOrder"
  = if truthy (prop (Obj query) "sortOrder") then prop (Obj query) "sortOrder"
    else Undefined.
Proof. parsed. Qed.

Lemma or_number_nonZero (n : number) (fallback : Z) :
  fallback <> 0 ->
  Spec.nonZeroInteger (or (Number n) (int fallback))
  /\ (or (Number n) (int fallback) = Number n \/ or (Number n) (int fallback) = int fallback).
Proof.
  intros Hf. unfold or, Spec.nonZeroInteger. destruct n as [z |]; cbn [truthy].
  - destruct (Z.eqb_spec z 0) as [-> | Hz]; cbn [negb].
    + split; [exists fallback; split; [reflexivity | exact Hf] | right; reflexivity].
    + split; [exists z; split; [reflexivity | exact Hz] | left; reflexivity].
  - split; [exists fallback; split; [reflexivity | exact Hf] | right; reflexivity].
Qed.

(** ** The route's parser *)

(** X26.  [page] is set exactly when the query has a [page], [pageSize]
    exactly when [pageSize] or else [limit] is truthy; a number that is
    set is a whole number other than zero: what [parseInt] read, or 1
    (for the page) and 50 (for the page size) when that was [NaN] or
    zero. *)
Theorem parseSearchParams_numbers (query : list (string * value)) :
  let raw := ModsRoutes.parseSearchParams query in
  let size := or (prop (Obj query) "pageSize") (prop (Obj query) "limit") in
  (prop (Obj query) "page" = Undefined -> prop raw "page" = Undefined)
  /\ (prop (Obj query) "page" <> Undefined ->
      Spec.nonZeroInteger (prop raw "page")
      /\ (prop raw "page" = Number (parseInt10 (ToString (prop (Obj query) "page")))
          \/ prop raw "page" = int 1))
  /\ (truthy size = false -> prop raw "pageSize" = Undefined)
  /\ (truthy size = true ->
      Spec.nonZeroInteger (prop raw "pageSize")
      /\ (prop raw "pageSize" = Number (parseInt10 (ToString size))
          \/ prop raw "pageSize" = int 50)).
Proof.
  cbv zeta. rewrite parsed_page, parsed_pageSize. repeat split.
  - intros ->. reflexivity.
  - destruct (prop (Obj query) "page"); try contradiction; cbn [strictEq negb];
      apply or_number_nonZero; discriminate.
  - destruct (prop (Obj query) "page"); try contradiction; cbn [strictEq negb];
      apply or_number_nonZero; discriminate.
  - intros ->. reflexivity.
  - rewrite H. apply or_number_nonZero. discriminate.
  - rewrite H. apply or_number_nonZero. discriminate.
Qed.

Lemma concat_nonempty (l : list string) :
  l <> [] -> l <> [""] -> String.concat "," l <> "".
Proof.
  intros Hne Hone. destruct l as [| s [| next others]]; [contradiction | |].
  - cbn [String.concat]. intros ->. contradiction.
  - change (String.concat "," (s :: next :: others))
      with (s ++ "," ++ String.concat "," (next :: others)).
    destruct s; discriminate.
Qed.

Lemma or_truthy (a b : value) : truthy a = true -> or a b = a.
Proof. intros H. unfold or. rewrite H. reflexivity. Qed.

Lemma truthy_Str (s : string) : s <> "" -> truthy (Str s) = true.
Proof. intros H. destruct s; [contradiction | reflexivity]. Qed.

Lemma truthy_length {A} (x : A) (xs : list A) :
  truthy (int (Z.of_nat (List.length (x :: xs)))) = true.
Proof. reflexivity. Qed.

Lemma search_params_read_back (params : UnifiedSearchParams.t) :
  Spec.sendable params ->
  Spec.typed
    (ModsRoutes.parseSearchParams
       (ModsRoutes.queryOf (ModProviderApi.buildSearchQuery params)))
    params.
Proof.
  destruct params as [query classification categories tags gameVersion page pageSize
                        sortBy sortOrder].
  unfold Spec.sendable, Spec.typed.
  cbn [UnifiedSearchParams.query UnifiedSearchParams.classification
       UnifiedSearchParams.categories UnifiedSearchParams.tags
       UnifiedSearchParams.gameVersion UnifiedSearchParams.page
       UnifiedSearchParams.pageSize UnifiedSearchParams.sortBy
       UnifiedSearchParams.sortOrder].
  intros (Hquery & Hclassification & Hcategories & Htags & HgameVersion & Hpage
          & HpageSize & HsortBy & HsortOrder).
  repeat split.
  - rewrite parsed_query. built. fields.
    destruct query as [[| c q] |]; [contradiction | reflexivity | reflexivity].
  - rewrite parsed_classification. built. fields.
    destruct classification as [[| c q] |]; [contradiction | reflexivity | reflexivity].
  - rewrite parsed_categories. built. fields.
    destruct categories as [[| c cs] |]; cbn [Spec.listed] in Hcategories;
      [destruct Hcategories as [Hne _]; contradiction | | reflexivity].
    destruct Hcategories as (Hne & Hone & Hfree).
    rewrite truthy_length. cbv beta iota.
    rewrite (truthy_Str (concat_nonempty Hne Hone)).
    cbn [isArray ToString Spec.ofStrings]. rewrite (split_concat Hne Hfree). reflexivity.
  - rewrite parsed_tags. built. fields.
    destruct tags as [[| c cs] |]; cbn [Spec.listed] in Htags;
      [destruct Htags as [Hne _]; contradiction | | reflexivity].
    destruct Htags as (Hne & Hone & Hfree).
    rewrite truthy_length. cbv beta iota.
    rewrite (truthy_Str (concat_nonempty Hne Hone)).
    cbn [isArray ToString Spec.ofStrings]. rewrite (split_concat Hne Hfree). reflexivity.
  - rewrite parsed_gameVersion. built. fields.
    destruct gameVersion as [[| c q] |]; [contradiction | reflexivity | reflexivity].
  - rewrite parsed_page. built. fields.
    destruct page as [n |]; [| reflexivity]. destruct Hpage as [Hnz _].
    assert (Hn : truthy (int n) = true).
    { cbn [truthy int]. destruct (Z.eqb_spec n 0) as [-> | _]; [contradiction | reflexivity]. }
    rewrite Hn. cbv beta iota. cbn [strictEq negb ToString].
    change (numberToString (Num n)) with (ToString (int n)).
    rewrite parseInt10_ToString. unfold or. fold (int n). rewrite Hn. reflexivity.
  - rewrite parsed_pageSize. built. fields.
    destruct pageSize as [n |]; [| reflexivity]. destruct HpageSize as [Hnz _].
    assert (Hn : truthy (int n) = true).
    { cbn [truthy int]. destruct (Z.eqb_spec n 0) as [-> | _]; [contradiction | reflexivity]. }
    rewrite Hn. cbv beta iota.
    assert (Hs : truthy (Str (ToString (int n))) = true).
    { apply truthy_Str. intros Hempty. pose proof (parseInt10_ToString n) as Hparse.
      rewrite Hempty in Hparse. discriminate Hparse. }
    rewrite (@or_truthy _ Undefined Hs), Hs.
    change (ToString (Str (ToString (int n)))) with (ToString (int n)).
    rewrite parseInt10_ToString. apply or_truthy. exact Hn.
  - rewrite parsed_sortBy. built. fields.
    destruct sortBy as [[| c q] |]; [contradiction | reflexivity | reflexivity].
  - rewrite parsed_sortOrder. built. fields.
    destruct sortOrder as [[| c q] |]; [contradiction | reflexivity | reflexivity].
Qed.

Lemma ofString_injective (a b : option string) : ofString a = ofString b -> a = b.
Proof. destruct a, b; intros H; try discriminate H; [injection H as -> |]; reflexivity. Qed.

Lemma ofNumber_injective (a b : option Z) : ofNumber a = ofNumber b -> a = b.
Proof. destruct a, b; intros H; try discriminate H; [injection H as -> |]; reflexivity. Qed.

Lemma ofStrings_injective (a b : option (list string)) :
  Spec.ofStrings a = Spec.ofStrings b -> a = b.
Proof.
  destruct a, b; intros H; try discriminate H; [| reflexivity].
  injection H as H. rewrite (map_Str_injective _ _ H). reflexivity.
Qed.

(** An object has at most one typed reading. *)
Lemma typed_unique (raw : value) (p p' : UnifiedSearchParams.t) :
  Spec.typed raw p -> Spec.typed raw p' -> p' = p.
Proof.
  destruct p, p'. unfold Spec.typed. fields.
  intros (H1 & H2 & H3 & H4 & H5 & H6 & H7 & H8 & H9)
         (G1 & G2 & G3 & G4 & G5 & G6 & G7 & G8 & G9).
  rewrite H1 in G1. rewrite H2 in G2. rewrite H3 in G3. rewrite H4 in G4.
  rewrite H5 in G5. rewrite H6 in G6. rewrite H7 in G7. rewrite H8 in G8.
  rewrite H9 in G9.
  apply ofString_injective in G1, G2, G5, G8, G9.
  apply ofStrings_injective in G3, G4.
  apply ofNumber_injective in G6, G7.
  congruence.
Qed.

(** X27.  Search parameters survive the trip from the browser to the
    route.  For parameters without an empty string, a zero or a
    number of 2^53 or more, an empty list, the list of the empty string
    alone or a comma inside a list entry, the object [parseSearchParams] builds from the pairs
    [buildSearchQuery] appended reads as these parameters and as no
    others. *)
Theorem search_params_round_trip (params : UnifiedSearchParams.t) :
  Spec.sendable params ->
  forall received,
    Spec.typed
      (ModsRoutes.parseSearchParams
         (ModsRoutes.queryOf (ModProviderApi.buildSearchQuery params)))
      received
    <-> received = params.
Proof.
  intros Hsendable received. split.
  - intros Hreceived. exact (typed_unique (search_params_read_back Hsendable) Hreceived).
  - intros ->. exact (search_params_read_back Hsendable).
Qed.

(** ** From the query string to the upstream request *)

Lemma typed_list (s : string) (field : option (list string)) :
  s <> "" ->
  (if truthy (Str s)
   then if isArray (Str s) then Str s
        else Arr (List.map Str (split ","%char (ToString (Str s))))
   else Undefined) = Spec.ofStrings field ->
  exists piece pieces,
    field = Some (piece :: pieces) /\ String.concat "," (piece :: pieces) = s.
Proof.
  intros Hs H. rewrite (truthy_Str Hs) in H. cbn [isArray ToString] in H.
  destruct field as [l |]; [| discriminate H].
  cbn [Spec.ofStrings] in H. injection H as H. apply map_Str_injective in H.
  pose proof (@split_nonempty ","%char s) as Hne.
  pose proof (concat_split s) as Hjoin. rewrite H in Hne, Hjoin.
  destruct l as [| piece pieces]; [contradiction |].
  exists piece, pieces. split; [reflexivity | exact Hjoin].
Qed.

(** X28.  A comma-separated [tags] or [categories] string of the query
    reaches the upstream request as it was written: the route splits it
    at the commas, the Modtale adapter joins the tags again, and the
    CurseForge adapter joins the categories between brackets. *)
Theorem comma_separated_lists_reach_upstream
    (query : list (string * value)) (params : UnifiedSearchParams.t) :
  Spec.typed (ModsRoutes.parseSearchParams query) params ->
  (forall s, prop (Obj query) "tags" = Str s -> s <> "" ->
     In ("tags", s) (ModtaleProvider.searchQuery params))
  /\ (forall s st, prop (Obj query) "categories" = Str s -> s <> "" ->
        In ("categoryIds", "[" ++ s ++ "]") (CurseForgeProvider.searchQuery st params)).
Proof.
  intros (_ & _ & Hcategories & Htags & _). split.
  - intros s Hq Hs. rewrite parsed_tags, Hq in Htags.
    destruct (@typed_list s _ Hs Htags) as (piece & pieces & Hfield & Hjoin).
    unfold ModtaleProvider.searchQuery. rewrite Hfield, Hjoin.
    apply in_or_app. right. apply in_or_app. right. apply in_or_app. left.
    left. reflexivity.
  - intros s st Hq Hs. rewrite parsed_categories, Hq in Hcategories.
    destruct (@typed_list s _ Hs Hcategories) as (piece & pieces & Hfield & Hjoin).
    unfold CurseForgeProvider.searchQuery. rewrite Hfield, Hjoin.
    apply in_or_app. right. apply in_or_app. right. apply in_or_app. right.
    apply in_or_app. left. left. reflexivity.
Qed.

End SearchParameters.

Lemma search_params_round_trip_witness :
  Spec.typed
    (ModsRoutes.parseSearchParams
       (ModsRoutes.queryOf (ModProviderApi.buildSearchQuery Samples.taggedParams)))
    Samples.taggedParams.
Proof.
  apply (search_params_round_trip (params := Samples.taggedParams)); [| reflexivity].
  unfold Spec.sendable, Spec.listed, Spec.sendableNumber; cbn.
  repeat split; try discriminate; repeat constructor.
Defined.

Lemma comma_separated_lists_reach_upstream_witness :
  In ("tags", "magic,tech") (ModtaleProvider.searchQuery Samples.taggedParams)
  /\ In ("categoryIds", "[12,34]")
        (CurseForgeProvider.searchQuery Samples.curseForgeReady Samples.taggedParams).
Proof.
  assert (Htyped : Spec.typed (ModsRoutes.parseSearchParams Samples.taggedQuery)
                     Samples.taggedParams).
  { unfold Spec.typed. repeat split; reflexivity. }
  destruct (@comma_separated_lists_reach_upstream Samples.taggedQuery Samples.taggedParams Htyped)
    as [Htags Hcategories].
  split.
  - apply Htags; [reflexivity | discriminate].
  - apply (Hcategories "12,34"); [reflexivity | discriminate].
Defined.

(* ================================================================== *)
(** * Initialising the adapters *)
(* ================================================================== *)

Section Initialisation.
Import JS Eff.

Lemma discoverHytaleGame_returns (net : Upstream) s t :
  exists s' t', CurseForgeProvider.discoverHytaleGame net s t = (Ok tt, s', t').
Proof.
  unfold CurseForgeProvider.discoverHytaleGame. unfold bind at 1. unfold read at 1.
  destruct (negb (CurseForgeProvider.isConfigured s)).
  - eexists _, _. reflexivity.
  - match goal with
    | |- context [tryCatch ?c ?h s t] =>
        destruct (@tryCatch_returns _ _ c h s t) as [[] [s' [t' H]]]
    end.
    + intros e s1 t1. eexists _, _, _. reflexivity.
    + exists s', t'. exact H.
Qed.

(** X29.  Initialising an adapter never throws and never takes a key
    away.  A truthy key in the configuration becomes the adapter's key;
    without one the Modtale adapter only logs and the CurseForge
    adapter is left exactly as it was, so an adapter that was
    configured before [initialize] is configured after it, whatever the
    network answers to CurseForge's game discovery. *)
Theorem initialize_never_unconfigures (config : ProviderConfig.t) :
  let given := truthy (ofString (ProviderConfig.apiKey config)) in
  (forall s t, exists s' t',
     ModtaleProvider.initialize config s t = (Ok tt, s', t')
     /\ ModtaleProvider.apiKey s'
        = (if given then ProviderConfig.apiKey config else ModtaleProvider.apiKey s)
     /\ (ModtaleProvider.isConfigured s = true -> ModtaleProvider.isConfigured s' = true))
  /\ (forall net s t, exists s' t',
        CurseForgeProvider.initialize net config s t = (Ok tt, s', t')
        /\ CurseForgeProvider.apiKey s'
           = (if given then ProviderConfig.apiKey config else CurseForgeProvider.apiKey s)
        /\ (given = false -> s' = s)
        /\ (CurseForgeProvider.isConfigured s = true ->
            CurseForgeProvider.isConfigured s' = true)).
Proof.
  cbv zeta. split.
  - intros s t. unfold ModtaleProvider.initialize, ModtaleProvider.isConfigured.
    destruct (truthy (ofString (ProviderConfig.apiKey config))) eqn:Hgiven;
      eexists _, _; (split; [reflexivity |]); cbn [ModtaleProvider.apiKey];
      split; [reflexivity | intros _; exact Hgiven | reflexivity | auto].
  - intros net s t. unfold CurseForgeProvider.initialize, CurseForgeProvider.isConfigured.
    destruct (truthy (ofString (ProviderConfig.apiKey config))) eqn:Hgiven.
    + unfold bind at 1. unfold bind at 1. unfold read at 1. cbv beta iota.
      unfold bind at 1. unfold write at 1. cbv beta iota.
      match goal with
      | |- context [CurseForgeProvider.discoverHytaleGame net ?s0 ?t0] =>
          destruct (discoverHytaleGame_returns net s0 t0) as [s1 [t1 Hrun]];
          pose proof (discoverHytaleGame_frame net s0 t0) as Hkey;
          rewrite Hrun in *
      end.
      unfold Spec.sameKey, store in Hkey. cbn [fst snd CurseForgeProvider.apiKey] in Hkey.
      eexists _, _. split; [reflexivity |]. cbn [CurseForgeProvider.apiKey].
      split; [exact Hkey |]. split; [discriminate |].
      intros _. rewrite Hkey. exact Hgiven.
    + eexists _, _. split; [reflexivity |]. split; [reflexivity |].
      split; [reflexivity | auto].
Qed.

End Initialisation.
